(** * Multi-Agent Interview Coach: the interview control loop

    A shallow embedding of the two controllers of the repository,

      - the stand-alone coach of [interview_system.py]
        (class [MultiAgentInterviewCoach], with [extract_json] and
        [call_llm_with_json_retry]), and
      - the LangGraph controller of [graph.py], [state.py] and
        [agents/agents.py],

    and the properties of the difficulty adapter, the edge-case classifier,
    the escalation gate, the termination policy and the structured-response
    recovery layer.

    Python objects are modelled as they are at run time: a [str] is a
    sequence of code points, the oracle's JSON is an untyped [value], and an
    operation that raises in Python returns [Raise] here.  Mutation is
    explicit state passing in a monad in which the state survives an
    exception, as an object mutated in place does. *)

From Stdlib Require Import ZArith NArith QArith List String Ascii Bool Lia.
From Stdlib Require Import RelationClasses.
Import ListNotations.

Set Implicit Arguments.
Unset Strict Implicit.

Local Open Scope Z_scope.

(* ===================================================================== *)
(** * Python strings *)
(* ===================================================================== *)

(** A Python [str]: its code points, so that [len] counts characters. *)
Definition str : Type := list N.

(** Decoding of the UTF-8 bytes of a Rocq string literal. *)
Fixpoint utf8_go (bs : list N) (acc : N) (pending : nat) : str :=
  match bs with
  | [] => []
  | b :: bs' =>
      match pending with
      | O =>
          if (b <? 128)%N then b :: utf8_go bs' 0%N O
          else if (b <? 224)%N then utf8_go bs' (N.land b 31) 1%nat
          else if (b <? 240)%N then utf8_go bs' (N.land b 15) 2%nat
          else utf8_go bs' (N.land b 7) 3%nat
      | S O => (acc * 64 + N.land b 63)%N :: utf8_go bs' 0%N O
      | S p => utf8_go bs' (acc * 64 + N.land b 63)%N p
      end
  end.

Definition u (s : string) : str :=
  utf8_go (map N_of_ascii (list_ascii_of_string s)) 0%N O.

(** [len(s)] *)
Definition str_len (s : str) : Z := Z.of_nat (List.length s).

(** [a == b] on strings *)
Fixpoint str_eqb (a b : str) : bool :=
  match a, b with
  | [], [] => true
  | x :: a', y :: b' => (x =? y)%N && str_eqb a' b'
  | _, _ => false
  end.

(** [s.startswith(p)] *)
Fixpoint starts_with (p s : str) : bool :=
  match p, s with
  | [], _ => true
  | _ :: _, [] => false
  | x :: p', y :: s' => (x =? y)%N && starts_with p' s'
  end.

(** [p in s], the substring test *)
Fixpoint contains (p s : str) : bool :=
  starts_with p s ||
  match s with
  | [] => false
  | _ :: s' => contains p s'
  end.

(** [s in l] for a list of strings *)
Definition str_mem (s : str) (l : list str) : bool := existsb (str_eqb s) l.

(** [any(p in s for p in phrases)] *)
Definition any_in (phrases : list str) (s : str) : bool :=
  existsb (fun p => contains p s) phrases.

(** Whitespace as [str.isspace], [str.strip] and the regex class [\s] see
    it (CPython's [_PyUnicode_IsWhitespace]). *)
Definition isspace (c : N) : bool :=
  ((9 <=? c) && (c <=? 13) || (28 <=? c) && (c <=? 32) ||
   (c =? 133) || (c =? 160) || (c =? 5760) ||
   (8192 <=? c) && (c <=? 8202) || (c =? 8232) || (c =? 8233) ||
   (c =? 8239) || (c =? 8287) || (c =? 12288))%N.

Fixpoint lstrip (s : str) : str :=
  match s with
  | [] => []
  | c :: s' => if isspace c then lstrip s' else s
  end.

Definition rstrip (s : str) : str := rev (lstrip (rev s)).

(** [s.strip()] *)
Definition strip (s : str) : str := rstrip (lstrip s).

(** [str(n)] for an [int] *)
Definition digit (d : N) : N := (48 + d)%N.

Fixpoint digits_go (fuel : nat) (n : N) (acc : str) : str :=
  match fuel with
  | O => acc
  | S fuel' =>
      let acc' := digit (n mod 10) :: acc in
      if (n / 10 =? 0)%N then acc' else digits_go fuel' (n / 10)%N acc'
  end.

Definition str_of_Z (z : Z) : str :=
  let body := digits_go (S (N.to_nat (N.log2 (Z.abs_N z)))) (Z.abs_N z) [] in
  if z <? 0 then 45%N :: body else body.

(* ===================================================================== *)
(** * Python values, exceptions and the effect monad *)
(* ===================================================================== *)

(** A Python [float]: a finite double is a rational, and comparing it with
    an [int] is exact. *)
Inductive pyfloat : Type :=
| Finite (q : Q)
| PosInf
| NegInf
| NaN.

(** What [json.loads] can return. A [dict] is its list of items; the first
    binding of a key is the one a lookup sees. *)
#[local] Unset Elimination Schemes.
Inductive value : Type :=
| VNone
| VBool (b : bool)
| VInt (z : Z)
| VFloat (f : pyfloat)
| VStr (s : str)
| VList (l : list value)
| VDict (d : list (str * value)).
#[local] Set Elimination Schemes.

(** [{}] *)
Definition empty_record : value := VDict [].

(** [bool(v)], what [if v:], [not v], [and] and [or] test *)
Definition truthy (v : value) : bool :=
  match v with
  | VNone => false
  | VBool b => b
  | VInt z => negb (z =? 0)
  | VFloat (Finite q) => negb (Qeq_bool q 0)
  | VFloat _ => true
  | VStr s => negb (str_len s =? 0)
  | VList l => match l with [] => false | _ :: _ => true end
  | VDict d => match d with [] => false | _ :: _ => true end
  end.

Inductive exn : Type :=
| TypeError
| AttributeError
| KeyError
| APIError
| RecursionLimit.

Inductive res (A : Type) : Type :=
| Ok (a : A)
| Raise (e : exn).
Arguments Ok {A} a.
Arguments Raise {A} e.

(** The number a value is in a comparison: [bool] is a subclass of [int]. *)
Definition as_number (v : value) : option pyfloat :=
  match v with
  | VBool b => Some (Finite (if b then 1 else 0)%Q)
  | VInt z => Some (Finite (inject_Z z))
  | VFloat f => Some f
  | _ => None
  end.

Definition float_ge (f : pyfloat) (k : Z) : bool :=
  match f with
  | Finite q => Qle_bool (inject_Z k) q
  | PosInf => true
  | NegInf | NaN => false
  end.

Definition float_le (f : pyfloat) (k : Z) : bool :=
  match f with
  | Finite q => Qle_bool q (inject_Z k)
  | NegInf => true
  | PosInf | NaN => false
  end.

Definition float_lt (f : pyfloat) (k : Z) : bool :=
  match f with
  | Finite q => negb (Qle_bool (inject_Z k) q)
  | NegInf => true
  | PosInf | NaN => false
  end.

(** [v >= k] and [v < k] for an [int] literal [k]: a [TypeError] unless [v]
    is a number *)
Definition cmp_int (op : pyfloat -> Z -> bool) (v : value) (k : Z) : res bool :=
  match as_number v with
  | Some f => Ok (op f k)
  | None => Raise TypeError
  end.

Definition ge_int : value -> Z -> res bool := cmp_int float_ge.
Definition lt_int : value -> Z -> res bool := cmp_int float_lt.

(** [v == "literal"] *)
Definition eq_str (v : value) (s : str) : bool :=
  match v with
  | VStr t => str_eqb t s
  | _ => false
  end.

(** [v is True] and [v is False] *)
Definition is_True (v : value) : bool :=
  match v with VBool true => true | _ => false end.

Definition is_False (v : value) : bool :=
  match v with VBool false => true | _ => false end.

Fixpoint assoc (k : str) (d : list (str * value)) : option value :=
  match d with
  | [] => None
  | (k', v) :: d' => if str_eqb k k' then Some v else assoc k d'
  end.

(** [v.get(k, default)]: only a [dict] has [get] *)
Definition get_or (v : value) (k : str) (default : value) : res value :=
  match v with
  | VDict d => Ok (match assoc k d with Some x => x | None => default end)
  | _ => Raise AttributeError
  end.

(** [v.get(k)] *)
Definition get (v : value) (k : str) : res value := get_or v k VNone.

(** [v[k]] on what should be a [dict] *)
Definition item (v : value) (k : str) : res value :=
  match v with
  | VDict d => match assoc k d with Some x => Ok x | None => Raise KeyError end
  | _ => Raise TypeError
  end.

(** State and exceptions: [S -> res A * S], the state as the exception
    leaves it. *)
Definition M (S A : Type) : Type := S -> res A * S.

Definition ret {S A} (a : A) : M S A := fun s => (Ok a, s).

Definition bind {S A B} (c : M S A) (k : A -> M S B) : M S B :=
  fun s =>
    match c s with
    | (Ok a, s') => k a s'
    | (Raise e, s') => (Raise e, s')
    end.

Definition lift {S A} (r : res A) : M S A := fun s => (r, s).

Definition read {S} : M S S := fun s => (Ok s, s).

Definition modify {S} (f : S -> S) : M S unit := fun s => (Ok tt, f s).

(** [try: c  except Exception: h] *)
Definition try_except {S A} (c : M S A) (h : exn -> M S A) : M S A :=
  fun s =>
    match c s with
    | (Ok a, s') => (Ok a, s')
    | (Raise e, s') => h e s'
    end.

(** [if b: c] *)
Definition when {S} (b : bool) (c : M S unit) : M S unit :=
  if b then c else ret tt.

(** Running a computation of a component on a larger state. *)
Definition zoom {S T A} (proj : S -> T) (upd : T -> S -> S) (c : M T A) : M S A :=
  fun s => let (r, t) := c (proj s) in (r, upd t s).

Declare Scope py_scope.
Delimit Scope py_scope with py.
Notation "x <- c ;; k" := (bind c (fun x => k))
  (at level 61, c at next level, right associativity) : py_scope.
Notation "c ;; k" := (bind c (fun _ => k))
  (at level 61, right associativity) : py_scope.
Local Open Scope py_scope.

(** What the embedding takes from Python and its standard library:
    [str.lower], [json.loads] ([None] when it raises), [str()] as an
    f-string applies it to a value, and the float that [a / b] is for two
    [int]s. *)
Class PyLib : Type := {
  lower : str -> str;
  json_loads : str -> option value;
  to_str : value -> str;
  true_div : Z -> Z -> pyfloat
}.

(** Arithmetic on the sampling temperature, a [float] in the source. *)
Class FloatArith (F : Type) : Type := {
  f_lit : Q -> F;
  f_of_int : Z -> F;
  f_sub : F -> F -> F;
  f_mul : F -> F -> F;
  f_max : F -> F -> F
}.

(** Exact rationals as one reading of the temperature arithmetic. *)
#[export] Instance FloatArith_Q : FloatArith Q := {
  f_lit := fun q => q;
  f_of_int := inject_Z;
  f_sub := Qminus;
  f_mul := Qmult;
  f_max := fun a b => if Qle_bool b a then a else b
}.

(* ===================================================================== *)
(** * The oracle and the trace of a run *)
(* ===================================================================== *)

(** One call of the text-generation service: the request fails, or it
    answers with a text. *)
Inductive outcome : Type :=
| Fails
| Replies (text : str).

(** Operations whose entry a run records. *)
Inductive operation : Type :=
| MentorAnalyze
| FactCheck
| InterviewerRespond
| FeedbackGenerate
| DetectEdgeCase
| AdjustDifficulty.

Inductive event (F : Type) : Type :=
| LLMCall (prompt : str) (temperature : F)
| Sleep (seconds : Q)
| Enter (op : operation).
Arguments LLMCall {F} prompt temperature.
Arguments Sleep {F} seconds.
Arguments Enter {F} op.

(** The outside world of a session: the oracle's answers, one per call in
    the order the calls are made, how many calls it has served, and the
    trace of the run so far (oldest event first). *)
Record World (F : Type) : Type := mkWorld {
  tape : nat -> outcome;
  served : nat;
  trace : list (event F)
}.
Arguments mkWorld {F} tape served trace.

Definition emit {F} (e : event F) : M (World F) unit :=
  modify (fun w => mkWorld (tape w) (served w) (trace w ++ [e])).

(* ===================================================================== *)
(** * Structured-response recovery ([interview_system.py]) *)
(* ===================================================================== *)

Section Recovery.

Context {py : PyLib} {F : Type} {fa : FloatArith F}.

(** [call_llm(prompt, temperature)]: one request to the service; the text
    of the first choice, or the client's exception. *)
Definition call_llm (prompt : str) (temperature : F) : M (World F) str :=
  fun w =>
    let w' := mkWorld (tape w) (S (served w))
                      (trace w ++ [LLMCall prompt temperature]) in
    match tape w (served w) with
    | Fails => (Raise APIError, w')
    | Replies text => (Ok text, w')
    end.

(** [time.sleep(seconds)] *)
Definition sleep (seconds : Q) : M (World F) unit := emit (Sleep seconds).

Definition fence : str := u "```".
Definition fence_json : str := u "```json".
Definition lbrace : N := 123%N.
Definition rbrace : N := 125%N.
Definition newline : N := 10%N.

Fixpoint drop_prefix (p s : str) : option str :=
  match p, s with
  | [], _ => Some s
  | _ :: _, [] => None
  | x :: p', y :: s' => if (x =? y)%N then drop_prefix p' s' else None
  end.

(** [re.sub('^' + p + '\s*', '', s)]: an anchored pattern matches at the
    start of the text only. *)
Definition sub_leading (p s : str) : str :=
  match drop_prefix p s with
  | Some rest => lstrip rest
  | None => s
  end.

(** [re.sub(r'\s*```$', '', s)]: [$] is the end of the text, or the place
    before a newline that ends it; the leftmost match takes the whole run of
    whitespace before the fence. *)
Definition sub_trailing_fence (s : str) : str :=
  let r := rev s in
  match drop_prefix (rev fence) r with
  | Some before => rev (lstrip before)
  | None =>
      match drop_prefix (newline :: rev fence) r with
      | Some before => rev (lstrip before) ++ [newline]
      | None => s
      end
  end.

Fixpoint drop_until (c : N) (s : str) : str :=
  match s with
  | [] => []
  | x :: s' => if (x =? c)%N then s else drop_until c s'
  end.

(** [re.search(r'\{[\s\S]*\}', s)]: from the first opening brace to the
    last closing brace after it; [None] when there is no such span. *)
Definition search_braces (s : str) : option str :=
  match rev (drop_until rbrace (rev (drop_until lbrace s))) with
  | [] => None
  | span => Some span
  end.

(** [extract_json(text)] *)
Definition extract_json (text : str) : value :=
  let text := sub_leading fence_json (strip text) in
  let text := sub_leading fence text in
  let text := sub_trailing_fence text in
  let whole :=
    match json_loads text with
    | Some v => v
    | None => empty_record
    end in
  match search_braces text with
  | Some span =>
      match json_loads span with
      | Some v => v
      | None => whole
      end
  | None => whole
  end.

(** The instruction that a repeated attempt appends to the prompt. *)
Definition strict_instruction (attempt : Z) : str :=
  [newline; newline] ++ u "КРИТИЧЕСКИ ВАЖНО (попытка " ++
  str_of_Z (attempt + 1) ++ u "):" ++ [newline] ++
  u "- Верни ТОЛЬКО валидный JSON" ++ [newline] ++
  u "- НЕ добавляй никакого текста до или после JSON" ++ [newline] ++
  u "- НЕ используй ```json или другие обёртки" ++ [newline] ++
  u "- Начни ответ сразу с открывающей фигурной скобки {" ++ [newline].

(** The body of the loop of [call_llm_with_json_retry] for one [attempt]:
    [Some result] when it returns, [None] when the loop goes on. *)
Definition attempt_body (prompt : str) (max_retries : Z) (temperature : F)
    (attempt : Z) : M (World F) (option value) :=
  try_except
    (let current_temp :=
       f_max (f_lit (3 # 10))
             (f_sub temperature (f_mul (f_of_int attempt) (f_lit (2 # 10)))) in
     resp <- (if 0 <? attempt
              then call_llm (prompt ++ strict_instruction attempt) current_temp
              else call_llm prompt current_temp) ;;
     let result := extract_json resp in
     if truthy result then ret (Some result)
     else
       when (attempt <? max_retries - 1) (sleep (1 # 2)) ;;
       ret None)
    (fun _ =>
       when (attempt <? max_retries - 1) (sleep 1) ;;
       ret None).

Fixpoint for_attempts (prompt : str) (max_retries : Z) (temperature : F)
    (attempts : list Z) : M (World F) value :=
  match attempts with
  | [] => ret empty_record
  | attempt :: rest =>
      r <- attempt_body prompt max_retries temperature attempt ;;
      match r with
      | Some result => ret result
      | None => for_attempts prompt max_retries temperature rest
      end
  end.

(** [range(n)] *)
Definition range (n : Z) : list Z := map Z.of_nat (seq 0 (Z.to_nat n)).

(** [call_llm_with_json_retry(prompt, max_retries, temperature)] *)
Definition call_llm_with_json_retry (prompt : str) (max_retries : Z)
    (temperature : F) : M (World F) value :=
  for_attempts prompt max_retries temperature (range max_retries).

End Recovery.

(* ===================================================================== *)
(** * The stand-alone coach ([interview_system.py]): its state *)
(* ===================================================================== *)

Inductive role : Type := Assistant | User.

(** An entry of [self.history]: [{"role": ..., "content": ...}] *)
Record message : Type := mkMessage {
  msg_role : role;
  msg_content : str
}.

(** [InternalThought] (the timestamp is left out) *)
Record thought : Type := mkThought {
  from_agent : str;
  to_agent : str;
  content : str
}.

(** The tag that [_detect_edge_case] returns; Python's [None] is [None]. *)
Inductive edge_case : Type := Silence | DontKnow | Rude | Troll.

Definition edge_case_name (e : option edge_case) : str :=
  match e with
  | Some Silence => u "silence"
  | Some DontKnow => u "dont_know"
  | Some Rude => u "rude"
  | Some Troll => u "troll"
  | None => u "none"
  end.

Record candidate_info : Type := mkCandidate {
  cand_name : str;
  cand_position : str;
  cand_grade : str;
  cand_experience : str
}.

(** An entry of [self.questions_asked] *)
Record question : Type := mkQuestion {
  q_question : str;
  q_answer : str;
  q_is_correct : value;
  q_correctness_score : value;
  q_edge_case : option edge_case
}.

(** An entry of [self.turns] (the timestamp is left out) *)
Record turn_entry : Type := mkTurn {
  turn_id : Z;
  agent_visible_message : str;
  user_message : str;
  internal_thoughts : str;
  difficulty_level : Z;
  turn_edge_case : option edge_case
}.

(** The attributes of a [MultiAgentInterviewCoach]. [candidate] is [None]
    for the empty dict of [__init__], [final_feedback] is [None] while the
    attribute is not set. *)
Record Coach : Type := mkCoach {
  candidate : option candidate_info;
  history : list message;
  turns : list turn_entry;
  thoughts : list thought;
  red_flags : list str;
  turn_num : Z;
  finished : bool;
  difficulty : Z;
  correct_streak : Z;
  difficulty_history : list Z;
  topics_covered : list value;
  questions_asked : list question;
  final_feedback : option value
}.

(** [MultiAgentInterviewCoach.__init__] *)
Definition new_coach : Coach :=
  {| candidate := None; history := []; turns := []; thoughts := [];
     red_flags := []; turn_num := 0; finished := false; difficulty := 2;
     correct_streak := 0; difficulty_history := []; topics_covered := [];
     questions_asked := []; final_feedback := None |}.

Definition set_candidate (x : option candidate_info) (c : Coach) : Coach :=
  mkCoach x (history c) (turns c) (thoughts c) (red_flags c) (turn_num c)
    (finished c) (difficulty c) (correct_streak c) (difficulty_history c)
    (topics_covered c) (questions_asked c) (final_feedback c).

Definition set_history (x : list message) (c : Coach) : Coach :=
  mkCoach (candidate c) x (turns c) (thoughts c) (red_flags c) (turn_num c)
    (finished c) (difficulty c) (correct_streak c) (difficulty_history c)
    (topics_covered c) (questions_asked c) (final_feedback c).

Definition set_turns (x : list turn_entry) (c : Coach) : Coach :=
  mkCoach (candidate c) (history c) x (thoughts c) (red_flags c) (turn_num c)
    (finished c) (difficulty c) (correct_streak c) (difficulty_history c)
    (topics_covered c) (questions_asked c) (final_feedback c).

Definition set_thoughts (x : list thought) (c : Coach) : Coach :=
  mkCoach (candidate c) (history c) (turns c) x (red_flags c) (turn_num c)
    (finished c) (difficulty c) (correct_streak c) (difficulty_history c)
    (topics_covered c) (questions_asked c) (final_feedback c).

Definition set_red_flags (x : list str) (c : Coach) : Coach :=
  mkCoach (candidate c) (history c) (turns c) (thoughts c) x (turn_num c)
    (finished c) (difficulty c) (correct_streak c) (difficulty_history c)
    (topics_covered c) (questions_asked c) (final_feedback c).

Definition set_turn_num (x : Z) (c : Coach) : Coach :=
  mkCoach (candidate c) (history c) (turns c) (thoughts c) (red_flags c) x
    (finished c) (difficulty c) (correct_streak c) (difficulty_history c)
    (topics_covered c) (questions_asked c) (final_feedback c).

Definition set_finished (x : bool) (c : Coach) : Coach :=
  mkCoach (candidate c) (history c) (turns c) (thoughts c) (red_flags c)
    (turn_num c) x (difficulty c) (correct_streak c) (difficulty_history c)
    (topics_covered c) (questions_asked c) (final_feedback c).

Definition set_difficulty (x : Z) (c : Coach) : Coach :=
  mkCoach (candidate c) (history c) (turns c) (thoughts c) (red_flags c)
    (turn_num c) (finished c) x (correct_streak c) (difficulty_history c)
    (topics_covered c) (questions_asked c) (final_feedback c).

Definition set_correct_streak (x : Z) (c : Coach) : Coach :=
  mkCoach (candidate c) (history c) (turns c) (thoughts c) (red_flags c)
    (turn_num c) (finished c) (difficulty c) x (difficulty_history c)
    (topics_covered c) (questions_asked c) (final_feedback c).

Definition set_difficulty_history (x : list Z) (c : Coach) : Coach :=
  mkCoach (candidate c) (history c) (turns c) (thoughts c) (red_flags c)
    (turn_num c) (finished c) (difficulty c) (correct_streak c) x
    (topics_covered c) (questions_asked c) (final_feedback c).

Definition set_topics_covered (x : list value) (c : Coach) : Coach :=
  mkCoach (candidate c) (history c) (turns c) (thoughts c) (red_flags c)
    (turn_num c) (finished c) (difficulty c) (correct_streak c)
    (difficulty_history c) x (questions_asked c) (final_feedback c).

Definition set_questions_asked (x : list question) (c : Coach) : Coach :=
  mkCoach (candidate c) (history c) (turns c) (thoughts c) (red_flags c)
    (turn_num c) (finished c) (difficulty c) (correct_streak c)
    (difficulty_history c) (topics_covered c) x (final_feedback c).

Definition set_final_feedback (x : option value) (c : Coach) : Coach :=
  mkCoach (candidate c) (history c) (turns c) (thoughts c) (red_flags c)
    (turn_num c) (finished c) (difficulty c) (correct_streak c)
    (difficulty_history c) (topics_covered c) (questions_asked c) x.

(** A coach together with the world it runs in. *)
Record Sys (F : Type) : Type := mkSys {
  world : World F;
  coach : Coach
}.
Arguments mkSys {F} world coach.

(** Texts whose wording the control loop does not read: the prompts of the
    four agents, Python's [==] on the values the oracle sends (for the
    [not in] test on topics), and the rendering of the final report. Each
    may raise, as the f-strings and [join] calls that build them may. *)
Class Texts : Type := {
  value_in : value -> list value -> bool;
  interviewer_prompt :
    option candidate_info -> list message -> value -> Z -> Z -> Z ->
    list value -> option edge_case -> res str;
  mentor_prompt : str -> list message -> Z -> list value -> res str;
  fact_check_prompt : str -> res str;
  feedback_prompt :
    list message -> list thought -> option candidate_info -> list Z ->
    list question -> res str;
  render_report : Coach -> value -> res str
}.

(* ===================================================================== *)
(** * The stand-alone coach: agents and controller *)
(* ===================================================================== *)

(** [l[-k]] for [k >= 1]; [None] when [len(l) < k] *)
Definition from_end {A} (k : nat) (l : list A) : option A :=
  nth_error (rev l) (pred k).

(** [d[k] = v] on the items of a dict *)
Fixpoint dict_set (k : str) (v : value) (d : list (str * value))
  : list (str * value) :=
  match d with
  | [] => [(k, v)]
  | (k', v') :: d' =>
      if str_eqb k k' then (k', v) :: d' else (k', v') :: dict_set k v d'
  end.

(** [v += s] for a string literal [s]: concatenation on a [str], extension
    by the characters on a [list], a [TypeError] otherwise *)
Definition add_str (v : value) (s : str) : res value :=
  match v with
  | VStr t => Ok (VStr (t ++ s))
  | VList l => Ok (VList (l ++ map (fun c => VStr [c]) s))
  | _ => Raise TypeError
  end.

Section CoachOps.

Context {py : PyLib} {F : Type} {fa : FloatArith F} {tx : Texts}.

Definition in_world {A} (c : M (World F) A) : M (Sys F) A :=
  zoom (@world F) (fun w s => mkSys w (coach s)) c.

(** Reading and updating the attributes of [self]. *)
Definition self : M (Sys F) Coach := fun s => (Ok (coach s), s).

Definition update (f : Coach -> Coach) : M (Sys F) unit :=
  modify (fun s => mkSys (world s) (f (coach s))).

Definition enter (op : operation) : M (Sys F) unit :=
  in_world (emit (Enter op)).

(** [InterviewerAgent.generate_response] *)
Definition generate_response (cand : option candidate_info)
    (hist : list message) (mentor_advice : value) (turn dif streak : Z)
    (topics : list value) (edge : option edge_case) : M (Sys F) str :=
  enter InterviewerRespond ;;
  prompt <- lift (interviewer_prompt cand hist mentor_advice turn dif streak
                    topics edge) ;;
  in_world (call_llm prompt (f_lit (7 # 10))).

(** The record [MentorAgent.analyze] puts in place of an empty one. *)
Definition default_analysis : value :=
  VDict [ (u "analysis", VStr (u "Анализ не выполнен"));
          (u "is_correct", VNone);
          (u "correctness_score", VInt 50);
          (u "confidence_level", VStr (u "medium"));
          (u "red_flags", VList []);
          (u "is_hallucination", VBool false);
          (u "is_off_topic", VBool false);
          (u "is_dont_know", VBool false);
          (u "is_silence", VBool false);
          (u "is_rude", VBool false);
          (u "topic_detected", VStr []);
          (u "difficulty_recommendation", VStr (u "maintain"));
          (u "recommendation", VStr (u "Продолжить интервью"));
          (u "suggested_action", VStr (u "continue")) ].

(** [MentorAgent.analyze] *)
Definition mentor_analyze (user_msg : str) (hist : list message)
    (current_difficulty : Z) (topics : list value) : M (Sys F) value :=
  enter MentorAnalyze ;;
  prompt <- lift (mentor_prompt user_msg hist current_difficulty topics) ;;
  result <- in_world (call_llm_with_json_retry prompt 3 (f_lit (5 # 10))) ;;
  ret (if truthy result then result else default_analysis).

(** The record [FactCheckerAgent.check] puts in place of an empty one. *)
Definition default_fact_check : value :=
  VDict [ (u "is_true", VBool false);
          (u "explanation", VStr (u "Не удалось проверить утверждение"));
          (u "correct_info", VStr []) ].

(** [FactCheckerAgent.check] *)
Definition fact_checker_check (stmt : str) : M (Sys F) value :=
  enter FactCheck ;;
  prompt <- lift (fact_check_prompt stmt) ;;
  result <- in_world (call_llm_with_json_retry prompt 3 (f_lit (3 # 10))) ;;
  ret (if truthy result then result else default_fact_check).

Definition tutorial_link : value :=
  VStr (u "https://docs.python.org/3/tutorial/ - Официальный туториал Python").

Definition realpython_link : value :=
  VStr (u "https://realpython.com/ - Практические руководства по Python").

Definition habr_link : value :=
  VStr (u "https://habr.com/ru/hubs/python/ - Статьи о Python на Хабре").

(** [sum(l) / len(l) if l else 0] *)
Definition average (l : list Z) : value :=
  match l with
  | [] => VInt 0
  | _ :: _ => VFloat (true_div (fold_right Z.add 0 l) (Z.of_nat (List.length l)))
  end.

(** [max(l) if l else 0] *)
Definition maximum (l : list Z) : Z :=
  match l with
  | [] => 0
  | x :: l' => fold_left Z.max l' x
  end.

(** The record [FeedbackGeneratorAgent.generate] puts in place of an empty
    one. *)
Definition default_feedback (difficulty_history : list Z) : value :=
  VDict [ (u "verdict",
           VDict [ (u "grade", VStr (u "Unknown"));
                   (u "hiring_recommendation", VStr (u "No Hire"));
                   (u "confidence_score", VInt 0) ]);
          (u "technical_review",
           VDict [ (u "confirmed_skills", VList []);
                   (u "knowledge_gaps", VList []) ]);
          (u "soft_skills",
           VDict [ (u "clarity", VInt 5); (u "honesty", VInt 5);
                   (u "engagement", VInt 5); (u "comments", VStr []) ]);
          (u "roadmap",
           VDict [ (u "topics_to_improve", VList []);
                   (u "resources", VList [tutorial_link; realpython_link]) ]);
          (u "difficulty_analysis",
           VDict [ (u "average_level", average difficulty_history);
                   (u "max_reached", VInt (maximum difficulty_history));
                   (u "progression", VStr []) ]);
          (u "summary", VStr (u "Не удалось сгенерировать отчет")) ].

(** [result["roadmap"]["resources"] = links] *)
Definition set_resources (result : value) (links : value) : res value :=
  match item result (u "roadmap") with
  | Raise e => Raise e
  | Ok (VDict roadmap) =>
      match result with
      | VDict d =>
          Ok (VDict (dict_set (u "roadmap")
                       (VDict (dict_set (u "resources") links roadmap)) d))
      | _ => Raise TypeError
      end
  | Ok _ => Raise TypeError
  end.

(** [FeedbackGeneratorAgent.generate] *)
Definition feedback_generate (hist : list message) (ths : list thought)
    (cand : option candidate_info) (difficulty_history : list Z)
    (questions : list question) : M (Sys F) value :=
  enter FeedbackGenerate ;;
  prompt <- lift (feedback_prompt hist ths cand difficulty_history questions) ;;
  result <- in_world (call_llm_with_json_retry prompt 3 (f_lit (5 # 10))) ;;
  let result :=
    if truthy result then result else default_feedback difficulty_history in
  roadmap <- lift (get_or result (u "roadmap") (VDict [])) ;;
  resources <- lift (get roadmap (u "resources")) ;;
  if truthy resources then ret result
  else lift (set_resources result
               (VList [tutorial_link; realpython_link; habr_link])).

(** The grade-derived level of [start] *)
Definition start_difficulty (grade : str) : Z :=
  let grade_lower := lower grade in
  if contains (u "senior") grade_lower then 8
  else if contains (u "middle") grade_lower then 6
  else if contains (u "junior+") grade_lower
          || contains (u "junior plus") grade_lower then 5
  else if contains (u "junior") grade_lower then 3
  else 2.

(** [MultiAgentInterviewCoach.start] *)
Definition start (name position grade exp : str) : M (Sys F) str :=
  update (set_candidate (Some (mkCandidate name position grade exp))) ;;
  update (set_difficulty (start_difficulty grade)) ;;
  update (fun c => set_difficulty_history
                     (difficulty_history c ++ [difficulty c]) c) ;;
  c <- self ;;
  resp <- generate_response (candidate c) [] (VStr []) 0 (difficulty c)
            (correct_streak c) (topics_covered c) None ;;
  update (fun c => set_history (history c ++ [mkMessage Assistant resp]) c) ;;
  ret resp.

(** [MultiAgentInterviewCoach._adjust_difficulty] *)
Definition _adjust_difficulty (analysis : value) : M (Sys F) unit :=
  enter AdjustDifficulty ;;
  recommendation <-
    lift (get_or analysis (u "difficulty_recommendation") (VStr (u "maintain"))) ;;
  correctness <- lift (get_or analysis (u "correctness_score") (VInt 50)) ;;
  is_correct <- lift (get_or analysis (u "is_correct") (VBool false)) ;;
  good <- (if truthy is_correct then lift (ge_int correctness 80)
           else ret false) ;;
  update (fun c => set_correct_streak
                     (if good then correct_streak c + 1 else 0) c) ;;
  c <- self ;;
  (if truthy is_correct &&
      (eq_str recommendation (u "increase") || (2 <=? correct_streak c))
   then
     update (fun c => set_correct_streak 0
                        (set_difficulty (Z.min 10 (difficulty c + 1)) c))
   else
     lower_it <- (if eq_str recommendation (u "decrease") then ret true
                  else if negb (truthy is_correct)
                       then lift (lt_int correctness 40)
                       else ret false) ;;
     when lower_it
       (update (fun c => set_difficulty (Z.max 1 (difficulty c - 1)) c))) ;;
  update (fun c => set_difficulty_history
                     (difficulty_history c ++ [difficulty c]) c).

Definition silence_tokens : list str := [u "."; u "..."; u "-"; u "—"].

Definition dont_know_phrases : list str :=
  [ u "не знаю"; u "не помню"; u "не сталкивался"; u "не уверен";
    u "затрудняюсь"; u "не могу ответить"; u "пропустить"; u "skip";
    u "не изучал"; u "не работал с этим"; u "не приходилось" ].

Definition rude_phrases : list str :=
  [ u "отстань"; u "достал"; u "надоел"; u "глупый вопрос"; u "тупой";
    u "идиот"; u "дурак"; u "пошёл"; u "отвали"; u "заткнись" ].

Definition troll_indicators : list str :=
  [ u "42"; u "потому что"; u "а зачем"; u "не скажу"; u "угадай";
    u "секрет"; u "магия"; u "потому что гладиолус" ].

(** [MultiAgentInterviewCoach._detect_edge_case]; it reads no attribute of
    [self], so it is a function of its two arguments. *)
Definition _detect_edge_case (user_msg : str) (analysis : value)
  : res (option edge_case) :=
  let msg_lower := strip (lower user_msg) in
  if (str_len msg_lower <? 3) || str_mem msg_lower silence_tokens
  then Ok (Some Silence)
  else
    match (if any_in dont_know_phrases msg_lower then Ok true
           else match get analysis (u "is_dont_know") with
                | Ok v => Ok (truthy v)
                | Raise e => Raise e
                end) with
    | Raise e => Raise e
    | Ok true => Ok (Some DontKnow)
    | Ok false =>
        match (if any_in rude_phrases msg_lower then Ok true
               else match get analysis (u "is_rude") with
                    | Ok v => Ok (truthy v)
                    | Raise e => Raise e
                    end) with
        | Raise e => Raise e
        | Ok true => Ok (Some Rude)
        | Ok false =>
            if str_mem msg_lower troll_indicators
               || ((str_len msg_lower <? 10) && contains (u "?") msg_lower)
            then
              match get_or analysis (u "correctness_score") (VInt 50) with
              | Raise e => Raise e
              | Ok score =>
                  match lt_int score 10 with
                  | Raise e => Raise e
                  | Ok false => Ok None
                  | Ok true =>
                      match get analysis (u "is_question_from_candidate") with
                      | Raise e => Raise e
                      | Ok q => if truthy q then Ok None else Ok (Some Troll)
                      end
                  end
              end
            else Ok None
        end
    end.

(** [MultiAgentInterviewCoach._gen_feedback] *)
Definition _gen_feedback : M (Sys F) str :=
  update (set_finished true) ;;
  c <- self ;;
  feedback <- feedback_generate (history c) (thoughts c) (candidate c)
                (difficulty_history c) (questions_asked c) ;;
  c <- self ;;
  report <- lift (render_report c feedback) ;;
  update (set_final_feedback (Some feedback)) ;;
  ret report.

Definition stop_commands : list str :=
  [u "стоп"; u "stop"; u "фидбэк"; u "feedback"].

(** The content of the mentor's [InternalThought] in [process] *)
Definition mentor_thought_content (analysis : value)
    (edge : option edge_case) : res str :=
  match get_or analysis (u "analysis") (VStr []),
        get_or analysis (u "correctness_score") (VStr (u "?")),
        get_or analysis (u "confidence_level") (VStr (u "unknown")),
        get_or analysis (u "difficulty_recommendation") (VStr (u "maintain")),
        get_or analysis (u "recommendation") (VStr []) with
  | Ok a, Ok s, Ok c, Ok d, Ok r =>
      Ok (u "Анализ: " ++ to_str a ++ u ". " ++
          u "Корректность: " ++ to_str s ++ u "%. " ++
          u "Уверенность: " ++ to_str c ++ u ". " ++
          u "Сложность: " ++ to_str d ++ u ". " ++
          u "Edge case: " ++ edge_case_name edge ++ u ". " ++
          u "Рекомендация: " ++ to_str r)
  | Raise e, _, _, _, _ => Raise e
  | _, Raise e, _, _, _ => Raise e
  | _, _, Raise e, _, _ => Raise e
  | _, _, _, Raise e, _ => Raise e
  | _, _, _, _, Raise e => Raise e
  end.

(** The escalation of [process]: the fact-check of the message and what it
    adds to the red flags and to the thoughts; the result is [fc_thought]. *)
Definition escalate (user_msg : str) (analysis : value)
  : M (Sys F) (option thought) :=
  hallucination <- lift (get analysis (u "is_hallucination")) ;;
  if truthy hallucination then
    fc_result <- fact_checker_check user_msg ;;
    is_true <- lift (get_or fc_result (u "is_true") (VBool true)) ;;
    if negb (truthy is_true) then
      explanation <- lift (get_or fc_result (u "explanation")
                             (VStr (u "Некорректное утверждение"))) ;;
      correct_info <- lift (get_or fc_result (u "correct_info") (VStr [])) ;;
      let flag := u "ГАЛЛЮЦИНАЦИЯ: " ++ to_str explanation ++
                  u ". Правильная информация: " ++ to_str correct_info in
      update (fun c => set_red_flags (red_flags c ++ [flag]) c) ;;
      explanation' <- lift (get_or fc_result (u "explanation") (VStr [])) ;;
      let fc_thought :=
        mkThought (u "FactChecker") (u "Interviewer")
          (u "ALERT: Пользователь галлюцинирует. " ++ to_str explanation' ++
           u ". " ++ u "Правильная информация: " ++ to_str correct_info ++
           u ". " ++ u "Это критическая ошибка знаний. Пометь как 'red flag'.") in
      update (fun c => set_thoughts (thoughts c ++ [fc_thought]) c) ;;
      ret (Some fc_thought)
    else ret None
  else ret None.

(** The advice of [process] for the interviewer *)
Definition advise (analysis : value) (fc_thought : option thought)
    (edge : option edge_case) : res value :=
  match get_or analysis (u "recommendation") (VStr []) with
  | Raise e => Raise e
  | Ok advice =>
      match fc_thought with
      | Some t => Ok (VStr (u "ВАЖНО: " ++ content t))
      | None =>
          match get analysis (u "is_question_from_candidate") with
          | Raise e => Raise e
          | Ok q =>
              if truthy q then
                Ok (VStr (u "Кандидат задал вопрос. ОБЯЗАТЕЛЬНО ответь на него кратко и профессионально, затем продолжи интервью."))
              else
                match get analysis (u "is_off_topic") with
                | Raise e => Raise e
                | Ok o =>
                    if truthy o then
                      Ok (VStr (u "Кандидат ушёл от темы. Вежливо верни беседу к техническому интервью."))
                    else
                      match edge with
                      | Some DontKnow =>
                          Ok (VStr (u "Кандидат признал незнание. Похвали за честность, КРАТКО объясни правильный ответ и перейди к более простой теме."))
                      | Some Silence =>
                          Ok (VStr (u "Кандидат молчит или дал пустой ответ. Подбодри его и переформулируй вопрос проще."))
                      | Some Rude =>
                          Ok (VStr (u "Кандидат ведёт себя непрофессионально. Сохраняй спокойствие, напомни о формате интервью."))
                      | Some Troll =>
                          Ok (VStr (u "Кандидат даёт несерьёзные ответы. Игнорируй и задай следующий вопрос."))
                      | None =>
                          match get analysis (u "difficulty_recommendation") with
                          | Raise e => Raise e
                          | Ok r =>
                              if eq_str r (u "increase") then
                                add_str advice (u " Кандидат справляется хорошо — задай более сложный вопрос.")
                              else if eq_str r (u "decrease") then
                                add_str advice (u " Кандидат затрудняется — упрости следующий вопрос или дай подсказку.")
                              else Ok advice
                          end
                      end
                end
          end
      end
  end.

(** The part of [process] that adapts the difficulty to the turn: the
    adapter on a turn without an edge case, one level down on [dont_know]
    and [silence], nothing on [rude] and [troll]. *)
Definition adapt (edge : option edge_case) (analysis : value)
  : M (Sys F) unit :=
  match edge with
  | None => _adjust_difficulty analysis
  | Some DontKnow | Some Silence =>
      update (fun c => set_difficulty (Z.max 1 (difficulty c - 1)) c) ;;
      update (fun c => set_difficulty_history
                         (difficulty_history c ++ [difficulty c]) c)
  | Some Rude | Some Troll => ret tt
  end.

(** [MultiAgentInterviewCoach.process] *)
Definition process (user_msg : str) : M (Sys F) str :=
  update (fun c => set_turn_num (turn_num c + 1) c) ;;
  update (fun c => set_history (history c ++ [mkMessage User user_msg]) c) ;;
  if any_in stop_commands (lower user_msg) then _gen_feedback
  else
    c <- self ;;
    analysis <- mentor_analyze user_msg (history c) (difficulty c)
                  (topics_covered c) ;;
    enter DetectEdgeCase ;;
    edge <- lift (_detect_edge_case user_msg analysis) ;;
    topic <- lift (get analysis (u "topic_detected")) ;;
    when (truthy topic)
      (update (fun c =>
         if value_in topic (topics_covered c) then c
         else set_topics_covered (topics_covered c ++ [topic]) c)) ;;
    c <- self ;;
    match from_end 2 (history c) with
    | Some m =>
        let last_question :=
          match msg_role m with Assistant => msg_content m | User => [] end in
        is_correct <- lift (get analysis (u "is_correct")) ;;
        score <- lift (get_or analysis (u "correctness_score") (VInt 0)) ;;
        update (fun c => set_questions_asked
                  (questions_asked c ++
                   [mkQuestion last_question user_msg is_correct score edge]) c)
    | None => ret tt
    end ;;
    adapt edge analysis ;;
    thought_content <- lift (mentor_thought_content analysis edge) ;;
    let mentor_thought :=
      mkThought (u "Observer") (u "Interviewer") thought_content in
    update (fun c => set_thoughts (thoughts c ++ [mentor_thought]) c) ;;
    fc_thought <- escalate user_msg analysis ;;
    advice <- lift (advise analysis fc_thought edge) ;;
    c <- self ;;
    resp <- generate_response (candidate c) (history c) advice (turn_num c)
              (difficulty c) (correct_streak c) (topics_covered c) edge ;;
    update (fun c => set_history (history c ++ [mkMessage Assistant resp]) c) ;;
    let thoughts_str :=
      u "[Observer]: " ++ content mentor_thought ++
      match fc_thought with
      | Some t => u " [FactChecker]: " ++ content t
      | None => []
      end in
    c <- self ;;
    let last_msg :=
      match from_end 3 (history c) with
      | Some m => msg_content m
      | None => []
      end in
    update (fun c => set_turns
              (turns c ++ [mkTurn (turn_num c) last_msg user_msg thoughts_str
                             (difficulty c) edge]) c) ;;
    ret resp.

End CoachOps.

(* ===================================================================== *)
(** * The LangGraph controller ([state.py], [agents/agents.py], [graph.py]) *)
(* ===================================================================== *)

(** [for x in v]: the items a loop over a value sees; a number, a bool or
    [None] is not iterable. *)
Definition iterate (v : value) : res (list value) :=
  match v with
  | VList l => Ok l
  | VStr s => Ok (map (fun c => VStr [c]) s)
  | VDict d => Ok (map (fun kv => VStr (fst kv)) d)
  | _ => Raise TypeError
  end.

(** [v[:50]]: a slice of a [str] or a [list]; other values raise. *)
Definition slice50 (v : value) : res value :=
  match v with
  | VStr s => Ok (VStr (firstn 50 s))
  | VList l => Ok (VList (firstn 50 l))
  | _ => Raise TypeError
  end.

(** [a or b] on optional strings ([None] and the empty string are falsy) *)
Definition or_str (a b : option str) : option str :=
  match a with
  | Some (_ :: _) => a
  | _ => b
  end.

Module Graph.

Inductive base_message : Type :=
| HumanMessage (text : str)
| AIMessage (text : str).

(** [Turn] of [state.py] *)
Record turn : Type := mkTurn {
  turn_id : Z;
  agent_visible_message : str;
  user_message : str;
  internal_thoughts : str
}.

(** [InterviewState] *)
Record InterviewState : Type := mkState {
  messages : list base_message;
  candidate : candidate_info;
  turns : list turn;
  thoughts : list thought;
  current_turn : Z;
  topics_covered : list str;
  confirmed_skills : list value;
  knowledge_gaps : list value;
  red_flags : list str;
  difficulty_level : Z;
  correct_streak : Z;
  difficulty_mode : str;
  difficulty_history : list Z;
  interview_finished : bool;
  final_feedback : value
}.

(** [_grade_to_initial_difficulty] *)
Definition _grade_to_initial_difficulty {py : PyLib} (grade : option str) : Z :=
  let grade_lower := lower (match grade with Some g => g | None => [] end) in
  if contains (u "senior") grade_lower then 8
  else if contains (u "middle") grade_lower then 6
  else if contains (u "junior+") grade_lower
          || contains (u "junior plus") grade_lower then 5
  else if contains (u "junior") grade_lower then 3
  else 2.

Definition nonempty (s : option str) : bool :=
  match s with Some (_ :: _) => true | _ => false end.

(** [create_initial_state]: [None] for the [ValueError] of a missing
    field. *)
Definition create_initial_state {py : PyLib}
    (candidate_name name position pos grade experience exp : option str)
    (mode : str) (initial_difficulty_level : option Z)
  : option InterviewState :=
  let resolved_name := or_str candidate_name name in
  let resolved_pos := or_str position pos in
  let resolved_exp := or_str experience exp in
  match resolved_name, resolved_pos, resolved_exp, grade with
  | Some ((_ :: _) as n), Some ((_ :: _) as p), Some e, Some ((_ :: _) as g) =>
      let level :=
        match initial_difficulty_level with
        | None => _grade_to_initial_difficulty grade
        | Some l => Z.max 1 (Z.min 10 l)
        end in
      Some {| messages := []; candidate := mkCandidate n p g e; turns := [];
              thoughts := []; current_turn := 0; topics_covered := [];
              confirmed_skills := []; knowledge_gaps := []; red_flags := [];
              difficulty_level := level; correct_streak := 0;
              difficulty_mode := mode; difficulty_history := [level];
              interview_finished := false; final_feedback := VDict [] |}
  | _, _, _, _ => None
  end.

(** The texts of [config.py] and of the report of [feedback_node], and the
    constants [MAX_TURNS] and [LLM_TEMPERATURE] of [config.py], which is not
    among the sources. *)
Class Config (F : Type) : Type := {
  MAX_TURNS : Z;
  LLM_TEMPERATURE : F;
  value_in : value -> list value -> bool;
  interviewer_request : InterviewState -> option str -> res str;
  mentor_request : InterviewState -> str -> res str;
  fact_check_request : str -> res str;
  feedback_request : InterviewState -> res str;
  render_report : InterviewState -> value -> res str
}.

Section Nodes.

Context {py : PyLib} {F : Type} {fa : FloatArith F} {cfg : Config F}.

(** [InterviewerAgent.generate_question] *)
Definition generate_question (state : InterviewState)
    (mentor_rec : option str) : M (World F) str :=
  emit (Enter InterviewerRespond) ;;
  request <- lift (interviewer_request state mentor_rec) ;;
  call_llm request LLM_TEMPERATURE.

Definition failed_analysis : value :=
  VDict [ (u "analysis", VStr (u "Failed to analyze"));
          (u "is_correct", VNone);
          (u "confidence_level", VStr (u "unknown"));
          (u "red_flags", VList []);
          (u "recommendation", VStr (u "Continue interview"));
          (u "suggested_action", VStr (u "move_on")) ].

(** [MentorAgent.analyze] *)
Definition analyze (state : InterviewState) (user_msg : str)
  : M (World F) value :=
  emit (Enter MentorAnalyze) ;;
  request <- lift (mentor_request state user_msg) ;;
  text <- call_llm request (f_lit (3 # 10)) ;;
  ret (match json_loads text with
       | Some result => result
       | None => failed_analysis
       end).

Definition unverified : value :=
  VDict [ (u "is_true", VNone);
          (u "explanation", VStr (u "Could not verify"));
          (u "correct_info", VStr []) ].

(** [FactCheckerAgent.check] *)
Definition check (statement : str) : M (World F) value :=
  emit (Enter FactCheck) ;;
  request <- lift (fact_check_request statement) ;;
  text <- call_llm request (f_lit (1 # 10)) ;;
  ret (match json_loads text with
       | Some result => result
       | None => unverified
       end).

Definition failed_feedback (state : InterviewState) : value :=
  VDict [ (u "verdict",
           VDict [ (u "grade", VStr (u "Unknown"));
                   (u "hiring_recommendation", VStr (u "No Hire"));
                   (u "confidence_score", VInt 0) ]);
          (u "technical_review",
           VDict [ (u "confirmed_skills", VList (confirmed_skills state));
                   (u "knowledge_gaps", VList (knowledge_gaps state)) ]);
          (u "soft_skills",
           VDict [ (u "clarity", VInt 5); (u "honesty", VInt 5);
                   (u "engagement", VInt 5);
                   (u "comments", VStr (u "Could not evaluate")) ]);
          (u "roadmap",
           VDict [ (u "topics_to_improve", VList []);
                   (u "resources", VList []) ]);
          (u "summary", VStr (u "Failed to generate report")) ].

(** [FeedbackGeneratorAgent.generate] *)
Definition generate (state : InterviewState) : M (World F) value :=
  emit (Enter FeedbackGenerate) ;;
  request <- lift (feedback_request state) ;;
  text <- call_llm request (f_lit (5 # 10)) ;;
  ret (match json_loads text with
       | Some result => result
       | None => failed_feedback state
       end).

(** [[m for m in state["messages"] if isinstance(m, HumanMessage)]] *)
Fixpoint user_messages (ms : list base_message) : list str :=
  match ms with
  | [] => []
  | HumanMessage text :: ms' => text :: user_messages ms'
  | AIMessage _ :: ms' => user_messages ms'
  end.

(** [interviewer_node] *)
Definition interviewer_node (state : InterviewState)
  : M (World F) InterviewState :=
  let mentor_recommendation :=
    match from_end 1 (thoughts state) with
    | Some last_thought =>
        if str_eqb (to_agent last_thought) (u "Interviewer_Agent")
        then Some (content last_thought) else None
    | None => None
    end in
  response <- generate_question state mentor_recommendation ;;
  ret (mkState (messages state ++ [AIMessage response]) (candidate state)
         (turns state) (thoughts state) (current_turn state)
         (topics_covered state) (confirmed_skills state)
         (knowledge_gaps state) (red_flags state) (difficulty_level state)
         (correct_streak state) (difficulty_mode state)
         (difficulty_history state) (interview_finished state)
         (final_feedback state)).

Definition hallucination_tokens : list str :=
  [u "галлю"; u "hallucin"; u "ложн"; u "false fact"; u "factually"].

Definition high_confidence : list str :=
  [u "high"; u "высок"; u "высокий"; u "высокая"].

(** The loop of [mentor_node] over the mentor's red flags *)
Definition has_hallucination_hint (mentor_flags : list value) : bool :=
  existsb (fun flag => any_in hallucination_tokens (lower (to_str flag)))
          mentor_flags.

(** [should_fact_check] as [mentor_node] computes it from the analysis and
    the last message of the candidate *)
Definition should_fact_check (analysis : value) (last_user_message : str)
  : res bool :=
  match get analysis (u "red_flags"),
        get analysis (u "confidence_level"),
        get analysis (u "correctness_score"),
        get analysis (u "is_correct"),
        get analysis (u "is_hallucination") with
  | Ok flags, Ok confidence, Ok correctness_score, Ok is_correct, Ok halluc =>
      match iterate (if truthy flags then flags else VList []) with
      | Raise e => Raise e
      | Ok mentor_flags =>
          let confidence_level :=
            lower (to_str (if truthy confidence then confidence else VStr [])) in
          let is_hallucination := truthy halluc in
          let hint := has_hallucination_hint mentor_flags in
          let is_high_confidence := str_mem confidence_level high_confidence in
          let is_low_score :=
            match as_number correctness_score with
            | Some f => float_le f 40
            | None => false
            end in
          let is_confidently_wrong :=
            is_high_confidence && (is_False is_correct || is_low_score) in
          Ok (is_hallucination || hint || is_confidently_wrong
              || contains (u "python 4") (lower last_user_message))
      end
  | Raise e, _, _, _, _ => Raise e
  | _, Raise e, _, _, _ => Raise e
  | _, _, Raise e, _, _ => Raise e
  | _, _, _, Raise e, _ => Raise e
  | _, _, _, _, Raise e => Raise e
  end.

(** [(v or "").strip()] *)
Definition strip_or_empty (v : value) : res str :=
  if truthy v then
    match v with
    | VStr s => Ok (strip s)
    | _ => Raise AttributeError
    end
  else Ok [].

(** [(v or "maintain").lower()] *)
Definition lower_or_maintain (v : value) : res str :=
  if truthy v then
    match v with
    | VStr s => Ok (lower s)
    | _ => Raise AttributeError
    end
  else Ok (lower (u "maintain")).

(** The [adaptive] block of [mentor_node]: from the analysis, the level, the
    streak and the history to their new values. *)
Definition adaptive (analysis : value) (level streak : Z) (hist : list Z)
  : res (Z * Z * list Z) :=
  let old_difficulty := level in
  match get analysis (u "correctness_score"),
        get analysis (u "is_correct"),
        get analysis (u "difficulty_recommendation") with
  | Ok correctness_score, Ok is_correct, Ok rec =>
      match lower_or_maintain rec with
      | Raise e => Raise e
      | Ok recommendation =>
          let good :=
            is_True is_correct &&
            match as_number correctness_score with
            | Some f => float_ge f 80
            | None => false
            end in
          let streak := if good then streak + 1 else 0 in
          let '(level, streak) :=
            if str_eqb recommendation (u "increase") || (2 <=? streak)
            then (Z.min 10 (level + 1), 0)
            else if str_eqb recommendation (u "decrease")
            then (Z.max 1 (level - 1), streak)
            else if match as_number correctness_score with
                    | Some f => float_le f 40
                    | None => false
                    end
            then (Z.max 1 (level - 1), streak)
            else (level, streak) in
          Ok (level, streak,
              if level =? old_difficulty then hist else hist ++ [level])
      end
  | Raise e, _, _ => Raise e
  | _, Raise e, _ => Raise e
  | _, _, Raise e => Raise e
  end.

(** The fact-check of [mentor_node]: the red flags of the turn and the
    thought of the fact checker, when it reports the statement false *)
Definition fact_check_flags (last_user_message : str)
  : M (World F) (list str * list thought) :=
  fact_result <- check last_user_message ;;
  is_true <- lift (get fact_result (u "is_true")) ;;
  if is_False is_true then
    explanation <- lift (get_or fact_result (u "explanation") (VStr [])) ;;
    correct_info <- lift (get_or fact_result (u "correct_info") (VStr [])) ;;
    ret ([strip (u "ГАЛЛЮЦИНАЦИЯ/ЛОЖНЫЙ ФАКТ: " ++ to_str explanation ++
                 u ". Правильная информация: " ++ to_str correct_info)],
         [mkThought (u "FactChecker_Agent") (u "Interviewer_Agent")
            (u "ALERT: Кандидат уверенно сообщает ложные факты. " ++
             to_str explanation ++ u ". " ++
             u "Правильная информация: " ++ to_str correct_info ++ u ". " ++
             u "Это критическая ошибка знаний. Пометь как 'red flag'.")])
  else ret ([], []).

(** The skills and gaps that [mentor_node] records *)
Definition record_skills (analysis : value) (skills gaps : list value)
  : res (list value * list value) :=
  match get analysis (u "is_correct") with
  | Raise e => Raise e
  | Ok is_correct =>
      if truthy is_correct then
        match get_or analysis (u "analysis") (VStr []) with
        | Raise e => Raise e
        | Ok a =>
            match slice50 a with
            | Raise e => Raise e
            | Ok topic =>
                Ok (if truthy topic && negb (value_in topic skills)
                    then skills ++ [topic] else skills, gaps)
            end
        end
      else if is_False is_correct then
        match get_or analysis (u "analysis") (VStr []) with
        | Raise e => Raise e
        | Ok a =>
            match slice50 a with
            | Raise e => Raise e
            | Ok topic =>
                Ok (skills,
                    gaps ++ [VDict [ (u "topic", topic);
                                     (u "question", VStr []);
                                     (u "correct_answer", VStr []) ]])
            end
        end
      else Ok (skills, gaps)
  end.

(** The thought of the mentor at the end of [mentor_node] *)
Definition mentor_thought (analysis : value) (flags : list str) : res thought :=
  match get_or analysis (u "recommendation") (VStr (u "Продолжить интервью")),
        get analysis (u "suggested_action"),
        get_or analysis (u "analysis") (VStr []),
        get_or analysis (u "confidence_level") (VStr (u "unknown")) with
  | Ok rec, Ok action, Ok a, Ok c =>
      let recommendation :=
        if eq_str action (u "challenge")
           || match flags with [] => false | _ :: _ => true end
        then u "ВАЖНО: Кандидат допустил ошибку. " ++ to_str rec ++
             u ". Вежливо укажи на неточность."
        else to_str rec in
      Ok (mkThought (u "Mentor_Agent") (u "Interviewer_Agent")
            (u "Анализ: " ++ to_str a ++ u ". " ++
             u "Уровень уверенности: " ++ to_str c ++ u ". " ++
             u "Рекомендация: " ++ recommendation))
  | Raise e, _, _, _ => Raise e
  | _, Raise e, _, _ => Raise e
  | _, _, Raise e, _ => Raise e
  | _, _, _, Raise e => Raise e
  end.

(** [mentor_node], with the update it returns merged into the state *)
Definition mentor_node (state : InterviewState) : M (World F) InterviewState :=
  match from_end 1 (user_messages (messages state)) with
  | None => ret state
  | Some last_user_message =>
      analysis <- analyze state last_user_message ;;
      let mode :=
        lower (match difficulty_mode state with
               | [] => u "adaptive"
               | m => m
               end) in
      let level :=
        if difficulty_level state =? 0 then 2 else difficulty_level state in
      let level := Z.max 1 (Z.min 10 level) in
      let streak := correct_streak state in
      let hist :=
        match difficulty_history state with
        | [] => [level]
        | h => h
        end in
      fire <- lift (should_fact_check analysis last_user_message) ;;
      checked <- (if fire then fact_check_flags last_user_message
                  else ret ([], [])) ;;
      let '(flags, fc_thoughts) := checked in
      topic <- lift (get analysis (u "topic_detected")) ;;
      topic_detected <- lift (strip_or_empty topic) ;;
      let topics :=
        if negb (str_len topic_detected =? 0)
           && negb (str_mem topic_detected (topics_covered state))
        then topics_covered state ++ [topic_detected]
        else topics_covered state in
      adapted <- (if str_eqb mode (u "adaptive")
                  then lift (adaptive analysis level streak hist)
                  else ret (level, streak, hist)) ;;
      let '(level, streak, hist) := adapted in
      th <- lift (mentor_thought analysis flags) ;;
      recorded <- lift (record_skills analysis (confirmed_skills state)
                          (knowledge_gaps state)) ;;
      let '(skills, gaps) := recorded in
      ret (mkState (messages state) (candidate state) (turns state)
             (thoughts state ++ fc_thoughts ++ [th]) (current_turn state)
             topics skills gaps (red_flags state ++ flags) level streak mode
             hist (interview_finished state) (final_feedback state))
  end.

(** What [mentor_node] appends in place to the list under
    [internal_thoughts] of the state that it is given
    ([state["internal_thoughts"].append(thought)]): the thought of the fact
    checker, once the fact check has ended with a false verdict, whether
    the node returns afterwards or raises; nothing when the node raises
    before that. *)
Definition mentor_appends (state : InterviewState)
  : M (World F) (list thought) :=
  match from_end 1 (user_messages (messages state)) with
  | None => ret []
  | Some last_user_message =>
      analysis <- analyze state last_user_message ;;
      fire <- lift (should_fact_check analysis last_user_message) ;;
      checked <- (if fire then fact_check_flags last_user_message
                  else ret ([], [])) ;;
      ret (snd checked)
  end.

(** [feedback_node] *)
Definition feedback_node (state : InterviewState)
  : M (World F) InterviewState :=
  feedback <- generate state ;;
  report <- lift (render_report state feedback) ;;
  ret (mkState (messages state ++ [AIMessage report]) (candidate state)
         (turns state) (thoughts state) (current_turn state)
         (topics_covered state) (confirmed_skills state)
         (knowledge_gaps state) (red_flags state) (difficulty_level state)
         (correct_streak state) (difficulty_mode state)
         (difficulty_history state) true feedback).

(** The nodes of the graph of [create_interview_graph] *)
Inductive node : Type := Interviewer | Mentor | Feedback | END.

Definition stop_commands : list str :=
  [u "стоп"; u "stop"; u "завершить"; u "фидбэк"; u "feedback"].

(** [should_continue], with the node its answer is mapped to *)
Definition should_continue (state : InterviewState) : node :=
  if interview_finished state then END
  else
    let stop :=
      match from_end 1 (user_messages (messages state)) with
      | Some last_message => any_in stop_commands (lower last_message)
      | None => false
      end in
    if stop then Feedback
    else if MAX_TURNS <=? current_turn state then Feedback
    else Mentor.

(** [should_interview], with the node its answer is mapped to *)
Definition should_interview (state : InterviewState) : node :=
  if interview_finished state then END else Interviewer.

(** One node of the compiled graph and the edge taken after it *)
Definition step (n : node) (state : InterviewState)
  : M (World F) (node * InterviewState) :=
  match n with
  | Interviewer =>
      state' <- interviewer_node state ;;
      ret (should_continue state', state')
  | Mentor =>
      state' <- mentor_node state ;;
      ret (should_interview state', state')
  | Feedback =>
      state' <- feedback_node state ;;
      ret (END, state')
  | END => ret (END, state)
  end.

(** A run of the graph from a node under the recursion limit [limit] of
    the runtime. After every node the runtime first holds the number of
    steps taken against the limit and only then looks at the next node, so
    a run of [k] nodes returns only under a limit above [k], and under a
    limit of [k] it raises after its last node. *)
Fixpoint run (limit : nat) (n : node) (state : InterviewState)
  : M (World F) InterviewState :=
  match limit with
  | O => lift (Raise RecursionLimit)
  | S limit' =>
      match n with
      | END => ret state
      | _ =>
          next <- step n state ;;
          run limit' (fst next) (snd next)
      end
  end.

(** [graph.invoke(state)]: the entry point is the interviewer *)
Definition invoke (limit : nat) (state : InterviewState)
  : M (World F) InterviewState :=
  run limit Interviewer state.

End Nodes.

End Graph.

(* ===================================================================== *)
(** * The logger of the graph controller ([utils/logger.py]) *)
(* ===================================================================== *)

Module Logger.

(** [l[-n:]] for [n >= 1] *)
Definition last_n {A} (n : nat) (l : list A) : list A :=
  skipn (List.length l - n) l.

(** [sep.join(l)] *)
Fixpoint join (sep : str) (l : list str) : str :=
  match l with
  | [] => []
  | [x] => x
  | x :: l' => x ++ sep ++ join sep l'
  end.

(** The text of a thought in the log of a turn:
    [f"[{t['from_agent']}]: {t['content']}"] *)
Definition thought_text (t : thought) : str :=
  u "[" ++ from_agent t ++ u "]: " ++ content t.

(** An entry of [internal_thoughts_log]; [None] for an entry without a
    [turn_id] (the time stamps of the log are not part of the model, as
    they are not part of [thought]). *)
Record thought_entry : Type := mkThoughtEntry {
  entry_turn_id : option Z;
  entry_from : str;
  entry_to : str;
  entry_content : str
}.

(** [log_data]: the candidate is [None] for the empty dict. *)
Record log_data : Type := mkLog {
  log_team_name : str;
  log_candidate : option candidate_info;
  log_turns : list Graph.turn;
  internal_thoughts_log : list thought_entry;
  log_final_feedback : value
}.

(** [InterviewLogger.__init__] *)
Definition new_logger (team_name : str) : log_data :=
  mkLog team_name None [] [] empty_record.

(** [InterviewLogger.set_candidate_info] *)
Definition set_candidate_info (candidate : candidate_info) (l : log_data)
  : log_data :=
  mkLog (log_team_name l) (Some candidate) (log_turns l)
    (internal_thoughts_log l) (log_final_feedback l).

(** [InterviewLogger.log_turn] *)
Definition log_turn (turn_id : Z) (agent_message user_message : str)
    (internal_thoughts : list thought) (l : log_data) : log_data :=
  let thoughts_str :=
    fold_left (fun acc thought =>
                 acc ++ u "[" ++ from_agent thought ++ u "]: "
                     ++ content thought ++ u " ")
              internal_thoughts [] in
  let turn :=
    Graph.mkTurn turn_id agent_message user_message (strip thoughts_str) in
  mkLog (log_team_name l) (log_candidate l) (log_turns l ++ [turn])
    (internal_thoughts_log l
     ++ map (fun thought =>
               mkThoughtEntry (Some turn_id) (from_agent thought)
                 (to_agent thought) (content thought))
            internal_thoughts)
    (log_final_feedback l).

(** [InterviewLogger.set_final_feedback] *)
Definition set_final_feedback (feedback : value) (l : log_data) : log_data :=
  mkLog (log_team_name l) (log_candidate l) (log_turns l)
    (internal_thoughts_log l) feedback.

(** The dict [thoughts_by_turn] of [create_log_from_state], its keys in
    the order of insertion: [d.get(k)], and [d[k].append(t)] on a key that
    is present. *)
Fixpoint lookup_turn (k : Z) (d : list (Z * list thought))
  : option (list thought) :=
  match d with
  | [] => None
  | (k', ts) :: d' => if k =? k' then Some ts else lookup_turn k d'
  end.

Fixpoint append_at (k : Z) (t : thought) (d : list (Z * list thought))
  : list (Z * list thought) :=
  match d with
  | [] => []
  | (k', ts) :: d' =>
      if k =? k' then (k', ts ++ [t]) :: d' else (k', ts) :: append_at k t d'
  end.

(** The first loop of [create_log_from_state] *)
Definition group_thoughts (ths : list thought) : list (Z * list thought) :=
  fold_left (fun thoughts_by_turn thought =>
               let turn_id := Z.of_nat (List.length thoughts_by_turn) + 1 in
               let d :=
                 match lookup_turn turn_id thoughts_by_turn with
                 | None => thoughts_by_turn ++ [(turn_id, [])]
                 | Some _ => thoughts_by_turn
                 end in
               append_at turn_id thought d)
            ths [].

(** [create_log_from_state] *)
Definition create_log_from_state (state : Graph.InterviewState)
    (team_name : str) : log_data :=
  let thoughts_by_turn := group_thoughts (Graph.thoughts state) in
  mkLog team_name (Some (Graph.candidate state))
    (map (fun turn =>
            let turn_thoughts :=
              match lookup_turn (Graph.turn_id turn) thoughts_by_turn with
              | Some ts => ts
              | None => []
              end in
            let thoughts_str := join (u " ") (map thought_text turn_thoughts) in
            Graph.mkTurn (Graph.turn_id turn)
              (Graph.agent_visible_message turn) (Graph.user_message turn)
              (match thoughts_str with
               | [] => Graph.internal_thoughts turn
               | _ => thoughts_str
               end))
         (Graph.turns state))
    (map (fun thought =>
            mkThoughtEntry None (from_agent thought) (to_agent thought)
              (content thought))
         (Graph.thoughts state))
    (Graph.final_feedback state).

End Logger.

(* ===================================================================== *)
(** * The coach on the graph ([main.py]) *)
(* ===================================================================== *)

Module Main.

(** [InterviewCoach]: the compiled graph is [Graph.invoke]. *)
Record InterviewCoach : Type := mkInterviewCoach {
  team_name : str;
  state : option Graph.InterviewState;
  logger : Logger.log_data;
  current_turn : Z
}.

(** [InterviewCoach.__init__] *)
Definition new_interview_coach (team_name : str) : InterviewCoach :=
  mkInterviewCoach team_name None (Logger.new_logger team_name) 0.

Definition set_state (x : option Graph.InterviewState) (c : InterviewCoach)
  : InterviewCoach :=
  mkInterviewCoach (team_name c) x (logger c) (current_turn c).

Definition set_logger (x : Logger.log_data) (c : InterviewCoach)
  : InterviewCoach :=
  mkInterviewCoach (team_name c) (state c) x (current_turn c).

Definition set_current_turn (x : Z) (c : InterviewCoach) : InterviewCoach :=
  mkInterviewCoach (team_name c) (state c) (logger c) x.

(** Writes of a key of the state dict *)
Definition put_messages (x : list Graph.base_message)
    (st : Graph.InterviewState) : Graph.InterviewState :=
  Graph.mkState x (Graph.candidate st) (Graph.turns st) (Graph.thoughts st)
    (Graph.current_turn st) (Graph.topics_covered st)
    (Graph.confirmed_skills st) (Graph.knowledge_gaps st) (Graph.red_flags st)
    (Graph.difficulty_level st) (Graph.correct_streak st)
    (Graph.difficulty_mode st) (Graph.difficulty_history st)
    (Graph.interview_finished st) (Graph.final_feedback st).

Definition put_current_turn (x : Z) (st : Graph.InterviewState)
  : Graph.InterviewState :=
  Graph.mkState (Graph.messages st) (Graph.candidate st) (Graph.turns st)
    (Graph.thoughts st) x (Graph.topics_covered st)
    (Graph.confirmed_skills st) (Graph.knowledge_gaps st) (Graph.red_flags st)
    (Graph.difficulty_level st) (Graph.correct_streak st)
    (Graph.difficulty_mode st) (Graph.difficulty_history st)
    (Graph.interview_finished st) (Graph.final_feedback st).

Definition put_turns (x : list Graph.turn) (st : Graph.InterviewState)
  : Graph.InterviewState :=
  Graph.mkState (Graph.messages st) (Graph.candidate st) x (Graph.thoughts st)
    (Graph.current_turn st) (Graph.topics_covered st)
    (Graph.confirmed_skills st) (Graph.knowledge_gaps st) (Graph.red_flags st)
    (Graph.difficulty_level st) (Graph.correct_streak st)
    (Graph.difficulty_mode st) (Graph.difficulty_history st)
    (Graph.interview_finished st) (Graph.final_feedback st).

Definition put_thoughts (x : list thought) (st : Graph.InterviewState)
  : Graph.InterviewState :=
  Graph.mkState (Graph.messages st) (Graph.candidate st) (Graph.turns st) x
    (Graph.current_turn st) (Graph.topics_covered st)
    (Graph.confirmed_skills st) (Graph.knowledge_gaps st) (Graph.red_flags st)
    (Graph.difficulty_level st) (Graph.correct_streak st)
    (Graph.difficulty_mode st) (Graph.difficulty_history st)
    (Graph.interview_finished st) (Graph.final_feedback st).

(** [[m for m in ms if isinstance(m, AIMessage)]], the contents *)
Fixpoint ai_messages (ms : list Graph.base_message) : list str :=
  match ms with
  | [] => []
  | Graph.AIMessage text :: ms' => text :: ai_messages ms'
  | Graph.HumanMessage _ :: ms' => ai_messages ms'
  end.

(** The oracle and the coach *)
Record App (F : Type) : Type := mkApp {
  app_world : World F;
  app_coach : InterviewCoach
}.

Section Coach.

Context {py : PyLib} {F : Type} {fa : FloatArith F} {cfg : Graph.Config F}.

(** [limit] is the recursion limit of the compiled graph. *)
Variable limit : nat.

(** What a run of the graph on [st] appends in place to the list of
    thoughts of [st]. The runtime hands that list to its nodes as it is
    until a node returns a new one: the interviewer node does not touch it,
    and the first mentor node of the run, which is the second node,
    appends to it and then returns a new list. *)
Definition appended_in_place (st : Graph.InterviewState) (w : World F)
  : list thought :=
  match limit with
  | S (S _) =>
      match Graph.interviewer_node st w with
      | (Ok st1, w1) =>
          match Graph.should_continue st1 with
          | Graph.Mentor =>
              match fst (Graph.mentor_appends st1 w1) with
              | Ok appended => appended
              | Raise _ => []
              end
          | _ => []
          end
      | (Raise _, _) => []
      end
  | _ => []
  end.

(** [self.graph.invoke(self.state)], where [st] is the state that the
    coach holds: the dict that [self.state] names is the one the graph is
    given, so it sees what the run appends in place, also when the run
    raises. *)
Definition graph_invoke (st : Graph.InterviewState)
  : M (App F) Graph.InterviewState :=
  fun a =>
    let w := app_world a in
    let shared :=
      put_thoughts (Graph.thoughts st ++ appended_in_place st w) st in
    (fst (Graph.invoke limit st w),
     mkApp (snd (Graph.invoke limit st w))
       (set_state (Some shared) (app_coach a))).

Definition this : M (App F) InterviewCoach := fun a => (Ok (app_coach a), a).

Definition assign (f : InterviewCoach -> InterviewCoach) : M (App F) unit :=
  modify (fun a => mkApp (app_world a) (f (app_coach a))).

(** [InterviewCoach.start_interview]: [None] for the [ValueError] of
    [create_initial_state], which is raised before anything is written. *)
Definition start_interview
    (candidate_name position grade experience difficulty_mode : str)
    (initial_difficulty_level : option Z) : option (M (App F) str) :=
  match Graph.create_initial_state (Some candidate_name) None (Some position)
          None (Some grade) (Some experience) None difficulty_mode
          initial_difficulty_level with
  | None => None
  | Some st =>
      Some (assign (set_state (Some st)) ;;
            assign (fun c =>
                      set_logger
                        (Logger.set_candidate_info
                           (mkCandidate candidate_name position grade
                              experience)
                           (logger c)) c) ;;
            result <- graph_invoke st ;;
            let result :=
              put_messages (Logger.last_n 3 (Graph.messages result)) result in
            assign (set_state (Some result)) ;;
            ret (match from_end 1 (ai_messages (Graph.messages result)) with
                 | Some first_message => first_message
                 | None => u "Привет! Давайте начнем интервью."
                 end))
  end.

(** [InterviewCoach.process_response]: the writes to [self.state] are
    writes to the dict that [result] names, too. *)
Definition process_response (user_message : str) : M (App F) str :=
  c <- this ;;
  match state c with
  | None =>
      ret (u "Ошибка: интервью не начато. Вызовите start_interview() сначала.")
  | Some st =>
      let turn := current_turn c + 1 in
      assign (set_current_turn turn) ;;
      let last_agent_message :=
        match from_end 1 (ai_messages (Graph.messages st)) with
        | Some m => m
        | None => []
        end in
      let st :=
        put_messages (Graph.messages st ++ [Graph.HumanMessage user_message])
          st in
      let st := put_current_turn turn st in
      let st := put_messages (Logger.last_n 3 (Graph.messages st)) st in
      assign (set_state (Some st)) ;;
      result <- graph_invoke st ;;
      let result :=
        put_messages (Logger.last_n 3 (Graph.messages result)) result in
      assign (set_state (Some result)) ;;
      let new_thoughts := Graph.thoughts result in
      let thoughts_for_turn :=
        if (2 <=? List.length new_thoughts)%nat
        then Logger.last_n 2 new_thoughts else new_thoughts in
      assign (fun c =>
                set_logger
                  (Logger.log_turn turn last_agent_message user_message
                     thoughts_for_turn (logger c)) c) ;;
      let turn_entry :=
        Graph.mkTurn turn last_agent_message user_message
          (Logger.join (u " ") (map Logger.thought_text thoughts_for_turn)) in
      let result := put_turns (Graph.turns result ++ [turn_entry]) result in
      assign (set_state (Some result)) ;;
      let response :=
        match from_end 1 (ai_messages (Graph.messages result)) with
        | Some m => m
        | None => u "Продолжим интервью."
        end in
      when (Graph.interview_finished result)
        (assign (fun c =>
                   set_logger
                     (Logger.set_final_feedback (Graph.final_feedback result)
                        (logger c)) c)) ;;
      ret response
  end.

(** [InterviewCoach.end_interview] *)
Definition end_interview : M (App F) str :=
  process_response (u "Стоп игра. Давай фидбэк.").

End Coach.

End Main.

(* ===================================================================== *)
(** * Vocabulary of the statements *)
(* ===================================================================== *)

Section RecoveryVocabulary.

Context {py : PyLib} {F : Type} {fa : FloatArith F}.

(** The requests of a trace, in order *)
Definition llm_calls (tr : list (event F)) : list (str * F) :=
  flat_map (fun e => match e with
                     | LLMCall prompt temperature => [(prompt, temperature)]
                     | _ => []
                     end) tr.

(** The prompt and the temperature the specification gives attempt [i] *)
Definition attempt_prompt (prompt : str) (i : nat) : str :=
  match i with
  | O => prompt
  | S _ => prompt ++ strict_instruction (Z.of_nat i)
  end.

Definition attempt_temperature (base : F) (i : nat) : F :=
  f_max (f_lit (3 # 10))
        (f_sub base (f_mul (f_of_int (Z.of_nat i)) (f_lit (2 # 10)))).

(** What the oracle's answer number [j] yields: a record that parsed and is
    not empty, or nothing (the request failed, or no JSON could be
    extracted, or what was extracted is empty). *)
Definition yield_at (tp : nat -> outcome) (j : nat) : option value :=
  match tp j with
  | Fails => None
  | Replies text =>
      let result := extract_json text in
      if truthy result then Some result else None
  end.

(** The yield of attempt [i] of a recovery that starts in world [w] *)
Definition yields (w : World F) (i : nat) : option value :=
  yield_at (tape w) (served w + i).

(** A text with a brace-delimited span in it: [pre], then an opening brace,
    [mid], a closing brace, then [post]. *)
Definition around (pre mid post : str) : str :=
  pre ++ lbrace :: mid ++ rbrace :: post.

(** A cleaning step keeps a brace-delimited span, and adds no character to
    the texts around it. *)
Definition keeps_span (f : str -> str) : Prop :=
  forall pre mid post,
  exists pre' post',
    f (around pre mid post) = around pre' mid post'
    /\ incl pre' pre /\ incl post' post.

(** The pause that follows an attempt which yielded nothing: one second
    after a failed request, half a second after an answer. *)
Definition pause_after (o : outcome) : Q :=
  match o with
  | Fails => 1
  | Replies _ => 1 # 2
  end.

(** The events of [k] attempts, the first of them attempt number [a], that
    start in world [w]: each attempt is one request, and every attempt but
    the last is followed by its pause. *)
Definition recovery_events_from (a : nat) (prompt : str) (temperature : F)
    (w : World F) (k : nat) : list (event F) :=
  flat_map (fun j =>
              LLMCall (attempt_prompt prompt (a + j))
                      (attempt_temperature temperature (a + j))
              :: (if (j + 1 <? k)%nat
                  then [Sleep (pause_after (tape w (served w + j)))]
                  else []))
           (seq 0 k).

(** The events of a recovery of [k] attempts *)
Definition recovery_events : str -> F -> World F -> nat -> list (event F) :=
  recovery_events_from 0.

(** The pauses of a trace, in order *)
Definition pauses (tr : list (event F)) : list Q :=
  flat_map (fun e => match e with Sleep q => [q] | _ => [] end) tr.

End RecoveryVocabulary.

Section CoachVocabulary.

Context {py : PyLib} {F : Type} {fa : FloatArith F} {tx : Texts}.

(** The bounds of the difficulty level *)
Definition in_range (level : Z) : Prop := 1 <= level <= 10.

(** [l'] is [l] with entries appended *)
Definition extends {A} (l l' : list A) : Prop := exists more, l' = l ++ more.

(** The states a session of the coach goes through: a new coach in any
    world, then calls of [start] and of [process] in any order, each taken
    with the state it leaves, whether it returned or raised. *)
Inductive reachable : Sys F -> Prop :=
| reach_new (w : World F) : reachable (mkSys w new_coach)
| reach_start (s : Sys F) (name position grade exp : str) :
    reachable s -> reachable (snd (start name position grade exp s))
| reach_process (s : Sys F) (msg : str) :
    reachable s -> reachable (snd (process msg s)).

(** [follows s s']: calls of [start] and of [process], in any order and
    each returning or raising, lead from [s] to [s']. *)
Inductive follows (s : Sys F) : Sys F -> Prop :=
| follows_here : follows s s
| follows_start (s' : Sys F) (name position grade exp : str) :
    follows s s' -> follows s (snd (start name position grade exp s'))
| follows_process (s' : Sys F) (msg : str) :
    follows s s' -> follows s (snd (process msg s')).

Definition level_ok (c : Coach) : Prop := in_range (difficulty c).

Definition streak_ok (c : Coach) : Prop := 0 <= correct_streak c.

(** The edge case recorded for the latest turn *)
Definition latest_edge_case (c : Coach) : option edge_case :=
  match from_end 1 (turns c) with
  | Some t => turn_edge_case t
  | None => None
  end.

(** The verdict of an analysis is correct with a score of at least 80, as
    [_adjust_difficulty] reads it: [is_correct] is truthy and the comparison
    of the score gives [True]. *)
Definition correct_with_high_score (analysis : value) : bool :=
  match get_or analysis (u "is_correct") (VBool false),
        get_or analysis (u "correctness_score") (VInt 50) with
  | Ok is_correct, Ok correctness =>
      truthy is_correct &&
      match ge_int correctness 80 with
      | Ok b => b
      | Raise _ => false
      end
  | _, _ => false
  end.

(** The verdict of an analysis is correct, as [_adjust_difficulty] reads
    it *)
Definition verdict_correct (analysis : value) : bool :=
  match get_or analysis (u "is_correct") (VBool false) with
  | Ok is_correct => truthy is_correct
  | Raise _ => false
  end.

(** The recommendation of an analysis is [r], as [_adjust_difficulty] reads
    it *)
Definition recommends (analysis : value) (r : str) : bool :=
  match get_or analysis (u "difficulty_recommendation") (VStr (u "maintain")) with
  | Ok recommendation => eq_str recommendation r
  | Raise _ => false
  end.

(** The component [f] of the state is the same in [s] and [s'] *)
Definition same_on {S A : Type} (f : S -> A) (s s' : S) : Prop := f s' = f s.

(** The difficulty state of a coach is the same in [c] and [c'] *)
Definition same_difficulty_state (c c' : Coach) : Prop :=
  difficulty c' = difficulty c /\
  correct_streak c' = correct_streak c /\
  difficulty_history c' = difficulty_history c.

End CoachVocabulary.

Section CoachLogVocabulary.

(** The level and every level recorded in the history are in range. *)
Definition levels_ok (c : Coach) : Prop :=
  1 <= difficulty c <= 10 /\ Forall in_range (difficulty_history c).

(** From [c] to [c'] the level moved by at most one, when it was in range. *)
Definition one_level (c c' : Coach) : Prop :=
  in_range (difficulty c) -> Z.abs (difficulty c' - difficulty c) <= 1.

(** Every entry of the list is smaller than all entries after it. *)
Fixpoint increasing (l : list Z) : Prop :=
  match l with
  | [] => True
  | x :: l' => Forall (fun y => x < y) l' /\ increasing l'
  end.

(** The turn log is in order: the turn ids increase, each lies between 1
    and the turn counter, and there are no more entries than the counter
    says. *)
Definition turn_ids_ok (c : Coach) : Prop :=
  increasing (map turn_id (turns c))
  /\ Forall (fun t => 1 <= turn_id t <= turn_num c) (turns c)
  /\ Z.of_nat (List.length (turns c)) <= turn_num c.

(** From [c] to [c'] the turn counter stayed and the turn log stayed or got
    one entry, numbered by the counter. *)
Definition logs_at_most_one (c c' : Coach) : Prop :=
  turn_num c' = turn_num c
  /\ (turns c' = turns c
      \/ exists e, turns c' = turns c ++ [e] /\ turn_id e = turn_num c).

(** The turn counter and the turn log are the same in [c] and [c']. *)
Definition same_log (c c' : Coach) : Prop :=
  turn_num c' = turn_num c /\ turns c' = turns c.

(** The dialogue and the identity of the session are the same in [c] and
    [c']. *)
Definition same_dialogue (c c' : Coach) : Prop :=
  history c' = history c /\ turns c' = turns c
  /\ turn_num c' = turn_num c /\ finished c' = finished c
  /\ candidate c' = candidate c /\ final_feedback c' = final_feedback c.

(** Nothing that [c] records is removed or rewritten in [c']: every list is
    extended, the turn counter is not lower, and a finished session is still
    finished. *)
Definition accumulates (c c' : Coach) : Prop :=
  extends (history c) (history c')
  /\ extends (turns c) (turns c')
  /\ extends (thoughts c) (thoughts c')
  /\ extends (red_flags c) (red_flags c')
  /\ extends (difficulty_history c) (difficulty_history c')
  /\ extends (topics_covered c) (topics_covered c')
  /\ extends (questions_asked c) (questions_asked c')
  /\ turn_num c <= turn_num c'
  /\ (finished c = true -> finished c' = true).

(** The content of the last message of a dialogue, the empty string when
    there is none. *)
Definition last_content (h : list message) : str :=
  match from_end 1 h with
  | Some m => msg_content m
  | None => []
  end.

(** What a turn has recorded so far is the same in [c] and [c']: the
    dialogue, the turn log and counter, the red flags and the thoughts. *)
Definition same_record (c c' : Coach) : Prop :=
  history c' = history c /\ turns c' = turns c
  /\ turn_num c' = turn_num c /\ red_flags c' = red_flags c
  /\ thoughts c' = thoughts c.

(** The oracle is where it was: the same answers to come, the same number
    of requests served. *)
Definition same_service {F} (w w' : World F) : Prop :=
  tape w' = tape w /\ served w' = served w.

End CoachLogVocabulary.

Section GraphVocabulary.

Context {py : PyLib} {F : Type} {fa : FloatArith F} {cfg : Graph.Config F}.

(** What [InterviewCoach.process_response] of [main.py] writes into the
    state around a run of the graph: the messages, the turn counter and
    the turn log. *)
Definition with_dialogue (ms : list Graph.base_message) (k : Z)
    (ts : list Graph.turn) (st : Graph.InterviewState) : Graph.InterviewState :=
  Graph.mkState ms (Graph.candidate st) ts (Graph.thoughts st) k
    (Graph.topics_covered st) (Graph.confirmed_skills st)
    (Graph.knowledge_gaps st) (Graph.red_flags st) (Graph.difficulty_level st)
    (Graph.correct_streak st) (Graph.difficulty_mode st)
    (Graph.difficulty_history st) (Graph.interview_finished st)
    (Graph.final_feedback st).

(** The states a session of the graph controller goes through: an initial
    state, then nodes that return and writes of the dialogue, in any
    order. *)
Inductive graph_reachable : Graph.InterviewState -> Prop :=
| greach_init (candidate_name name position pos grade experience exp : option str)
    (mode : str) (initial : option Z) (st : Graph.InterviewState) :
    Graph.create_initial_state candidate_name name position pos grade
      experience exp mode initial = Some st ->
    graph_reachable st
| greach_node (n n' : Graph.node) (st st' : Graph.InterviewState)
    (w w' : World F) :
    graph_reachable st ->
    Graph.step n st w = (Ok (n', st'), w') ->
    graph_reachable st'
| greach_dialogue (st : Graph.InterviewState) (ms : list Graph.base_message)
    (k : Z) (ts : list Graph.turn) :
    graph_reachable st -> graph_reachable (with_dialogue ms k ts st).

End GraphVocabulary.

Section GraphEntry.

(** The level and the history as [mentor_node] reads them from the state:
    the level clamped (2 for a level of 0), the history or, when it is
    empty, the level alone. On the states of a session they are the level
    and the history of the state. *)
Definition entry_level (st : Graph.InterviewState) : Z :=
  Z.max 1 (Z.min 10 (if Graph.difficulty_level st =? 0 then 2
                     else Graph.difficulty_level st)).

Definition entry_history (st : Graph.InterviewState) : list Z :=
  match Graph.difficulty_history st with
  | [] => [entry_level st]
  | h => h
  end.

Definition entry_mode {py : PyLib} (st : Graph.InterviewState) : str :=
  lower (match Graph.difficulty_mode st with
         | [] => u "adaptive"
         | m => m
         end).

End GraphEntry.

Section GraphRouting.

Context {py : PyLib} {F : Type} {fa : FloatArith F} {cfg : Graph.Config F}.

(** The last message of the candidate in a state of the graph, and whether
    it holds one of the stop commands of [should_continue]. *)
Definition last_user_message (st : Graph.InterviewState) : option str :=
  from_end 1 (Graph.user_messages (Graph.messages st)).

Definition asks_to_stop (st : Graph.InterviewState) : bool :=
  match last_user_message st with
  | Some m => any_in Graph.stop_commands (lower m)
  | None => false
  end.

(** The state with a message of the interviewer appended, which is all that
    [interviewer_node] changes. *)
Definition replied (text : str) (st : Graph.InterviewState)
  : Graph.InterviewState :=
  Graph.mkState (Graph.messages st ++ [Graph.AIMessage text])
    (Graph.candidate st) (Graph.turns st) (Graph.thoughts st)
    (Graph.current_turn st) (Graph.topics_covered st)
    (Graph.confirmed_skills st) (Graph.knowledge_gaps st) (Graph.red_flags st)
    (Graph.difficulty_level st) (Graph.correct_streak st)
    (Graph.difficulty_mode st) (Graph.difficulty_history st)
    (Graph.interview_finished st) (Graph.final_feedback st).

(** A session that goes on: it is not finished, its last message of the
    candidate holds no stop command, and the turn limit is not reached. *)
Definition goes_on (st : Graph.InterviewState) : Prop :=
  Graph.interview_finished st = false
  /\ asks_to_stop st = false
  /\ Graph.current_turn st < Graph.MAX_TURNS.

(** The red flag that [mentor_node] words from a result of the fact
    checker *)
Definition graph_flag (fact_result : value) : res str :=
  match get_or fact_result (u "explanation") (VStr []),
        get_or fact_result (u "correct_info") (VStr []) with
  | Ok explanation, Ok correct_info =>
      Ok (strip (u "ГАЛЛЮЦИНАЦИЯ/ЛОЖНЫЙ ФАКТ: " ++ to_str explanation ++
                 u ". Правильная информация: " ++ to_str correct_info))
  | Raise e, _ => Raise e
  | _, Raise e => Raise e
  end.

End GraphRouting.

Section MainVocabulary.

(** The content of the last message of the interviewer in a state, the
    empty string when there is none. *)
Definition last_agent_message (st : Graph.InterviewState) : str :=
  match from_end 1 (Main.ai_messages (Graph.messages st)) with
  | Some m => m
  | None => []
  end.

(** The state that [process_response] hands to the graph: the message of
    the candidate appended, the turn counter written, and the last three
    messages kept. *)
Definition handed (user_message : str) (turn : Z) (st : Graph.InterviewState)
  : Graph.InterviewState :=
  Main.put_messages
    (Logger.last_n 3 (Graph.messages st ++ [Graph.HumanMessage user_message]))
    (Main.put_current_turn turn st).

(** The thought that [create_log_from_state] files under a turn id: the
    thought at that position of the whole list. *)
Definition thought_of_turn (ths : list thought) (turn_id : Z) : option thought :=
  if 1 <=? turn_id then nth_error ths (Z.to_nat (turn_id - 1)) else None.

End MainVocabulary.

Section ClassifierVocabulary.

Context {py : PyLib}.

(** The four rules of the classifier on the lower-cased, trimmed message
    and the analysis; a rule that reads the analysis raises when the
    analysis is not a record or the score is not a number. *)
Definition flag_set (analysis : value) (key : str) : res bool :=
  match get analysis key with
  | Ok v => Ok (truthy v)
  | Raise e => Raise e
  end.

Definition rule_silence (m : str) : bool :=
  (str_len m <? 3) || str_mem m silence_tokens.

Definition rule_dont_know (m : str) (analysis : value) : res bool :=
  if any_in dont_know_phrases m then Ok true
  else flag_set analysis (u "is_dont_know").

Definition rule_rude (m : str) (analysis : value) : res bool :=
  if any_in rude_phrases m then Ok true
  else flag_set analysis (u "is_rude").

Definition rule_troll (m : str) (analysis : value) : res bool :=
  if str_mem m troll_indicators
     || ((str_len m <? 10) && contains (u "?") m)
  then
    match get_or analysis (u "correctness_score") (VInt 50) with
    | Raise e => Raise e
    | Ok score =>
        match lt_int score 10 with
        | Raise e => Raise e
        | Ok false => Ok false
        | Ok true =>
            match flag_set analysis (u "is_question_from_candidate") with
            | Raise e => Raise e
            | Ok q => Ok (negb q)
            end
        end
    end
  else Ok false.

(** First match wins: the tag of the first rule that holds; the rules
    after it are not consulted, and a rule that raises ends the
    classification. *)
Fixpoint first_match (rules : list (edge_case * (unit -> res bool)))
  : res (option edge_case) :=
  match rules with
  | [] => Ok None
  | (tag, rule) :: rest =>
      match rule tt with
      | Raise e => Raise e
      | Ok true => Ok (Some tag)
      | Ok false => first_match rest
      end
  end.

(** The classifier as the specification words it *)
Definition classify_in_order (user_msg : str) (analysis : value)
  : res (option edge_case) :=
  let m := strip (lower user_msg) in
  first_match [ (Silence, fun _ => Ok (rule_silence m));
                (DontKnow, fun _ => rule_dont_know m analysis);
                (Rude, fun _ => rule_rude m analysis);
                (Troll, fun _ => rule_troll m analysis) ].

End ClassifierVocabulary.

Section TraceVocabulary.

Context {F : Type}.

(** From [w] to [w'] the trace grew by events that are all [allowed]. *)
Definition emits_only (allowed : event F -> Prop) (w w' : World F) : Prop :=
  exists evs, trace w' = trace w ++ evs /\ Forall allowed evs.

(** The operations a trace enters, in order *)
Definition entered (tr : list (event F)) : list operation :=
  flat_map (fun e => match e with Enter op => [op] | _ => [] end) tr.

(** Requests to the oracle, pauses, and the entry of the operations
    [ops] *)
Definition entering_only (ops : list operation) (e : event F) : Prop :=
  match e with
  | Enter op => In op ops
  | _ => True
  end.

End TraceVocabulary.

(* ===================================================================== *)
(** * Relations between the states before and after a computation *)
(* ===================================================================== *)

(** [keeps R c]: whatever the start state and whether [c] returns or raises,
    the state it leaves is related by [R] to the one it started in. *)
Definition keeps {S A : Type} (R : S -> S -> Prop) (c : M S A) : Prop :=
  forall s, R s (snd (c s)).

(** A relation on coaches, as a relation on systems; an invariant, as a
    relation. *)
Definition on_coach {F} (R : Coach -> Coach -> Prop) : Sys F -> Sys F -> Prop :=
  fun s s' => R (coach s) (coach s').

Definition on_world {F} (R : World F -> World F -> Prop)
  : Sys F -> Sys F -> Prop :=
  fun s s' => R (world s) (world s').

Definition preserved {S} (I : S -> Prop) : S -> S -> Prop :=
  fun s s' => I s -> I s'.

(** The difficulty history of [c'] is that of [c] with entries appended *)
Definition history_grows (c c' : Coach) : Prop :=
  extends (difficulty_history c) (difficulty_history c').

(* ===================================================================== *)
(** * A concrete run-time and oracle, for the worked runs *)
(* ===================================================================== *)

Module Demo.

(** [str.lower] on the Latin and Cyrillic capitals, which is all the worked
    runs contain. *)
Definition lower_char (c : N) : N :=
  if ((65 <=? c) && (c <=? 90))%N then (c + 32)%N
  else if ((1040 <=? c) && (c <=? 1071))%N then (c + 32)%N
  else if (c =? 1025)%N then 1105%N
  else c.

Definition quote : N := 34%N.

(** The JSON text of a scalar and of a flat object, as [json.dumps] writes
    them (no character of the strings used needs an escape). *)
Definition dumps_scalar (v : value) : str :=
  match v with
  | VNone => u "null"
  | VBool true => u "true"
  | VBool false => u "false"
  | VInt z => str_of_Z z
  | VStr s => quote :: s ++ [quote]
  | _ => u "null"
  end.

Fixpoint dumps_items (d : list (str * value)) : str :=
  match d with
  | [] => []
  | [(k, v)] => quote :: k ++ [quote] ++ u ": " ++ dumps_scalar v
  | (k, v) :: d' =>
      quote :: k ++ [quote] ++ u ": " ++ dumps_scalar v ++ u ", " ++
      dumps_items d'
  end.

Definition dumps (v : value) : str :=
  match v with
  | VDict d => u "{" ++ dumps_items d ++ u "}"
  | _ => dumps_scalar v
  end.

(** The oracle's analyses and fact-check verdicts of the worked runs *)
Definition good_answer : value :=
  VDict [ (u "is_correct", VBool true);
          (u "correctness_score", VInt 90);
          (u "difficulty_recommendation", VStr (u "maintain")) ].

Definition excellent_answer : value :=
  VDict [ (u "is_correct", VBool true);
          (u "correctness_score", VInt 95);
          (u "difficulty_recommendation", VStr (u "increase")) ].

Definition plain_answer : value :=
  VDict [ (u "is_correct", VBool false);
          (u "correctness_score", VInt 50);
          (u "is_hallucination", VBool false);
          (u "difficulty_recommendation", VStr (u "maintain")) ].

Definition wrong_but_increase : value :=
  VDict [ (u "is_correct", VBool false);
          (u "correctness_score", VInt 20);
          (u "difficulty_recommendation", VStr (u "increase")) ].

Definition flagged_answer : value :=
  VDict [ (u "is_correct", VBool false);
          (u "correctness_score", VInt 50);
          (u "is_hallucination", VBool true);
          (u "difficulty_recommendation", VStr (u "maintain")) ].

Definition verdict_false : value :=
  VDict [ (u "is_true", VBool false);
          (u "explanation", VStr (u "Python 4.0 does not exist"));
          (u "correct_info", VStr (u "The current major version is 3")) ].

Definition verdict_true : value :=
  VDict [ (u "is_true", VBool true);
          (u "explanation", VStr (u "The statement is accurate"));
          (u "correct_info", VStr []) ].

Definition known_records : list value :=
  [ good_answer; excellent_answer; plain_answer; wrong_but_increase;
    flagged_answer; verdict_false; verdict_true; empty_record ].

(** [json.loads] on the texts of the worked runs: the JSON text of one of
    the records above parses to that record; every other text used is prose
    without a brace, on which [json.loads] raises. *)
Definition loads (text : str) : option value :=
  find (fun v => str_eqb (dumps v) text) known_records.

Definition show (v : value) : str :=
  match v with
  | VStr s => s
  | VInt z => str_of_Z z
  | VBool true => u "True"
  | VBool false => u "False"
  | VNone => u "None"
  | _ => u "<object>"
  end.

#[export] Instance py : PyLib := {
  lower := map lower_char;
  json_loads := loads;
  to_str := show;
  true_div := fun a b => Finite (a # Z.to_pos b)
}.

#[export] Instance texts : Texts := {
  value_in := fun v l => existsb (fun x => str_eqb (dumps x) (dumps v)) l;
  interviewer_prompt := fun _ _ _ _ _ _ _ _ => Ok (u "interviewer");
  mentor_prompt := fun msg _ _ _ => Ok (u "mentor: " ++ msg);
  fact_check_prompt := fun stmt => Ok (u "fact check: " ++ stmt);
  feedback_prompt := fun _ _ _ _ _ => Ok (u "feedback");
  render_report := fun _ _ => Ok (u "report")
}.

#[export] Instance config : Graph.Config Q := {
  Graph.MAX_TURNS := 10;
  Graph.LLM_TEMPERATURE := 7 # 10;
  Graph.value_in := fun v l => existsb (fun x => str_eqb (dumps x) (dumps v)) l;
  Graph.interviewer_request := fun _ _ => Ok (u "interviewer");
  Graph.mentor_request := fun _ msg => Ok (u "mentor: " ++ msg);
  Graph.fact_check_request := fun stmt => Ok (u "fact check: " ++ stmt);
  Graph.feedback_request := fun _ => Ok (u "feedback");
  Graph.render_report := fun _ _ => Ok (u "report")
}.

(** The oracle that gives the listed answers in order and fails afterwards *)
Definition answers (l : list outcome) : nat -> outcome :=
  fun i => nth i l Fails.

Definition fresh_world (l : list outcome) : World Q :=
  mkWorld (answers l) O [].

Definition prose : outcome := Replies (u "I am not able to answer in JSON.").

Definition greeting : outcome := Replies (u "Расскажите о себе.").

End Demo.

(* ===================================================================== *)
(** * Worked sessions *)
(* ===================================================================== *)

Module Sessions.

Import Demo.

(** A session of the coach with a junior candidate: the greeting, a good
    answer (correct, score 90, recommendation [maintain]), then
    "не знаю". *)
Definition oracle_1 : list outcome :=
  [ greeting;
    Replies (dumps good_answer); Replies (u "Хорошо. Что такое декоратор?");
    Replies (dumps plain_answer); Replies (u "Ничего страшного.") ].

Definition started : Sys Q :=
  snd (start (u "Алекс") (u "Backend Developer") (u "Junior")
         (u "Пет-проекты на Django") (mkSys (fresh_world oracle_1) new_coach)).

Definition after_good_answer : Sys Q :=
  snd (process (u "Список - это изменяемая коллекция") started).

Definition after_dont_know : Sys Q :=
  snd (process (u "не знаю") after_good_answer).

(** A session in which the candidate speaks of Python 4.0 and the mentor
    does not set the hallucination flag. *)
Definition python4_message : str :=
  u "В Python 4.0 циклы for уберут, поэтому я их не учу.".

Definition oracle_2 : list outcome :=
  [ greeting; Replies (dumps plain_answer); Replies (u "Понятно.") ].

Definition started_2 : Sys Q :=
  snd (start (u "Алекс") (u "Backend Developer") (u "Junior")
         (u "Пет-проекты на Django") (mkSys (fresh_world oracle_2) new_coach)).

(** A session in which the mentor sets the hallucination flag and the fact
    checker answers three times with prose. *)
Definition oracle_3 : list outcome :=
  [ greeting; Replies (dumps flagged_answer); prose; prose; prose;
    Replies (u "Понятно.") ].

Definition started_3 : Sys Q :=
  snd (start (u "Алекс") (u "Backend Developer") (u "Junior")
         (u "Пет-проекты на Django") (mkSys (fresh_world oracle_3) new_coach)).

(** A state of the graph controller for the same candidate, with a message
    of the candidate as [main.py] adds it. *)
Definition graph_started : Graph.InterviewState :=
  match Graph.create_initial_state (Some (u "Алекс")) None
          (Some (u "Backend Developer")) None (Some (u "Junior"))
          (Some (u "Пет-проекты на Django")) None (u "adaptive") None with
  | Some st => st
  | None =>
      Graph.mkState [] (mkCandidate [] [] [] []) [] [] 0 [] [] [] [] 2 0 []
        [] false VNone
  end.

Definition graph_turn (msg : str) (st : Graph.InterviewState)
  : Graph.InterviewState :=
  with_dialogue (Graph.messages st ++ [Graph.HumanMessage msg])
    (Graph.current_turn st + 1) (Graph.turns st) st.

(** Sessions of the coach with an excellent answer, and with two good
    answers in a row. *)
Definition after_excellent_answer : Sys Q :=
  snd (process (u "Декоратор - это функция, которая принимает функцию")
         (snd (start (u "Алекс") (u "Backend Developer") (u "Junior")
                 (u "Пет-проекты на Django")
                 (mkSys (fresh_world
                           [ greeting; Replies (dumps excellent_answer);
                             Replies (u "Отлично.") ])
                        new_coach)))).

Definition after_two_good_answers : Sys Q :=
  snd (process (u "Словарь - это пары ключ-значение")
         (snd (process (u "Список - это изменяемая коллекция")
                 (snd (start (u "Алекс") (u "Backend Developer") (u "Junior")
                         (u "Пет-проекты на Django")
                         (mkSys (fresh_world
                                   [ greeting;
                                     Replies (dumps good_answer);
                                     Replies (u "Хорошо.");
                                     Replies (dumps good_answer);
                                     Replies (u "Отлично.") ])
                                new_coach)))))).



(** Sessions in which the mentor sets the hallucination flag and the fact
    checker reports the statement true, or false. *)
Definition checked_true : Sys Q :=
  snd (start (u "Алекс") (u "Backend Developer") (u "Junior")
         (u "Пет-проекты на Django")
         (mkSys (fresh_world [ greeting; Replies (dumps flagged_answer);
                               Replies (dumps verdict_true);
                               Replies (u "Понятно.") ])
                new_coach)).

Definition checked_false : Sys Q :=
  snd (start (u "Алекс") (u "Backend Developer") (u "Junior")
         (u "Пет-проекты на Django")
         (mkSys (fresh_world [ greeting; Replies (dumps flagged_answer);
                               Replies (dumps verdict_false);
                               Replies (u "Понятно.") ])
                new_coach)).

Definition unverifiable_statement : str :=
  u "В версии 3.8 из CPython убрали GIL.".

(** A turn of the graph on an answer that the mentor grades incorrect with a
    score of 20 while it recommends [increase]. *)
Definition graph_answered : Graph.InterviewState :=
  graph_turn (u "Список - это неизменяемая коллекция") graph_started.

Definition oracle_4 : list outcome := [Replies (dumps wrong_but_increase)].

Definition stop_message : str := u "Стоп игра. Давай фидбэк.".

(** The graph state in which the candidate's first message is the stop
    command. *)
Definition graph_stopping : Graph.InterviewState :=
  graph_turn stop_message graph_started.

(** The initial state of the graph with a supplied level of 42. *)
Definition graph_supplied : Graph.InterviewState :=
  match Graph.create_initial_state (Some (u "Алекс")) None
          (Some (u "Backend Developer")) None (Some (u "Junior"))
          (Some (u "Пет-проекты на Django")) None (u "adaptive") (Some 42) with
  | Some st => st
  | None => graph_started
  end.

(** The state of the graph after the run on the stop command: the session
    is finished. *)
Definition graph_finished : Graph.InterviewState :=
  match fst (Graph.invoke 25 graph_stopping
               (fresh_world [greeting; prose; prose; prose])) with
  | Ok st => st
  | Raise _ => graph_stopping
  end.

(** A state of the graph whose turn counter has reached [MAX_TURNS]. *)
Definition graph_at_limit : Graph.InterviewState :=
  with_dialogue
    (Graph.messages graph_started
     ++ [Graph.HumanMessage (u "Список - это изменяемая коллекция")])
    10 (Graph.turns graph_started) graph_started.

(** A turn of the graph in which the mentor sets the hallucination flag and
    the fact checker reports the statement false. *)
Definition oracle_5 : list outcome :=
  [Replies (dumps flagged_answer); Replies (dumps verdict_false)].

Definition graph_checked : Graph.InterviewState :=
  match fst (Graph.mentor_node graph_answered (fresh_world oracle_5)) with
  | Ok st => st
  | Raise _ => graph_answered
  end.

(** A session of the graph in the mode [fixed], with an answer that the
    mentor grades correct with a score of 95 while it recommends
    [increase]. *)
Definition graph_fixed : Graph.InterviewState :=
  match Graph.create_initial_state (Some (u "Алекс")) None
          (Some (u "Backend Developer")) None (Some (u "Junior"))
          (Some (u "Пет-проекты на Django")) None (u "fixed") None with
  | Some st => st
  | None => graph_started
  end.

Definition graph_fixed_answered : Graph.InterviewState :=
  graph_turn (u "Декоратор - это функция, которая принимает функцию")
    graph_fixed.

Definition graph_fixed_graded : Graph.InterviewState :=
  match fst (Graph.mentor_node graph_fixed_answered
               (fresh_world [Replies (dumps excellent_answer)])) with
  | Ok st => st
  | Raise _ => graph_fixed_answered
  end.


(** A session of the coach whose oracle answers the feedback request with a
    record that has no [roadmap]. *)
Definition started_no_roadmap : Sys Q :=
  snd (start (u "Алекс") (u "Backend Developer") (u "Junior")
         (u "Пет-проекты на Django")
         (mkSys (fresh_world [greeting; Replies (dumps good_answer)])
                new_coach)).

(** A run-time whose [json.loads] also parses the JSON number 7, and a
    session of the coach in which the oracle answers the mentor's request
    with that number. *)
Definition loads_number (text : str) : option value :=
  if str_eqb text (u "7") then Some (VInt 7) else loads text.

Definition py_number : PyLib :=
  Build_PyLib (map lower_char) loads_number show
    (fun a b => Finite (a # Z.to_pos b)).

Definition started_number : Sys Q :=
  snd (@start py_number Q _ texts (u "Алекс") (u "Backend Developer")
         (u "Junior") (u "Пет-проекты на Django")
         (mkSys (fresh_world [greeting; Replies (u "7")]) new_coach)).

(** An answer of the oracle with the record inside prose and a Markdown
    fence. *)
Definition answer_before : str :=
  u "Вот мой анализ:" ++ [newline] ++ u "```json" ++ [newline].

Definition answer_inside : str :=
  dumps_items [ (u "is_correct", VBool true);
                (u "correctness_score", VInt 90);
                (u "difficulty_recommendation", VStr (u "maintain")) ].

Definition answer_after : str :=
  [newline] ++ u "```" ++ [newline] ++ u "Надеюсь, это поможет.".

(** The coach on the graph as a call of [start_interview] leaves it, with
    an oracle that greets and then answers with prose. *)
Definition app_new : Main.App Q :=
  Main.mkApp (fresh_world [greeting; prose; prose; prose])
    (Main.new_interview_coach (u "Team")).

Definition app_started : Main.App Q :=
  Main.mkApp (fresh_world [greeting; prose; prose; prose])
    (Main.set_logger
       (Logger.set_candidate_info
          (mkCandidate (u "Алекс") (u "Backend Developer") (u "Junior")
             (u "Пет-проекты на Django"))
          (Logger.new_logger (u "Team")))
       (Main.set_state (Some graph_started)
          (Main.new_interview_coach (u "Team")))).

(** The graph after a good answer (correct, score 90, recommendation
    [maintain]), and its state at the message "не знаю" that follows. *)
Definition graph_good : Graph.InterviewState :=
  match fst (Graph.mentor_node
               (graph_turn (u "Список - это изменяемая коллекция")
                  graph_started)
               (fresh_world [Replies (dumps good_answer)])) with
  | Ok st => st
  | Raise _ => graph_started
  end.

Definition graph_dont_know : Graph.InterviewState :=
  graph_turn (u "не знаю") graph_good.

(** A run-time whose [str.lower] maps the capital I with a dot above,
    U+0130, to the two code points that Python gives it (a small i and a
    combining dot above), and a message of two such capitals. *)
Definition lower_dotted (s : str) : str :=
  flat_map (fun c => if (c =? 304)%N then [105%N; 775%N] else [lower_char c]) s.

Definition py_dotted : PyLib :=
  Build_PyLib lower_dotted loads show (fun a b => Finite (a # Z.to_pos b)).

Definition dotted_capitals : str := [304%N; 304%N].

Definition says_dont_know : value := VDict [(u "is_dont_know", VBool true)].

(** The coach on the graph with an oracle that answers the interviewer,
    sets the hallucination flag for the mentor, reports the statement false
    for the fact checker, and then fails. *)
Definition app_flagged : Main.App Q :=
  Main.mkApp (fresh_world [ Replies (u "Понятно.");
                            Replies (dumps flagged_answer);
                            Replies (dumps verdict_false) ])
    (Main.app_coach app_started).

End Sessions.

Unset Implicit Arguments.

(* ===================================================================== *)
(** * Strings: checks and basic facts *)
(* ===================================================================== *)

Lemma str_eqb_refl (s : str) : str_eqb s s = true.
Proof.
  induction s as [|c s IH]; simpl; [reflexivity|].
  now rewrite N.eqb_refl.
Qed.

Lemma str_eqb_eq (a b : str) : str_eqb a b = true <-> a = b.
Proof.
  split.
  - revert b. induction a as [|x a IH]; intros [|y b]; simpl; try discriminate.
    + reflexivity.
    + intros H. apply andb_true_iff in H as [H1 H2].
      apply N.eqb_eq in H1. subst y. f_equal. now apply IH.
  - intros ->. apply str_eqb_refl.
Qed.

Example u_ascii : u "stop" = [115; 116; 111; 112]%N.
Proof. reflexivity. Qed.

Example u_cyrillic : u "стоп" = [1089; 1090; 1086; 1087]%N.
Proof. reflexivity. Qed.

Example u_dash : u "—" = [8212]%N.
Proof. reflexivity. Qed.

Example strip_spaces : strip (u "  a b	 ") = u "a b".
Proof. reflexivity. Qed.

Example of_Z_examples :
  str_of_Z 0 = u "0" /\ str_of_Z 12 = u "12" /\ str_of_Z (-305) = u "-305".
Proof. repeat split. Qed.


(* ===================================================================== *)
(** * Structured-response recovery *)
(* ===================================================================== *)

Lemma truthy_not_empty (v : value) : truthy v = true -> v <> empty_record.
Proof. intros H ->. discriminate H. Qed.

Section RecoveryFacts.

Context {py : PyLib} {F : Type} {fa : FloatArith F}.

Lemma llm_calls_app (a b : list (event F)) :
  llm_calls (a ++ b) = llm_calls a ++ llm_calls b.
Proof. unfold llm_calls. now rewrite flat_map_app. Qed.

Lemma yield_at_truthy tp j v : yield_at tp j = Some v -> truthy v = true.
Proof.
  unfold yield_at. destruct (tp j) as [|text]; [discriminate|].
  destruct (truthy (extract_json text)) eqn:E; [|discriminate].
  now intros [= <-].
Qed.

(** One attempt never raises: it makes exactly one request, the one the
    specification gives its index, and hands on what the answer yields. *)
Lemma attempt_body_spec prompt max_retries temperature (a : nat) (w : World F) :
  exists evs,
    attempt_body prompt max_retries temperature (Z.of_nat a) w
    = (Ok (yield_at (tape w) (served w)),
       mkWorld (tape w) (S (served w)) (trace w ++ evs))
    /\ llm_calls evs
       = [(attempt_prompt prompt a, attempt_temperature temperature a)].
Proof.
  assert (Hlt : (0 <? Z.of_nat a) = match a with O => false | S _ => true end).
  { destruct a; [reflexivity|]. apply Z.ltb_lt. lia. }
  unfold attempt_body, try_except, bind, yield_at, attempt_prompt,
    attempt_temperature.
  rewrite Hlt.
  destruct a as [|a']; unfold call_llm;
    (destruct (tape w (served w)) as [|text]; cbn;
     [ destruct (_ <? max_retries - 1); cbn;
       eexists; (split; [try rewrite <- app_assoc; reflexivity | reflexivity])
     | destruct (truthy (extract_json text)); cbn;
       [ eexists; split; reflexivity
       | destruct (_ <? max_retries - 1); cbn;
         eexists; (split; [try rewrite <- app_assoc; reflexivity | reflexivity]) ] ]).
Qed.

(** The loop from attempt [a] on, for [m] more attempts. *)
Lemma for_attempts_spec prompt max_retries temperature (m : nat) :
  forall (a : nat) (w : World F),
  exists (k : nat) (v : value) (evs : list (event F)),
    for_attempts prompt max_retries temperature (map Z.of_nat (seq a m)) w
    = (Ok v, mkWorld (tape w) (served w + k) (trace w ++ evs))
    /\ (k <= m)%nat
    /\ llm_calls evs
       = map (fun i => (attempt_prompt prompt i,
                        attempt_temperature temperature i)) (seq a k)
    /\ (forall i, (i + 1 < k)%nat -> yields w i = None)
    /\ ((exists j, k = S j /\ yields w j = Some v)
        \/ (k = m /\ v = empty_record
            /\ forall i, (i < m)%nat -> yields w i = None)).
Proof.
  induction m as [|m IH]; intros a w.
  - exists O, empty_record, []. cbn. rewrite Nat.add_0_r, app_nil_r.
    destruct w; cbn.
    repeat split; try lia; try reflexivity.
    right. repeat split; intros; lia.
  - cbn [seq map for_attempts]. unfold bind at 1.
    destruct (attempt_body_spec prompt max_retries temperature a w)
      as (evs1 & -> & Hc1).
    destruct (yield_at (tape w) (served w)) as [v|] eqn:Hy.
    + exists 1%nat, v, evs1. rewrite Nat.add_1_r.
      split; [reflexivity|]. split; [lia|]. split; [exact Hc1|].
      split; [intros i Hi; lia|].
      left. exists O. split; [reflexivity|].
      unfold yields. now rewrite Nat.add_0_r.
    + set (w1 := mkWorld (tape w) (S (served w)) (trace w ++ evs1)).
      destruct (IH (S a) w1) as (k & v & evs & -> & Hk & Hc & Hfail & Hres).
      exists (S k), v, (evs1 ++ evs). cbn [tape served trace w1].
      assert (Hshift : forall i, yields w (S i) = yields w1 i).
      { intros i. unfold yields, w1. cbn. f_equal. lia. }
      assert (H0 : yields w O = None).
      { unfold yields. now rewrite Nat.add_0_r. }
      split; [f_equal; f_equal; [lia | now rewrite app_assoc]|].
      split; [lia|].
      split; [rewrite llm_calls_app, Hc1, Hc; reflexivity|].
      split.
      * intros [|i] Hi; [exact H0|]. rewrite Hshift. apply Hfail. lia.
      * destruct Hres as [(j & -> & Hj) | (-> & -> & Hall)].
        -- left. exists (S j). split; [reflexivity|]. now rewrite Hshift.
        -- right. split; [reflexivity|]. split; [reflexivity|].
           intros [|i] Hi; [exact H0|]. rewrite Hshift. apply Hall. lia.
Qed.

(** The recovery when no attempt yields anything, and when the first one
    yields a record. *)
Lemma retry_none prompt max_retries temperature (w : World F) :
  (forall i, (i < Z.to_nat max_retries)%nat -> yields w i = None) ->
  exists evs,
    call_llm_with_json_retry prompt max_retries temperature w
    = (Ok empty_record,
       mkWorld (tape w) (served w + Z.to_nat max_retries) (trace w ++ evs)).
Proof.
  intros Hnone. unfold call_llm_with_json_retry, range.
  destruct (for_attempts_spec prompt max_retries temperature
              (Z.to_nat max_retries) O w)
    as (k & v & evs & Hrun & Hk & _ & _ & Hres).
  exists evs. rewrite Hrun.
  destruct Hres as [(j & -> & Hj) | (-> & -> & _)].
  - rewrite (Hnone j) in Hj by lia. discriminate Hj.
  - reflexivity.
Qed.

Lemma retry_first prompt max_retries temperature (w : World F) (v : value) :
  0 < max_retries ->
  yields w 0 = Some v ->
  exists evs,
    call_llm_with_json_retry prompt max_retries temperature w
    = (Ok v, mkWorld (tape w) (S (served w)) (trace w ++ evs)).
Proof.
  intros Hpos Hv. unfold call_llm_with_json_retry, range.
  destruct (for_attempts_spec prompt max_retries temperature
              (Z.to_nat max_retries) O w)
    as (k & v' & evs & Hrun & Hk & _ & Hbefore & Hres).
  exists evs. rewrite Hrun.
  destruct Hres as [(j & -> & Hj) | (-> & -> & Hall)].
  - destruct j as [|j].
    + rewrite Hv in Hj. injection Hj as <-. now rewrite Nat.add_1_r.
    + rewrite (Hbefore O) in Hv by lia. discriminate Hv.
  - rewrite (Hall O) in Hv by lia. discriminate Hv.
Qed.

End RecoveryFacts.

Section RecoveryTheorem.

Context {py : PyLib} {F : Type} {fa : FloatArith F}.


End RecoveryTheorem.

(** The temperatures of three attempts from the default base 0.7, in exact
    arithmetic: 0.7, 0.5, and 0.3 = max(0.3, 0.3). *)
Example temperatures_from_default :
  (attempt_temperature (7 # 10) 0 == 7 # 10)%Q /\
  (attempt_temperature (7 # 10) 1 == 5 # 10)%Q /\
  (attempt_temperature (7 # 10) 2 == 3 # 10)%Q /\
  (attempt_temperature (5 # 10) 2 == 3 # 10)%Q.
Proof. repeat split. Qed.

(* ===================================================================== *)
(** * Relations that a computation keeps *)
(* ===================================================================== *)

Section Keeps.

Context {S : Type} (R : S -> S -> Prop) {HR : PreOrder R}.

Lemma keeps_ret {A} (a : A) : keeps R (ret a).
Proof. intros s. reflexivity. Qed.

Lemma keeps_lift {A} (r : res A) : keeps R (lift r).
Proof. intros s. reflexivity. Qed.

Lemma keeps_read : keeps R read.
Proof. intros s. reflexivity. Qed.

Lemma keeps_modify (f : S -> S) : (forall s, R s (f s)) -> keeps R (modify f).
Proof. intros H s. apply H. Qed.

Lemma keeps_bind {A B} (c : M S A) (k : A -> M S B) :
  keeps R c -> (forall a, keeps R (k a)) -> keeps R (bind c k).
Proof.
  intros Hc Hk s. unfold bind. specialize (Hc s).
  destruct (c s) as [[a|e] s1]; cbn in *.
  - etransitivity; [exact Hc | apply Hk].
  - exact Hc.
Qed.

Lemma keeps_try {A} (c : M S A) (h : exn -> M S A) :
  keeps R c -> (forall e, keeps R (h e)) -> keeps R (try_except c h).
Proof.
  intros Hc Hh s. unfold try_except. specialize (Hc s).
  destruct (c s) as [[a|e] s1]; cbn in *.
  - exact Hc.
  - etransitivity; [exact Hc | apply Hh].
Qed.

Lemma keeps_when (b : bool) (c : M S unit) : keeps R c -> keeps R (when b c).
Proof. intros Hc. destruct b; [exact Hc | apply keeps_ret]. Qed.

End Keeps.

#[export] Instance on_coach_preorder {F} (R : Coach -> Coach -> Prop)
  {HR : PreOrder R} : PreOrder (@on_coach F R).
Proof.
  split.
  - intros s. unfold on_coach. reflexivity.
  - intros a b c Hab Hbc. unfold on_coach in *. etransitivity; eassumption.
Qed.

#[export] Instance on_world_preorder {F} (R : World F -> World F -> Prop)
  {HR : PreOrder R} : PreOrder (on_world R).
Proof.
  split.
  - intros s. unfold on_world. reflexivity.
  - intros a b c Hab Hbc. unfold on_world in *. etransitivity; eassumption.
Qed.

#[export] Instance preserved_preorder {S} (I : S -> Prop)
  : PreOrder (preserved I).
Proof.
  split.
  - intros s H. exact H.
  - intros a b c Hab Hbc H. apply Hbc, Hab, H.
Qed.

Section KeepsCoach.

Context {py : PyLib} {F : Type} {fa : FloatArith F} {tx : Texts}.

Lemma keeps_in_world (R : Coach -> Coach -> Prop) {HR : PreOrder R}
    {A} (c : M (World F) A) :
  keeps (on_coach R) (in_world c).
Proof.
  intros s. unfold in_world, zoom, on_coach.
  destruct (c (world s)) as [r w]. cbn. reflexivity.
Qed.

Lemma keeps_self (R : Sys F -> Sys F -> Prop) {HR : PreOrder R} :
  keeps R (self (F:=F)).
Proof. intros s. cbn. reflexivity. Qed.

Lemma keeps_update (R : Coach -> Coach -> Prop) (f : Coach -> Coach) :
  (forall c, R c (f c)) -> keeps (@on_coach F R) (update f).
Proof. intros H s. apply H. Qed.

Lemma keeps_update_world (R : World F -> World F -> Prop) {HR : PreOrder R}
    (f : Coach -> Coach) :
  keeps (on_world R) (update (F:=F) f).
Proof. intros s. unfold on_world. cbn. reflexivity. Qed.

Lemma keeps_in_world_world (R : World F -> World F -> Prop)
    {A} (c : M (World F) A) :
  keeps R c -> keeps (on_world R) (in_world c).
Proof.
  intros H s. unfold in_world, zoom, on_world. specialize (H (world s)).
  destruct (c (world s)) as [r w]. exact H.
Qed.

Lemma update_ok (f : Coach -> Coach) (s s' : Sys F) (x : unit) :
  update f s = (Ok x, s') -> s' = mkSys (world s) (f (coach s)).
Proof. unfold update, modify. now inversion 1. Qed.

Lemma self_ok (s s' : Sys F) (c : Coach) :
  self s = (Ok c, s') -> c = coach s /\ s' = s.
Proof. unfold self. now inversion 1. Qed.

Lemma enter_ok (op : operation) (s s' : Sys F) (x : unit) :
  enter op s = (Ok x, s') -> coach s' = coach s.
Proof. unfold enter, in_world, zoom, emit, modify. now inversion 1. Qed.

End KeepsCoach.

(** Taking a computation apart along its binds and branches. [upd] closes
    the goals that the updates of [self] leave. *)
Ltac keeps_step :=
  lazymatch goal with
  | |- keeps _ (bind _ _) => apply keeps_bind; [try exact _ | | intros ?]
  | |- keeps _ (ret _) => apply keeps_ret; exact _
  | |- keeps _ (lift _) => apply keeps_lift; exact _
  | |- keeps _ (when _ _) => apply keeps_when; [exact _ |]
  | |- keeps _ self => apply keeps_self; exact _
  | |- keeps (on_coach _) (in_world _) => apply keeps_in_world; exact _
  | |- keeps (on_coach _) (enter _) => apply keeps_in_world; exact _
  | |- keeps (on_world _) (update _) => apply keeps_update_world; exact _
  | |- keeps _ (if ?b then _ else _) => destruct b
  | |- keeps _ (match ?x with _ => _ end) => destruct x
  end.

Ltac keeps_with upd :=
  repeat first
    [ keeps_step
    | lazymatch goal with
      | |- keeps (on_coach _) (update _) => apply keeps_update; intros ?; upd
      end ].

(* ===================================================================== *)
(** * The coach: what every operation keeps *)
(* ===================================================================== *)

#[export] Instance extends_preorder {A} : PreOrder (@extends A).
Proof.
  split.
  - intros l. exists []. now rewrite app_nil_r.
  - intros a b c [x ->] [y ->]. exists (x ++ y). now rewrite app_assoc.
Qed.

#[export] Instance same_difficulty_state_preorder
  : PreOrder same_difficulty_state.
Proof.
  split.
  - intros c. repeat split.
  - intros a b c (H1 & H2 & H3) (H4 & H5 & H6). unfold same_difficulty_state.
    now rewrite H4, H5, H6.
Qed.

Ltac split_ifs :=
  repeat match goal with
         | |- context [if ?b then _ else _] => destruct b
         end.

Ltac unfold_setters :=
  unfold set_candidate, set_history, set_turns, set_thoughts, set_red_flags,
    set_turn_num, set_finished, set_difficulty, set_correct_streak,
    set_difficulty_history, set_topics_covered, set_questions_asked,
    set_final_feedback;
  cbn [candidate history turns thoughts red_flags turn_num finished difficulty
       correct_streak difficulty_history topics_covered questions_asked
       final_feedback].

Ltac arith_upd :=
  unfold preserved, level_ok, streak_ok, in_range, same_difficulty_state;
  split_ifs; unfold_setters;
  first [ lia | repeat split; reflexivity ].

Section Agents.

Context {py : PyLib} {F : Type} {fa : FloatArith F} {tx : Texts}.

(** The agents change the world only. *)
Lemma generate_response_keeps (R : Coach -> Coach -> Prop) {HR : PreOrder R}
    cand hist advice turn dif streak topics edge :
  keeps (@on_coach F R)
    (generate_response cand hist advice turn dif streak topics edge).
Proof. unfold generate_response. keeps_with idtac. Qed.

Lemma mentor_analyze_keeps (R : Coach -> Coach -> Prop) {HR : PreOrder R}
    msg hist dif topics :
  keeps (@on_coach F R) (mentor_analyze msg hist dif topics).
Proof. unfold mentor_analyze. keeps_with idtac. Qed.

Lemma fact_checker_check_keeps (R : Coach -> Coach -> Prop) {HR : PreOrder R}
    stmt :
  keeps (@on_coach F R) (fact_checker_check stmt).
Proof. unfold fact_checker_check. keeps_with idtac. Qed.

Lemma feedback_generate_keeps (R : Coach -> Coach -> Prop) {HR : PreOrder R}
    hist ths cand dh qs :
  keeps (@on_coach F R) (feedback_generate hist ths cand dh qs).
Proof. unfold feedback_generate. keeps_with idtac. Qed.

End Agents.

Ltac agents :=
  first [ apply generate_response_keeps; exact _
        | apply mentor_analyze_keeps; exact _
        | apply fact_checker_check_keeps; exact _
        | apply feedback_generate_keeps; exact _ ].

Ltac keeps_coach upd :=
  repeat first
    [ agents
    | keeps_step
    | lazymatch goal with
      | |- keeps (on_coach _) (update _) => apply keeps_update; intros ?; upd
      end ].

Section CoachFacts.

Context {py : PyLib} {F : Type} {fa : FloatArith F} {tx : Texts}.

Lemma adjust_keeps_level analysis :
  keeps (@on_coach F (preserved level_ok)) (_adjust_difficulty analysis).
Proof. unfold _adjust_difficulty. keeps_with arith_upd. Qed.

Lemma adjust_keeps_streak analysis :
  keeps (@on_coach F (preserved streak_ok)) (_adjust_difficulty analysis).
Proof. unfold _adjust_difficulty. keeps_with arith_upd. Qed.

Lemma escalate_keeps_difficulty_state msg analysis :
  keeps (@on_coach F same_difficulty_state) (escalate msg analysis).
Proof. unfold escalate. keeps_coach arith_upd. Qed.

Lemma gen_feedback_keeps_difficulty_state :
  keeps (@on_coach F same_difficulty_state) _gen_feedback.
Proof. unfold _gen_feedback. keeps_coach arith_upd. Qed.

Lemma adapt_keeps_level edge analysis :
  keeps (@on_coach F (preserved level_ok)) (adapt edge analysis).
Proof.
  unfold adapt. destruct edge as [[| | |]|];
    try apply adjust_keeps_level; keeps_coach arith_upd.
Qed.

Lemma adapt_keeps_streak edge analysis :
  keeps (@on_coach F (preserved streak_ok)) (adapt edge analysis).
Proof.
  unfold adapt. destruct edge as [[| | |]|];
    try apply adjust_keeps_streak; keeps_coach arith_upd.
Qed.

Lemma process_keeps_level msg :
  keeps (@on_coach F (preserved level_ok)) (process msg).
Proof.
  unfold process, _gen_feedback, escalate.
  keeps_coach arith_upd; apply adapt_keeps_level.
Qed.

Lemma process_keeps_streak msg :
  keeps (@on_coach F (preserved streak_ok)) (process msg).
Proof.
  unfold process, _gen_feedback, escalate.
  keeps_coach arith_upd; apply adapt_keeps_streak.
Qed.

Lemma start_sets_level name position grade exp (s : Sys F) :
  level_ok (coach (snd (start name position grade exp s))).
Proof.
  unfold start. unfold bind at 1. cbn [update modify].
  unfold bind at 1. cbn [update modify].
  match goal with
  | |- level_ok (coach (snd (?c ?s0))) =>
      assert (H0 : level_ok (coach s0));
      [| assert (Hk : keeps (@on_coach F (preserved level_ok)) c);
         [| exact (Hk s0 H0)] ]
  end.
  - unfold level_ok, in_range, start_difficulty. cbn. split_ifs; lia.
  - keeps_coach arith_upd.
Qed.

Lemma start_keeps_streak name position grade exp :
  keeps (@on_coach F (preserved streak_ok)) (start name position grade exp).
Proof. unfold start. keeps_coach arith_upd. Qed.

Lemma reachable_level_ok (s : Sys F) : reachable s -> level_ok (coach s).
Proof.
  induction 1 as [w | s name position grade exp _ _ | s msg _ IH].
  - unfold level_ok, in_range. cbn. lia.
  - apply start_sets_level.
  - exact (process_keeps_level msg s IH).
Qed.

Lemma reachable_streak_ok (s : Sys F) : reachable s -> streak_ok (coach s).
Proof.
  induction 1 as [w | s name position grade exp _ IH | s msg _ IH].
  - unfold streak_ok. cbn. lia.
  - exact (start_keeps_streak name position grade exp s IH).
  - exact (process_keeps_streak msg s IH).
Qed.

End CoachFacts.

(* ===================================================================== *)
(** * Runs that return *)
(* ===================================================================== *)

Section Returns.

Context {S : Type}.

Lemma bind_ok {A B} (c : M S A) (k : A -> M S B) (s s' : S) (b : B) :
  bind c k s = (Ok b, s') ->
  exists a s1, c s = (Ok a, s1) /\ k a s1 = (Ok b, s').
Proof.
  unfold bind. destruct (c s) as [[a|e] s1]; intros H.
  - exists a, s1. split; [reflexivity | exact H].
  - discriminate H.
Qed.

Lemma lift_ok {A} (r : res A) (s s' : S) (a : A) :
  lift r s = (Ok a, s') -> r = Ok a /\ s' = s.
Proof. unfold lift. intros [= -> ->]. split; reflexivity. Qed.

Lemma ret_ok {A} (x a : A) (s s' : S) :
  ret x s = (Ok a, s') -> x = a /\ s' = s.
Proof. unfold ret. intros [= -> ->]. split; reflexivity. Qed.

Lemma keeps_run {A} (R : S -> S -> Prop) (c : M S A) (s s' : S) (r : res A) :
  keeps R c -> c s = (r, s') -> R s s'.
Proof. intros H E. specialize (H s). now rewrite E in H. Qed.

End Returns.

(* ===================================================================== *)
(** * The graph controller: the difficulty level *)
(* ===================================================================== *)

Section GraphFacts.

Context {py : PyLib} {F : Type} {fa : FloatArith F} {cfg : Graph.Config F}.

Lemma grade_level_in_range grade :
  in_range (Graph._grade_to_initial_difficulty grade).
Proof.
  unfold Graph._grade_to_initial_difficulty, in_range. split_ifs; lia.
Qed.

Lemma initial_state_facts candidate_name name position pos grade experience
    exp mode initial st :
  Graph.create_initial_state candidate_name name position pos grade
    experience exp mode initial = Some st ->
  in_range (Graph.difficulty_level st)
  /\ Graph.correct_streak st = 0
  /\ Graph.difficulty_history st = [Graph.difficulty_level st]
  /\ Graph.red_flags st = []
  /\ Graph.interview_finished st = false.
Proof.
  unfold Graph.create_initial_state.
  destruct (or_str candidate_name name) as [[|? ?]|]; try discriminate.
  destruct (or_str position pos) as [[|? ?]|]; try discriminate.
  destruct (or_str experience exp) as [?|]; try discriminate.
  pose proof (grade_level_in_range grade) as Hg. unfold in_range in *.
  destruct grade as [[|n2 s2]|]; try discriminate.
  destruct initial as [lv|]; intros [= <-]; cbn;
    repeat split; try reflexivity; lia.
Qed.

(** The adaptive block: the new level is in range when the old one is, the
    streak is reset or one more, and the history grows by the new level
    exactly when the level changed. *)
Lemma adaptive_facts analysis level streak hist level' streak' hist' :
  Graph.adaptive analysis level streak hist = Ok (level', streak', hist') ->
  (in_range level -> in_range level')
  /\ (0 <= streak -> 0 <= streak')
  /\ (streak' = 0 \/ streak' = streak + 1)
  /\ hist' = (if level' =? level then hist else hist ++ [level']).
Proof.
  unfold Graph.adaptive.
  destruct (get analysis (u "correctness_score")) as [score|]; [|discriminate].
  destruct (get analysis (u "is_correct")) as [is_correct|]; [|discriminate].
  destruct (get analysis (u "difficulty_recommendation")) as [rec|];
    [|discriminate].
  destruct (Graph.lower_or_maintain rec) as [recommendation|]; [|discriminate].
  set (good := is_True is_correct && _).
  set (low := match as_number score with Some f => float_le f 40 | None => false end).
  unfold in_range.
  destruct (str_eqb recommendation (u "increase")); cbn [orb];
    [| destruct (2 <=? (if good then streak + 1 else 0)) eqn:E2;
       [| destruct (str_eqb recommendation (u "decrease"));
          [| destruct low ] ] ];
    intros [= <- <- <-]; destruct good; repeat split; lia.
Qed.

(** A run of [mentor_node] that returns: either there is no message of the
    candidate and the state is returned as it is, or the mentor analysed the
    last message, the gate decided, and the difficulty state is what the
    adaptive block (in the adaptive mode) made of the entry values. *)
Lemma mentor_node_ok st w st' w' :
  Graph.mentor_node st w = (Ok st', w') ->
  (from_end 1 (Graph.user_messages (Graph.messages st)) = None
   /\ st' = st /\ w' = w)
  \/
  exists msg analysis w1 fire flags fc_thoughts level streak hist,
    from_end 1 (Graph.user_messages (Graph.messages st)) = Some msg
    /\ Graph.analyze st msg w = (Ok analysis, w1)
    /\ Graph.should_fact_check analysis msg = Ok fire
    /\ (if fire then Graph.fact_check_flags msg else ret ([], [])) w1
       = (Ok (flags, fc_thoughts), w')
    /\ (if str_eqb (entry_mode st) (u "adaptive")
        then Graph.adaptive analysis (entry_level st)
               (Graph.correct_streak st) (entry_history st)
        else Ok (entry_level st, Graph.correct_streak st, entry_history st))
       = Ok (level, streak, hist)
    /\ Graph.difficulty_level st' = level
    /\ Graph.correct_streak st' = streak
    /\ Graph.difficulty_history st' = hist
    /\ Graph.red_flags st' = Graph.red_flags st ++ flags
    /\ Graph.interview_finished st' = Graph.interview_finished st
    /\ Graph.difficulty_mode st' = entry_mode st.
Proof.
  unfold Graph.mentor_node.
  destruct (from_end 1 (Graph.user_messages (Graph.messages st)))
    as [msg|] eqn:Hmsg.
  - intros H. right.
    apply bind_ok in H as (analysis & w1 & Ha & H).
    apply bind_ok in H as (fire & w2 & Hf & H).
    apply lift_ok in Hf as [Hf ->].
    apply bind_ok in H as ([flags fc_thoughts] & w3 & Hc & H).
    apply bind_ok in H as (topic & w4 & Ht & H).
    apply lift_ok in Ht as [Ht ->].
    apply bind_ok in H as (topic_detected & w5 & Hs & H).
    apply lift_ok in Hs as [Hs ->].
    apply bind_ok in H as ([[level streak] hist] & w6 & Had & H).
    apply bind_ok in H as (th & w7 & Hth & H).
    apply lift_ok in Hth as [Hth ->].
    apply bind_ok in H as ([skills gaps] & w8 & Hr & H).
    apply lift_ok in Hr as [Hr ->].
    apply ret_ok in H as [<- ->].
    exists msg, analysis, w1, fire, flags, fc_thoughts, level, streak, hist.
    assert (Had' : (if str_eqb (entry_mode st) (u "adaptive")
                    then Graph.adaptive analysis (entry_level st)
                           (Graph.correct_streak st) (entry_history st)
                    else Ok (entry_level st, Graph.correct_streak st,
                             entry_history st))
                   = Ok (level, streak, hist) /\ w6 = w3).
    { unfold entry_mode, entry_level, entry_history.
      destruct (str_eqb _ (u "adaptive")).
      - apply lift_ok in Had as [Had ->]. split; [exact Had | reflexivity].
      - apply ret_ok in Had as [Had ->].
        split; [exact (f_equal Ok Had) | reflexivity]. }
    destruct Had' as [Had' ->].
    cbn. repeat split; try reflexivity; assumption.
  - intros H. left. apply ret_ok in H as [<- ->]. repeat split.
Qed.

Lemma interviewer_node_ok st w st' w' :
  Graph.interviewer_node st w = (Ok st', w') ->
  exists response,
    st' = Graph.mkState (Graph.messages st ++ [Graph.AIMessage response])
            (Graph.candidate st) (Graph.turns st) (Graph.thoughts st)
            (Graph.current_turn st) (Graph.topics_covered st)
            (Graph.confirmed_skills st) (Graph.knowledge_gaps st)
            (Graph.red_flags st) (Graph.difficulty_level st)
            (Graph.correct_streak st) (Graph.difficulty_mode st)
            (Graph.difficulty_history st) (Graph.interview_finished st)
            (Graph.final_feedback st).
Proof.
  unfold Graph.interviewer_node. intros H.
  apply bind_ok in H as (response & w1 & _ & H).
  apply ret_ok in H as [<- _]. now exists response.
Qed.

(** The interviewer node when it returns: one request to the oracle, whose
    answer is appended to the messages. *)
Lemma interviewer_node_inv st w st' w' :
  Graph.interviewer_node st w = (Ok st', w') ->
  exists text request,
    st' = replied text st
    /\ tape w (served w) = Replies text
    /\ w' = mkWorld (tape w) (S (served w))
              (trace w ++ [Enter InterviewerRespond;
                           LLMCall request Graph.LLM_TEMPERATURE]).
Proof.
  unfold Graph.interviewer_node, Graph.generate_question. intros H.
  apply bind_ok in H as (response & w1 & H1 & H).
  apply ret_ok in H as [<- <-].
  apply bind_ok in H1 as (x & w2 & He & H1).
  unfold emit, modify in He. injection He as _ <-.
  apply bind_ok in H1 as (request & w3 & Hr & H1).
  apply lift_ok in Hr as [Hr ->].
  unfold call_llm in H1. cbn [tape served trace] in H1.
  destruct (tape w (served w)) as [|text] eqn:Ht; [discriminate H1|].
  injection H1 as <- <-.
  exists text, request. split; [reflexivity|]. split; [reflexivity|].
  now rewrite <- app_assoc.
Qed.

Lemma feedback_node_ok st w st' w' :
  Graph.feedback_node st w = (Ok st', w') ->
  exists report feedback,
    st' = Graph.mkState (Graph.messages st ++ [Graph.AIMessage report])
            (Graph.candidate st) (Graph.turns st) (Graph.thoughts st)
            (Graph.current_turn st) (Graph.topics_covered st)
            (Graph.confirmed_skills st) (Graph.knowledge_gaps st)
            (Graph.red_flags st) (Graph.difficulty_level st)
            (Graph.correct_streak st) (Graph.difficulty_mode st)
            (Graph.difficulty_history st) true feedback.
Proof.
  unfold Graph.feedback_node. intros H.
  apply bind_ok in H as (feedback & w1 & _ & H).
  apply bind_ok in H as (report & w2 & _ & H).
  apply ret_ok in H as [<- _]. now exists report, feedback.
Qed.

(** What a node that returns does to the difficulty state: nothing, unless
    it is the mentor with a message to analyse. *)
Lemma step_difficulty n st w n' st' w' :
  Graph.step n st w = (Ok (n', st'), w') ->
  (Graph.difficulty_level st' = Graph.difficulty_level st
   /\ Graph.correct_streak st' = Graph.correct_streak st
   /\ Graph.difficulty_history st' = Graph.difficulty_history st)
  \/
  exists analysis level streak hist,
    (if str_eqb (entry_mode st) (u "adaptive")
     then Graph.adaptive analysis (entry_level st)
            (Graph.correct_streak st) (entry_history st)
     else Ok (entry_level st, Graph.correct_streak st, entry_history st))
    = Ok (level, streak, hist)
    /\ Graph.difficulty_level st' = level
    /\ Graph.correct_streak st' = streak
    /\ Graph.difficulty_history st' = hist.
Proof.
  destruct n; cbn [Graph.step]; intros H.
  - apply bind_ok in H as (st1 & w1 & Hn & H).
    apply ret_ok in H as [[= _ <-] _].
    apply interviewer_node_ok in Hn as [response ->]. left. repeat split.
  - apply bind_ok in H as (st1 & w1 & Hn & H).
    apply ret_ok in H as [[= _ <-] _].
    apply mentor_node_ok in Hn
      as [(_ & -> & _) | (msg & analysis & w2 & fire & flags & fct & level
                          & streak & hist & _ & _ & _ & _ & Had & Hl & Hs
                          & Hh & _)].
    + left. repeat split.
    + right. exists analysis, level, streak, hist. repeat split; assumption.
  - apply bind_ok in H as (st1 & w1 & Hn & H).
    apply ret_ok in H as [[= _ <-] _].
    apply feedback_node_ok in Hn as (report & feedback & ->).
    left. repeat split.
  - apply ret_ok in H as [[= _ <-] _]. left. repeat split.
Qed.

Lemma entry_level_in_range st : in_range (entry_level st).
Proof. unfold entry_level, in_range. lia. Qed.

Lemma entry_level_id st :
  in_range (Graph.difficulty_level st) ->
  entry_level st = Graph.difficulty_level st.
Proof.
  unfold entry_level, in_range. intros H.
  destruct (Z.eqb_spec (Graph.difficulty_level st) 0); lia.
Qed.

Lemma graph_reachable_level st :
  graph_reachable st -> in_range (Graph.difficulty_level st).
Proof.
  induction 1 as [cn name position pos grade experience exp mode initial st H
                 | n n' st st' w w' _ IH Hstep
                 | st ms k ts _ IH].
  - apply initial_state_facts in H. apply H.
  - apply step_difficulty in Hstep
      as [(-> & _) | (analysis & level & streak & hist & Had & <- & _)];
      [exact IH|].
    destruct (str_eqb (entry_mode st) (u "adaptive")).
    + apply adaptive_facts in Had. apply Had, entry_level_in_range.
    + injection Had as <- _ _. apply entry_level_in_range.
  - exact IH.
Qed.

End GraphFacts.

(* ===================================================================== *)
(** * The coach: a turn that is processed to the end *)
(* ===================================================================== *)

Lemma from_end_last {A} (l : list A) (x : A) : from_end 1 (l ++ [x]) = Some x.
Proof. unfold from_end. now rewrite rev_app_distr. Qed.

Section CoachTurn.

Context {py : PyLib} {F : Type} {fa : FloatArith F} {tx : Texts}.

Tactic Notation "run" hyp(H) "as" ident(a) ident(s) ident(E) :=
  apply bind_ok in H as (a & s & E & H).

Ltac frame E Hf :=
  lazymatch type of E with
  | ?c ?s = (_, ?s1) =>
      assert (Hf : same_difficulty_state (coach s) (coach s1))
        by (refine (keeps_run (on_coach same_difficulty_state) c s s1 _ _ E);
            keeps_coach arith_upd)
  end.

Ltac pure E := apply lift_ok in E as [E ->].

Ltac chain := repeat (etransitivity; [eassumption|]); try eassumption;
              try reflexivity.

(** A call of [process] that returns on a message without a stop command:
    the mentor's analysis and the edge case detected from it, the states
    [sa] and [sb] around the adaptation of the difficulty (nothing else in
    the turn touches the difficulty state), and the turn it logs. *)
Lemma process_turn (msg : str) (s s' : Sys F) (resp : str) :
  any_in stop_commands (lower msg) = false ->
  process msg s = (Ok resp, s') ->
  exists (analysis : value) (edge : option edge_case) (sa sb : Sys F),
    (exists s0 s1 : Sys F,
       mentor_analyze msg (history (coach s0)) (difficulty (coach s0))
         (topics_covered (coach s0)) s0 = (Ok analysis, s1))
    /\ _detect_edge_case msg analysis = Ok edge
    /\ same_difficulty_state (coach s) (coach sa)
    /\ adapt edge analysis sa = (Ok tt, sb)
    /\ same_difficulty_state (coach sb) (coach s')
    /\ latest_edge_case (coach s') = edge.
Proof.
  intros Hstop H. unfold process in H.
  run H as x1 s1 E1. frame E1 F1.
  run H as x2 s2 E2. frame E2 F2.
  rewrite Hstop in H.
  run H as c3 s3 E3. frame E3 F3.
  run H as analysis s4 E4. frame E4 F4.
  run H as x5 s5 E5. frame E5 F5.
  run H as edge s6 E6. pure E6.
  run H as topic s7 E7. pure E7.
  run H as x8 s8 E8. frame E8 F8.
  run H as c9 s9 E9. frame E9 F9.
  run H as x10 sa E10.
  assert (F10 : same_difficulty_state (coach s9) (coach sa)).
  { destruct (from_end 2 (history c9)) as [m|].
    - run E10 as ic s10 E10a. pure E10a.
      run E10 as sc s11 E10b. pure E10b.
      frame E10 F10. exact F10.
    - frame E10 F10. exact F10. }
  run H as x11 sb E11. destruct x11.
  run H as tc s12 E12. pure E12.
  run H as x13 s13 E13. frame E13 F13.
  run H as fc s14 E14.
  pose proof (keeps_run (on_coach same_difficulty_state) _ _ _ _
                (escalate_keeps_difficulty_state msg analysis) E14) as F14.
  unfold on_coach in F14.
  run H as advice s15 E15. pure E15.
  run H as c16 s16 E16. frame E16 F16.
  run H as r17 s17 E17. frame E17 F17.
  run H as x18 s18 E18. frame E18 F18.
  run H as c19 s19 E19. frame E19 F19.
  run H as x20 s20 E20. frame E20 F20.
  apply ret_ok in H as [_ ->].
  exists analysis, edge, sa, sb.
  split.
  { exists s3, s4. unfold self in E3. injection E3 as <- <-. exact E4. }
  split; [exact E6|]. split; [chain|]. split; [exact E11|]. split; [chain|].
  unfold update, modify in E20. injection E20 as _ <-.
  unfold latest_edge_case. cbn [coach set_turns turns].
  now rewrite from_end_last.
Qed.

End CoachTurn.

(* ===================================================================== *)
(** * The coach: the difficulty adapter *)
(* ===================================================================== *)

Section Adapter.

Context {py : PyLib} {F : Type} {fa : FloatArith F} {tx : Texts}.

Tactic Notation "run" hyp(H) "as" ident(a) ident(s) ident(E) :=
  apply bind_ok in H as (a & s & E & H).

Ltac pure E := apply lift_ok in E as [E ->].

Ltac updated E := apply update_ok in E; subst.

(** [_adjust_difficulty] when it returns: the streak counts the turn, the
    level is raised exactly on a correct verdict with an [increase]
    recommendation or a streak of two, it is never raised otherwise, and the
    level is appended to the history in every case. *)
Lemma adjust_ok (analysis : value) (s s' : Sys F) :
  _adjust_difficulty analysis s = (Ok tt, s') ->
  let d := difficulty (coach s) in
  let streak1 :=
    if correct_with_high_score analysis
    then correct_streak (coach s) + 1 else 0 in
  let raised :=
    verdict_correct analysis
    && (recommends analysis (u "increase") || (2 <=? streak1)) in
  (if raised
   then difficulty (coach s') = Z.min 10 (d + 1)
        /\ correct_streak (coach s') = 0
   else (difficulty (coach s') = d \/ difficulty (coach s') = Z.max 1 (d - 1))
        /\ correct_streak (coach s') = streak1)
  /\ difficulty_history (coach s')
     = difficulty_history (coach s) ++ [difficulty (coach s')].
Proof.
  intros H. unfold _adjust_difficulty in H.
  run H as x0 s0 E0.
  apply enter_ok in E0 as Hc0.
  run H as rec s1 E1. pure E1.
  run H as score s2 E2. pure E2.
  run H as ic s3 E3. pure E3.
  run H as good s4 E4.
  assert (Hgood : good = correct_with_high_score analysis /\ s4 = s0).
  { unfold correct_with_high_score. rewrite E3, E2.
    destruct (truthy ic).
    - pure E4. rewrite E4. split; reflexivity.
    - apply ret_ok in E4 as [<- ->]. split; reflexivity. }
  destruct Hgood as [-> ->].
  run H as x5 s5 E5. updated E5.
  run H as c6 s6 E6. apply self_ok in E6 as [-> ->].
  run H as x7 s7 E7. updated H.
  unfold verdict_correct, recommends. rewrite E3, E1.
  cbn [coach correct_streak set_correct_streak] in E7.
  cbn zeta. rewrite <- Hc0.
  cbn [coach difficulty_history set_difficulty_history difficulty
       correct_streak].
  destruct (truthy ic &&
            (eq_str rec (u "increase")
             || (2 <=? (if correct_with_high_score analysis
                        then correct_streak (coach s0) + 1 else 0)))).
  - updated E7. cbn. repeat split.
  - run E7 as low s8 E8.
    assert (s8 = mkSys (world s0)
                   (set_correct_streak
                      (if correct_with_high_score analysis
                       then correct_streak (coach s0) + 1 else 0)
                      (coach s0))) as ->.
    { destruct (eq_str rec (u "decrease")).
      - now apply ret_ok in E8 as [_ ->].
      - destruct (negb (truthy ic)).
        + now pure E8.
        + now apply ret_ok in E8 as [_ ->]. }
    destruct low; cbn [when] in E7.
    + updated E7. cbn. repeat split. now right.
    + apply ret_ok in E7 as [_ ->]. cbn. repeat split. now left.
Qed.

End Adapter.

(* ===================================================================== *)
(** * The coach: edge cases and the streak *)
(* ===================================================================== *)

Section EdgeCases.

Context {py : PyLib} {F : Type} {fa : FloatArith F} {tx : Texts}.

Lemma adapt_override (e : edge_case) (analysis : value) (s : Sys F) :
  e = DontKnow \/ e = Silence ->
  adapt (Some e) analysis s
  = (Ok tt,
     mkSys (world s)
       (set_difficulty_history
          (difficulty_history (coach s) ++ [Z.max 1 (difficulty (coach s) - 1)])
          (set_difficulty (Z.max 1 (difficulty (coach s) - 1)) (coach s)))).
Proof. intros [-> | ->]; reflexivity. Qed.

Lemma adapt_ignore (e : edge_case) (analysis : value) (s : Sys F) :
  e = Rude \/ e = Troll -> adapt (Some e) analysis s = (Ok tt, s).
Proof. intros [-> | ->]; reflexivity. Qed.

(** C5. The adaptation of [process] on an edge case. On [dont_know] and
    [silence] it returns, with the level at [max(1, level - 1)], whatever
    the analysis says, without entering the adapter (the world and the
    streak are as before); on [rude] and [troll] it leaves the whole state
    as it is. So for every call of [process] that returns on a message
    without a stop command: when the edge case it logs for the turn is
    [dont_know] or [silence], the level after the turn is
    [max(1, level - 1)]; when it is [rude] or [troll], the level and the
    streak after the turn are those before it. *)
Theorem edge_case_overrides_scoring :
  (forall (e : edge_case) (analysis : value) (s : Sys F),
     e = DontKnow \/ e = Silence ->
     exists s' : Sys F,
       adapt (Some e) analysis s = (Ok tt, s')
       /\ difficulty (coach s') = Z.max 1 (difficulty (coach s) - 1)
       /\ correct_streak (coach s') = correct_streak (coach s)
       /\ world s' = world s)
  /\ (forall (e : edge_case) (analysis : value) (s : Sys F),
        e = Rude \/ e = Troll -> adapt (Some e) analysis s = (Ok tt, s))
  /\ (forall (msg : str) (s s' : Sys F) (resp : str),
        any_in stop_commands (lower msg) = false ->
        process msg s = (Ok resp, s') ->
        (latest_edge_case (coach s') = Some DontKnow
         \/ latest_edge_case (coach s') = Some Silence ->
         difficulty (coach s') = Z.max 1 (difficulty (coach s) - 1))
        /\ (latest_edge_case (coach s') = Some Rude
            \/ latest_edge_case (coach s') = Some Troll ->
            difficulty (coach s') = difficulty (coach s)
            /\ correct_streak (coach s') = correct_streak (coach s))).
Proof.
  split; [|split].
  - intros e analysis s He. eexists. split; [apply adapt_override, He|].
    cbn. repeat split.
  - exact adapt_ignore.
  - intros msg s s' resp Hstop Hrun.
    destruct (process_turn msg s s' resp Hstop Hrun)
      as (analysis & edge & sa & sb & _ & _ & (Hd & Hs & _) & Had
          & (Hd' & Hs' & _) & Hedge).
    rewrite Hedge. split.
    + intros He.
      assert (Hov : exists e, edge = Some e /\ (e = DontKnow \/ e = Silence)).
      { destruct He as [-> | ->]; eexists; split; eauto. }
      destruct Hov as (e & -> & He').
      rewrite (adapt_override e analysis sa He') in Had.
      injection Had as <-. cbn in Hd'. rewrite Hd', Hd. reflexivity.
    + intros He.
      assert (Hig : exists e, edge = Some e /\ (e = Rude \/ e = Troll)).
      { destruct He as [-> | ->]; eexists; split; eauto. }
      destruct Hig as (e & -> & He').
      rewrite (adapt_ignore e analysis sa He') in Had.
      injection Had as <-. rewrite Hd', Hs', Hd, Hs. split; reflexivity.
Qed.

(** The streak of the coach, as the code has it. The streak is never
    negative. For every call of [process] that returns on a message without
    a stop command, with the mentor's analysis of the turn: a turn without
    an edge case whose verdict is not correct with a score of at least 80
    leaves the streak at 0; no turn increases the streak except by one, on a
    turn without an edge case whose verdict is correct with a score of at
    least 80 (after any other turn the streak is 0 or what it was); and a
    turn logged with an edge case, whichever it is, leaves the streak as it
    was, because [process] runs [_adjust_difficulty], the only writer of the
    streak, on the turns without an edge case only. *)
Theorem streak_counts_normal_turns :
  (forall s : Sys F, reachable s -> 0 <= correct_streak (coach s))
  /\ (forall (msg : str) (s s' : Sys F) (resp : str),
        any_in stop_commands (lower msg) = false ->
        process msg s = (Ok resp, s') ->
        exists analysis : value,
          (exists s0 s1 : Sys F,
             mentor_analyze msg (history (coach s0)) (difficulty (coach s0))
               (topics_covered (coach s0)) s0 = (Ok analysis, s1))
          /\ (latest_edge_case (coach s') = None ->
              correct_with_high_score analysis = false ->
              correct_streak (coach s') = 0)
          /\ (correct_streak (coach s') = 0
              \/ correct_streak (coach s') = correct_streak (coach s)
              \/ (latest_edge_case (coach s') = None
                  /\ correct_with_high_score analysis = true
                  /\ correct_streak (coach s') = correct_streak (coach s) + 1))
          /\ (latest_edge_case (coach s') <> None ->
              correct_streak (coach s') = correct_streak (coach s))).
Proof.
  split; [exact reachable_streak_ok|].
  intros msg s s' resp Hstop Hrun.
  destruct (process_turn msg s s' resp Hstop Hrun)
    as (analysis & edge & sa & sb & Hmentor & _ & (Hd & Hs & _) & Had
        & (Hd' & Hs' & _) & Hedge).
  exists analysis. split; [exact Hmentor|]. rewrite Hedge.
  destruct edge as [e|].
  - assert (Hsame : correct_streak (coach s') = correct_streak (coach s)).
    { destruct e.
      + rewrite (adapt_override Silence analysis sa (or_intror eq_refl)) in Had.
        injection Had as <-. cbn in Hs'. now rewrite Hs', Hs.
      + rewrite (adapt_override DontKnow analysis sa (or_introl eq_refl)) in Had.
        injection Had as <-. cbn in Hs'. now rewrite Hs', Hs.
      + rewrite (adapt_ignore Rude analysis sa (or_introl eq_refl)) in Had.
        injection Had as <-. now rewrite Hs', Hs.
      + rewrite (adapt_ignore Troll analysis sa (or_intror eq_refl)) in Had.
        injection Had as <-. now rewrite Hs', Hs. }
    split; [discriminate|]. split; [right; left; exact Hsame|].
    intros _. exact Hsame.
  - cbn [adapt] in Had. apply adjust_ok in Had. cbn zeta in Had.
    destruct Had as [Had _]. rewrite Hs'.
    destruct (correct_with_high_score analysis) eqn:Hgood.
    + split; [discriminate|]. split.
      * destruct (verdict_correct analysis && _) in Had.
        -- left. apply Had.
        -- right. right. split; [reflexivity|]. split; [reflexivity|].
           rewrite Hs in Had. apply Had.
      * intros H. now contradiction H.
    + split.
      * intros _ _.
        destruct (verdict_correct analysis && _) in Had; apply Had.
      * split.
        -- left. destruct (verdict_correct analysis && _) in Had; apply Had.
        -- intros H. now contradiction H.
Qed.

End EdgeCases.

(* ===================================================================== *)
(** * The edge-case classifier *)
(* ===================================================================== *)

Section Classifier.

Context {py : PyLib}.

Lemma detect_refines (user_msg : str) (analysis : value) :
  _detect_edge_case user_msg analysis = classify_in_order user_msg analysis.
Proof.
  unfold _detect_edge_case, classify_in_order, first_match, rule_silence,
    rule_dont_know, rule_rude, rule_troll, flag_set.
  cbv zeta.
  destruct ((str_len (strip (lower user_msg)) <? 3)
            || str_mem (strip (lower user_msg)) silence_tokens);
    [reflexivity|].
  destruct (any_in dont_know_phrases (strip (lower user_msg)));
    [reflexivity|].
  destruct (get analysis (u "is_dont_know")) as [dk|e]; [|reflexivity].
  destruct (truthy dk); [reflexivity|].
  destruct (any_in rude_phrases (strip (lower user_msg))).
  - reflexivity.
  - destruct (get analysis (u "is_rude")) as [rd|e]; [|reflexivity].
    destruct (truthy rd); [reflexivity|].
    destruct (str_mem (strip (lower user_msg)) troll_indicators
              || (str_len (strip (lower user_msg)) <? 10)
                 && contains (u "?") (strip (lower user_msg)));
      [|reflexivity].
    destruct (get_or analysis (u "correctness_score") (VInt 50))
      as [score|e]; [|reflexivity].
    destruct (lt_int score 10) as [[|]|e]; try reflexivity.
    destruct (get analysis (u "is_question_from_candidate")) as [q|e];
      [|reflexivity].
    destruct (truthy q); reflexivity.
Qed.

(** C6, as the code has it. The classifier is a function of the message
    and the analysis alone, and it is the first-match evaluation of the
    rules silence, dont_know, rude, troll in this order, so it gives at most
    one tag. The silence rule measures the message after [str.lower] and
    [str.strip], not the trimmed message itself: a message whose
    lower-cased, trimmed text is shorter than 3 characters or is a filler
    token is classified [silence] whatever the analysis is (be it not even
    a record), a message classified with another tag does not satisfy the
    silence rule, and a message classified [silence] satisfies it. *)
Theorem classifier_first_match_wins :
  (forall user_msg analysis,
     _detect_edge_case user_msg analysis
     = classify_in_order user_msg analysis)
  /\ (forall user_msg analysis,
        rule_silence (strip (lower user_msg)) = true ->
        _detect_edge_case user_msg analysis = Ok (Some Silence))
  /\ (forall user_msg analysis tag,
        _detect_edge_case user_msg analysis = Ok (Some tag) ->
        tag <> Silence ->
        rule_silence (strip (lower user_msg)) = false)
  /\ (forall user_msg analysis,
        _detect_edge_case user_msg analysis = Ok (Some Silence) ->
        rule_silence (strip (lower user_msg)) = true).
Proof.
  split; [exact detect_refines|].
  split; [|split]; intros user_msg analysis.
  - intros H. rewrite detect_refines. unfold classify_in_order. cbn.
    now rewrite H.
  - intros tag. rewrite detect_refines. unfold classify_in_order. cbn.
    destruct (rule_silence (strip (lower user_msg))); [|reflexivity].
    intros [= <-] Hne. now contradiction Hne.
  - rewrite detect_refines. unfold classify_in_order. cbn.
    destruct (rule_silence (strip (lower user_msg))); [reflexivity|].
    destruct (rule_dont_know _ analysis) as [[|]|]; try discriminate.
    destruct (rule_rude _ analysis) as [[|]|]; try discriminate.
    destruct (rule_troll _ analysis) as [[|]|]; discriminate.
Qed.

End Classifier.

(* ===================================================================== *)
(** * Traces *)
(* ===================================================================== *)

#[export] Instance emits_only_preorder {F} (allowed : event F -> Prop)
  : PreOrder (emits_only allowed).
Proof.
  split.
  - intros w. exists []. split; [now rewrite app_nil_r | constructor].
  - intros a b c (x & Hx & Fx) (y & Hy & Fy). exists (x ++ y). split.
    + now rewrite Hy, Hx, app_assoc.
    + apply Forall_app. split; assumption.
Qed.

Section Traces.

Context {py : PyLib} {F : Type} {fa : FloatArith F}.

Variable ops : list operation.

Local Notation "'quiet'" := (emits_only (@entering_only F ops)).

Lemma emit_keeps (e : event F) :
  entering_only ops e -> keeps quiet (emit e).
Proof.
  intros He w. exists [e]. split; [reflexivity|].
  constructor; [exact He | constructor].
Qed.

Lemma call_llm_keeps prompt (temperature : F) :
  keeps quiet (call_llm prompt temperature).
Proof.
  intros w. unfold call_llm.
  exists [LLMCall prompt temperature].
  destruct (tape w (served w)); (split; [reflexivity|]);
    (constructor; [exact I | constructor]).
Qed.

Lemma sleep_keeps seconds : keeps quiet (sleep (F:=F) seconds).
Proof. apply emit_keeps. exact I. Qed.

Lemma attempt_body_keeps prompt max_retries (temperature : F) attempt :
  keeps quiet (attempt_body prompt max_retries temperature attempt).
Proof.
  unfold attempt_body. apply keeps_try; [exact _ | |].
  - cbv zeta. apply keeps_bind; [exact _ | |].
    + destruct (0 <? attempt); apply call_llm_keeps.
    + intros resp. destruct (truthy (extract_json resp)).
      * apply keeps_ret. exact _.
      * apply keeps_bind; [exact _ | |].
        -- apply keeps_when; [exact _ | apply sleep_keeps].
        -- intros _. apply keeps_ret. exact _.
  - intros e. apply keeps_bind; [exact _ | |].
    + apply keeps_when; [exact _ | apply sleep_keeps].
    + intros _. apply keeps_ret. exact _.
Qed.

Lemma retry_keeps prompt max_retries (temperature : F) :
  keeps quiet (call_llm_with_json_retry prompt max_retries temperature).
Proof.
  unfold call_llm_with_json_retry.
  induction (range max_retries) as [|attempt rest IH]; cbn [for_attempts].
  - apply keeps_ret. exact _.
  - apply keeps_bind; [exact _ | apply attempt_body_keeps |].
    intros [v|]; [apply keeps_ret; exact _ | exact IH].
Qed.

End Traces.

(** Taking a computation on the world apart. *)
Ltac keeps_trace :=
  repeat first
    [ apply retry_keeps
    | apply call_llm_keeps
    | apply emit_keeps; cbn; tauto
    | lazymatch goal with
      | |- keeps (on_world _) (in_world _) => apply keeps_in_world_world
      | |- keeps (on_world _) (enter _) => apply keeps_in_world_world
      | |- keeps (on_world _) (update _) => apply keeps_update_world; exact _
      | |- keeps _ (bind _ _) => apply keeps_bind; [exact _ | | intros ?]
      | |- keeps _ (ret _) => apply keeps_ret; exact _
      | |- keeps _ (lift _) => apply keeps_lift; exact _
      | |- keeps _ (when _ _) => apply keeps_when; [exact _ |]
      | |- keeps _ self => apply keeps_self; exact _
      | |- keeps _ (if ?b then _ else _) => destruct b
      | |- keeps _ (match ?x with _ => _ end) => destruct x
      end ].

(* ===================================================================== *)
(** * Termination commands *)
(* ===================================================================== *)

#[export] Instance same_on_preorder {S A} (f : S -> A) : PreOrder (same_on f).
Proof.
  split.
  - intros s. reflexivity.
  - intros a b c Hab Hbc. unfold same_on in *. now rewrite Hbc.
Qed.

Section Termination.

Context {py : PyLib} {F : Type} {fa : FloatArith F} {tx : Texts}
        {cfg : Graph.Config F}.

Lemma gen_feedback_trace :
  keeps (on_world (emits_only (@entering_only F [FeedbackGenerate])))
        _gen_feedback.
Proof. unfold _gen_feedback, feedback_generate. keeps_trace. Qed.

Lemma enter_then {A} (allowed : event F -> Prop) (op : operation)
    (k : unit -> M (Sys F) A) :
  (forall x, keeps (on_world (emits_only allowed)) (k x)) ->
  forall s : Sys F,
  exists evs,
    trace (world (snd (bind (enter op) k s)))
    = trace (world s) ++ Enter op :: evs.
Proof.
  intros Hk s. unfold bind, enter, in_world, zoom, emit, modify.
  cbn [world coach].
  match goal with
  | |- context [k tt ?s1] => destruct (Hk tt s1) as (evs & Hevs & _)
  end.
  exists evs. rewrite Hevs. cbn [world trace]. now rewrite <- app_assoc.
Qed.

Lemma feedback_generate_enters hist ths cand dh qs (s : Sys F) :
  exists evs,
    trace (world (snd (feedback_generate hist ths cand dh qs s)))
    = trace (world s) ++ Enter FeedbackGenerate :: evs.
Proof.
  unfold feedback_generate.
  apply (enter_then (entering_only [FeedbackGenerate])).
  intros x. keeps_trace.
Qed.

Lemma gen_feedback_enters (s : Sys F) :
  exists evs,
    trace (world (snd (_gen_feedback s)))
    = trace (world s) ++ Enter FeedbackGenerate :: evs.
Proof.
  unfold _gen_feedback.
  unfold bind at 1. cbn [update modify].
  unfold bind at 1. cbn [self].
  unfold bind at 1.
  match goal with
  | |- context [feedback_generate ?a ?b ?c ?d ?e ?s0] =>
      destruct (feedback_generate_enters a b c d e s0) as (evs & Hevs);
      destruct (feedback_generate a b c d e s0) as [[v|e0] s1]
  end; cbn [snd world] in Hevs.
  - match goal with
    | |- context [bind ?c ?k s1] =>
        assert (Hk2 : keeps (on_world (emits_only
                                         (@entering_only F [FeedbackGenerate])))
                        (bind c k)) by keeps_trace;
        destruct (Hk2 s1) as (evs2 & Hevs2 & _)
    end.
    exists (evs ++ evs2). rewrite Hevs2, Hevs.
    now rewrite <- !app_assoc.
  - exists evs. exact Hevs.
Qed.

Lemma gen_feedback_finishes (s : Sys F) :
  finished (coach (snd (_gen_feedback s))) = true.
Proof.
  unfold _gen_feedback. unfold bind at 1. cbn [update modify].
  match goal with
  | |- finished (coach (snd (?comp ?s0))) = true =>
      assert (Hk : keeps (@on_coach F
                            (preserved (fun x : Coach => finished x = true)))
                     comp);
      [| apply (Hk s0); reflexivity ]
  end.
  unfold feedback_generate.
  keeps_coach ltac:(unfold preserved; unfold_setters; auto).
Qed.

Lemma gen_feedback_keeps_red_flags :
  keeps (@on_coach F (same_on red_flags)) _gen_feedback.
Proof.
  unfold _gen_feedback.
  keeps_coach ltac:(unfold same_on; unfold_setters; reflexivity).
Qed.

Lemma should_continue_stop (st : Graph.InterviewState) (m : str) :
  Graph.interview_finished st = false ->
  from_end 1 (Graph.user_messages (Graph.messages st)) = Some m ->
  any_in Graph.stop_commands (lower m) = true ->
  Graph.should_continue st = Graph.Feedback.
Proof.
  intros Hf Hm Hs. unfold Graph.should_continue. now rewrite Hf, Hm, Hs.
Qed.

Lemma user_messages_app ms ms' :
  Graph.user_messages (ms ++ ms')
  = Graph.user_messages ms ++ Graph.user_messages ms'.
Proof.
  induction ms as [|[t|t] ms IH]; cbn; [reflexivity | now rewrite IH | exact IH].
Qed.

Lemma interviewer_node_trace (st : Graph.InterviewState) :
  keeps (emits_only (@entering_only F [InterviewerRespond; FeedbackGenerate]))
        (Graph.interviewer_node st).
Proof. unfold Graph.interviewer_node, Graph.generate_question. keeps_trace. Qed.

Lemma feedback_node_trace (st : Graph.InterviewState) :
  keeps (emits_only (@entering_only F [InterviewerRespond; FeedbackGenerate]))
        (Graph.feedback_node st).
Proof. unfold Graph.feedback_node, Graph.generate. keeps_trace. Qed.

Lemma run_interviewer (limit : nat) (st : Graph.InterviewState) (w : World F) :
  Graph.run (S limit) Graph.Interviewer st w
  = match Graph.interviewer_node st w with
    | (Ok st1, w1) => Graph.run limit (Graph.should_continue st1) st1 w1
    | (Raise e, w1) => (Raise e, w1)
    end.
Proof.
  cbn [Graph.run Graph.step]. unfold bind.
  destruct (Graph.interviewer_node st w) as [[st1|e] w1]; reflexivity.
Qed.

Lemma run_feedback (limit : nat) (st : Graph.InterviewState) (w : World F) :
  Graph.run (S (S limit)) Graph.Feedback st w = Graph.feedback_node st w.
Proof.
  cbn [Graph.run Graph.step]. unfold bind.
  destruct (Graph.feedback_node st w) as [[st1|e] w1]; reflexivity.
Qed.

(** Under a limit that the feedback node exhausts the run raises after the
    node. *)
Lemma run_feedback_last (st : Graph.InterviewState) (w : World F) :
  snd (Graph.run 1 Graph.Feedback st w) = snd (Graph.feedback_node st w)
  /\ exists e, fst (Graph.run 1 Graph.Feedback st w) = Raise e.
Proof.
  cbn [Graph.run Graph.step]. unfold bind.
  destruct (Graph.feedback_node st w) as [[st1|e] w1]; cbn;
    (split; [reflexivity | eexists; reflexivity]).
Qed.

(** A run of the graph on a state whose last message of the candidate holds
    a stop command: the interviewer node, then the feedback node, then the
    end. *)
Lemma invoke_stop (limit : nat) (st : Graph.InterviewState) (w : World F)
    (m : str) :
  Graph.interview_finished st = false ->
  from_end 1 (Graph.user_messages (Graph.messages st)) = Some m ->
  any_in Graph.stop_commands (lower m) = true ->
  emits_only (entering_only [InterviewerRespond; FeedbackGenerate]) w
    (snd (Graph.invoke limit st w))
  /\ forall st' w',
       Graph.invoke limit st w = (Ok st', w') ->
       Graph.interview_finished st' = true
       /\ Graph.difficulty_level st' = Graph.difficulty_level st
       /\ Graph.correct_streak st' = Graph.correct_streak st
       /\ Graph.difficulty_history st' = Graph.difficulty_history st
       /\ Graph.red_flags st' = Graph.red_flags st.
Proof.
  intros Hf Hm Hs. unfold Graph.invoke.
  destruct limit as [|limit].
  { cbn. split; [reflexivity | intros st' w' H; discriminate H]. }
  rewrite run_interviewer.
  pose proof (interviewer_node_trace st w) as T1.
  destruct (Graph.interviewer_node st w) as [[st1|e1] w1] eqn:E1;
    cbn [snd] in T1; [|split; [exact T1 | intros st' w' H; discriminate H]].
  apply interviewer_node_ok in E1 as [response E1].
  assert (Hc : Graph.should_continue st1 = Graph.Feedback).
  { apply (should_continue_stop st1 m); subst st1; [exact Hf | | exact Hs].
    cbn [Graph.messages]. rewrite user_messages_app. cbn.
    now rewrite app_nil_r. }
  rewrite Hc.
  destruct limit as [|limit].
  { cbn. split; [exact T1 | intros st' w' H; discriminate H]. }
  pose proof (feedback_node_trace st1 w1) as T2.
  destruct limit as [|limit].
  { destruct (run_feedback_last st1 w1) as [Hw [e He]]. rewrite Hw.
    split; [etransitivity; eassumption|].
    intros st' w' H. rewrite H in He. discriminate He. }
  rewrite run_feedback.
  destruct (Graph.feedback_node st1 w1) as [[st2|e2] w2] eqn:E2;
    cbn [snd] in T2.
  - split; [etransitivity; eassumption|].
    intros st' w' [= <- <-].
    apply feedback_node_ok in E2 as (report & feedback & ->).
    subst st1. cbn. repeat split.
  - split; [etransitivity; eassumption | intros st' w' H; discriminate H].
Qed.

(** The feedback node enters the feedback generator at once, and enters
    nothing else. *)
Lemma feedback_node_enters (st : Graph.InterviewState) (w : World F) :
  exists evs,
    trace (snd (Graph.feedback_node st w))
    = trace w ++ Enter FeedbackGenerate :: evs
    /\ entered evs = [].
Proof.
  unfold Graph.feedback_node, Graph.generate, bind, emit, modify, lift, ret,
    call_llm.
  cbn [tape served trace].
  destruct (Graph.feedback_request st) as [request|e]; cbn.
  - destruct (tape w (served w)) as [|text]; cbn.
    + eexists. rewrite <- app_assoc. split; reflexivity.
    + destruct (Graph.render_report st _); cbn;
        (eexists; rewrite <- app_assoc; split; reflexivity).
  - exists []. split; reflexivity.
Qed.

Lemma entered_app (tr tr' : list (event F)) :
  entered (tr ++ tr') = entered tr ++ entered tr'.
Proof. unfold entered. apply flat_map_app. Qed.

(** Every keyword that stops the coach stops the graph; the graph has one
    keyword more. *)
Lemma stop_commands_included (m : str) :
  any_in stop_commands m = true -> any_in Graph.stop_commands m = true.
Proof.
  unfold any_in, stop_commands, Graph.stop_commands. cbn [existsb].
  rewrite !Bool.orb_true_iff. tauto.
Qed.

(** A run of the graph on a stop command, once the request of the
    interviewer is answered: the feedback node on the state with the answer
    appended. *)
Lemma invoke_stop_feedback (limit : nat) (st st1 : Graph.InterviewState)
    (w w1 : World F) (m : str) :
  Graph.interview_finished st = false ->
  from_end 1 (Graph.user_messages (Graph.messages st)) = Some m ->
  any_in Graph.stop_commands (lower m) = true ->
  Graph.interviewer_node st w = (Ok st1, w1) ->
  Graph.invoke (S (S (S limit))) st w = Graph.feedback_node st1 w1
  /\ snd (Graph.invoke (S (S limit)) st w) = snd (Graph.feedback_node st1 w1)
  /\ (exists evs,
        trace (snd (Graph.invoke (S (S limit)) st w))
        = trace w1 ++ Enter FeedbackGenerate :: evs)
  /\ entered (trace (snd (Graph.invoke (S (S limit)) st w)))
     = entered (trace w) ++ [InterviewerRespond; FeedbackGenerate].
Proof.
  intros Hf Hm Hs E1.
  assert (Hc : Graph.should_continue st1 = Graph.Feedback).
  { apply interviewer_node_ok in E1 as [response ->].
    apply (should_continue_stop _ m); [exact Hf | | exact Hs].
    cbn [Graph.messages]. rewrite user_messages_app. cbn.
    now rewrite app_nil_r. }
  assert (H3 : Graph.invoke (S (S (S limit))) st w
               = Graph.feedback_node st1 w1).
  { unfold Graph.invoke. now rewrite run_interviewer, E1, Hc, run_feedback. }
  assert (H2 : snd (Graph.invoke (S (S limit)) st w)
               = snd (Graph.feedback_node st1 w1)).
  { unfold Graph.invoke. rewrite run_interviewer, E1, Hc.
    destruct limit as [|limit];
      [exact (proj1 (run_feedback_last st1 w1)) | now rewrite run_feedback]. }
  split; [exact H3|]. split; [exact H2|]. rewrite H2.
  destruct (feedback_node_enters st1 w1) as (evs & Hevs & Hnone).
  split; [exists evs; exact Hevs|].
  rewrite Hevs.
  apply interviewer_node_inv in E1 as (text & request & _ & _ & ->).
  cbn [trace]. rewrite !entered_app. cbn [entered flat_map app].
  fold (entered evs). rewrite Hnone, <- app_assoc. reflexivity.
Qed.

(** C7. A message with a stop command goes directly to the compilation of
    the feedback, for every state of the session (the first turn
    included). In the coach, [process] does its two bookkeeping writes and
    is then [_gen_feedback]: the feedback generator is entered, no other
    operation is (no mentor analysis, no classifier, no difficulty adapter,
    no fact check, no interviewer), the difficulty state and the red flags
    are as before, and the session is finished. Every keyword that stops
    the coach ([стоп], [stop], [фидбэк], [feedback]) stops the graph, which
    has the keyword [завершить] besides. In the graph, for a session that
    is not finished, [should_continue] answers [feedback]; a run of the
    graph enters the interviewer and the feedback generator only, leaves
    the difficulty state and the red flags as they are, and ends with the
    session finished; and once the request of the interviewer is answered
    the run is the feedback node on the state with the answer appended:
    under a recursion limit of at least 2 the feedback generator is entered
    right after the events of the interviewer and the operations entered
    are the interviewer and the feedback generator, in this order, and
    under a limit of at least 3 the run returns what the feedback node
    returns. *)
Theorem stop_command_goes_to_feedback :
  (forall (msg : str) (s : Sys F),
     any_in stop_commands (lower msg) = true ->
     process msg s
     = _gen_feedback
         (mkSys (world s)
            (set_history (history (coach s) ++ [mkMessage User msg])
               (set_turn_num (turn_num (coach s) + 1) (coach s))))
     /\ emits_only (entering_only [FeedbackGenerate]) (world s)
          (world (snd (process msg s)))
     /\ (exists evs,
           trace (world (snd (process msg s)))
           = trace (world s) ++ Enter FeedbackGenerate :: evs)
     /\ same_difficulty_state (coach s) (coach (snd (process msg s)))
     /\ red_flags (coach (snd (process msg s))) = red_flags (coach s)
     /\ finished (coach (snd (process msg s))) = true)
  /\ (forall (st : Graph.InterviewState) (m : str),
        Graph.interview_finished st = false ->
        from_end 1 (Graph.user_messages (Graph.messages st)) = Some m ->
        any_in Graph.stop_commands (lower m) = true ->
        Graph.should_continue st = Graph.Feedback
        /\ forall (limit : nat) (w : World F),
             emits_only (entering_only [InterviewerRespond; FeedbackGenerate])
               w (snd (Graph.invoke limit st w))
             /\ forall st' w',
                  Graph.invoke limit st w = (Ok st', w') ->
                  Graph.interview_finished st' = true
                  /\ Graph.difficulty_level st' = Graph.difficulty_level st
                  /\ Graph.correct_streak st' = Graph.correct_streak st
                  /\ Graph.difficulty_history st' = Graph.difficulty_history st
                  /\ Graph.red_flags st' = Graph.red_flags st)
  /\ (forall m : str,
        any_in stop_commands m = true -> any_in Graph.stop_commands m = true)
  /\ (forall (st st1 : Graph.InterviewState) (w w1 : World F) (m : str)
             (limit : nat),
        Graph.interview_finished st = false ->
        from_end 1 (Graph.user_messages (Graph.messages st)) = Some m ->
        any_in Graph.stop_commands (lower m) = true ->
        Graph.interviewer_node st w = (Ok st1, w1) ->
        Graph.invoke (S (S (S limit))) st w = Graph.feedback_node st1 w1
        /\ snd (Graph.invoke (S (S limit)) st w)
           = snd (Graph.feedback_node st1 w1)
        /\ (exists evs,
              trace (snd (Graph.invoke (S (S limit)) st w))
              = trace w1 ++ Enter FeedbackGenerate :: evs)
        /\ entered (trace (snd (Graph.invoke (S (S limit)) st w)))
           = entered (trace w) ++ [InterviewerRespond; FeedbackGenerate]).
Proof.
  split; [|split; [|split]].
  - intros msg s Hstop.
    set (s0 := mkSys (world s) _).
    assert (Heq : process msg s = _gen_feedback s0).
    { unfold process. unfold bind at 1. cbn [update modify].
      unfold bind at 1. cbn [update modify]. now rewrite Hstop. }
    rewrite Heq.
    split; [reflexivity|].
    split; [exact (gen_feedback_trace s0)|].
    split; [exact (gen_feedback_enters s0)|].
    split; [|split].
    + change (same_difficulty_state (coach s0) (coach (snd (_gen_feedback s0)))).
      exact (gen_feedback_keeps_difficulty_state s0).
    + change (red_flags (coach (snd (_gen_feedback s0))) = red_flags (coach s0)).
      exact (gen_feedback_keeps_red_flags s0).
    + apply gen_feedback_finishes.
  - intros st m Hf Hm Hs. split.
    + exact (should_continue_stop st m Hf Hm Hs).
    + intros limit w. exact (invoke_stop limit st w m Hf Hm Hs).
  - exact stop_commands_included.
  - intros st st1 w w1 m limit Hf Hm Hs E1.
    exact (invoke_stop_feedback limit st st1 w w1 m Hf Hm Hs E1).
Qed.

End Termination.

(* ===================================================================== *)
(** * The bounds of the difficulty level *)
(* ===================================================================== *)

Section Bounds.

Context {py : PyLib} {F : Type} {fa : FloatArith F} {tx : Texts}
        {cfg : Graph.Config F}.

(** C1. The difficulty level is an integer between 1 and 10 in every state
    of a session: in the coach after [start], whatever the grade, and after
    every call of [process], whatever the message and the oracle's answers
    and whether the call returns or raises; in the graph controller in the
    initial state, be the level derived from the grade or supplied (a
    supplied level [l] becomes [max(1, min(10, l))]), and after every node
    that returns. *)
Theorem difficulty_level_in_range :
  (forall s : Sys F, reachable s -> 1 <= difficulty (coach s) <= 10)
  /\ (forall (name position grade exp : str) (s : Sys F),
        1 <= difficulty (coach (snd (start name position grade exp s))) <= 10)
  /\ (forall st : Graph.InterviewState,
        graph_reachable st -> 1 <= Graph.difficulty_level st <= 10)
  /\ (forall candidate_name name position pos grade experience exp mode
             (l : Z) (st : Graph.InterviewState),
        Graph.create_initial_state candidate_name name position pos grade
          experience exp mode (Some l) = Some st ->
        Graph.difficulty_level st = Z.max 1 (Z.min 10 l)).
Proof.
  split; [exact reachable_level_ok|].
  split; [exact start_sets_level|].
  split; [exact graph_reachable_level|].
  intros cn name position pos grade experience exp mode l st.
  unfold Graph.create_initial_state.
  destruct (or_str cn name) as [[|? ?]|]; try discriminate.
  destruct (or_str position pos) as [[|? ?]|]; try discriminate.
  destruct (or_str experience exp) as [?|]; try discriminate.
  destruct grade as [[|? ?]|]; try discriminate.
  now intros [= <-].
Qed.

End Bounds.

(* ===================================================================== *)
(** * The difficulty history *)
(* ===================================================================== *)

Section History.

Context {py : PyLib} {F : Type} {fa : FloatArith F} {tx : Texts}
        {cfg : Graph.Config F}.

#[local] Instance history_grows_preorder : PreOrder history_grows.
Proof.
  split.
  - intros c. unfold history_grows. reflexivity.
  - intros a b c Hab Hbc. unfold history_grows in *.
    etransitivity; eassumption.
Qed.

Ltac grows_upd :=
  unfold history_grows; split_ifs; unfold_setters;
  first [ reflexivity | eexists; reflexivity ].

(** The history of the coach is only ever appended to. *)
Lemma process_appends_only msg :
  keeps (@on_coach F history_grows) (process msg).
Proof.
  unfold process, _gen_feedback, escalate, adapt, _adjust_difficulty.
  keeps_coach grows_upd.
Qed.

Lemma start_appends_only name position grade exp :
  keeps (@on_coach F history_grows) (start name position grade exp).
Proof. unfold start. keeps_coach grows_upd. Qed.

(** In the graph, a node that returns leaves the history as it is or
    appends the new level to it, and it appends exactly when the level
    changes. *)
Lemma graph_appends_on_change n st w n' st' w' :
  graph_reachable st ->
  Graph.step n st w = (Ok (n', st'), w') ->
  Graph.difficulty_history st'
  = (if Graph.difficulty_level st' =? Graph.difficulty_level st
     then Graph.difficulty_history st
     else Graph.difficulty_history st ++ [Graph.difficulty_level st']).
Proof.
  intros Hreach Hstep.
  assert (Hne : Graph.difficulty_history st <> []).
  { clear Hstep. induction Hreach
      as [cn name position pos grade experience exp mode initial st H
         | k k' st0 st1 w0 w1 _ IH Hstep
         | st ms k ts _ IH].
    - apply initial_state_facts in H as (_ & _ & -> & _). discriminate.
    - apply step_difficulty in Hstep
        as [(_ & _ & ->) | (analysis & level & streak & hist & Had & _ & _ & ->)];
        [exact IH|].
      assert (He : entry_history st0 <> []).
      { unfold entry_history. destruct (Graph.difficulty_history st0);
          discriminate. }
      destruct (str_eqb (entry_mode st0) (u "adaptive")).
      + apply adaptive_facts in Had as (_ & _ & _ & ->).
        destruct (level =? entry_level st0); [exact He|].
        intros H. now apply app_eq_nil in H as [_ H].
      + now injection Had as _ _ <-.
    - exact IH. }
  pose proof (graph_reachable_level st Hreach) as Hr.
  apply step_difficulty in Hstep
    as [(-> & _ & ->) | (analysis & level & streak & hist & Had & -> & _ & ->)].
  - now rewrite Z.eqb_refl.
  - assert (He : entry_history st = Graph.difficulty_history st).
    { unfold entry_history. now destruct (Graph.difficulty_history st). }
    rewrite (entry_level_id st Hr), He in Had.
    destruct (str_eqb (entry_mode st) (u "adaptive")).
    + now apply adaptive_facts in Had as (_ & _ & _ & ->).
    + injection Had as <- _ <-. now rewrite Z.eqb_refl.
Qed.

End History.

(* ===================================================================== *)
(** * The escalation gates and the adaptive block of the graph *)
(* ===================================================================== *)

Section Gates.

Context {py : PyLib} {F : Type} {fa : FloatArith F} {tx : Texts}
        {cfg : Graph.Config F}.


(** The gate of the graph: a message with the phrase fires it for every
    analysis that can be read at all. *)
Lemma graph_gate_fires_on_phrase (analysis : value) (msg : str) (fire : bool) :
  contains (u "python 4") (lower msg) = true ->
  Graph.should_fact_check analysis msg = Ok fire ->
  fire = true.
Proof.
  intros Hphrase. unfold Graph.should_fact_check.
  destruct (get analysis (u "red_flags")) as [flags|]; [|discriminate].
  destruct (get analysis (u "confidence_level")) as [conf|]; [|discriminate].
  destruct (get analysis (u "correctness_score")) as [score|]; [|discriminate].
  destruct (get analysis (u "is_correct")) as [ic|]; [|discriminate].
  destruct (get analysis (u "is_hallucination")) as [h|]; [|discriminate].
  destruct (iterate _) as [mentor_flags|]; [|discriminate].
  rewrite Hphrase, !orb_true_r. now intros [= <-].
Qed.

(** The adaptive block of the graph raises the level on an [increase]
    recommendation whatever the verdict is. *)
Lemma graph_raises_on_recommendation (analysis score verdict rec : value)
    (level streak : Z) (hist : list Z) :
  get analysis (u "correctness_score") = Ok score ->
  get analysis (u "is_correct") = Ok verdict ->
  get analysis (u "difficulty_recommendation") = Ok rec ->
  Graph.lower_or_maintain rec = Ok (u "increase") ->
  Graph.adaptive analysis level streak hist
  = Ok (Z.min 10 (level + 1), 0,
        if Z.min 10 (level + 1) =? level then hist
        else hist ++ [Z.min 10 (level + 1)]).
Proof.
  intros Hs Hv Hr Hl. unfold Graph.adaptive. now rewrite Hs, Hv, Hr, Hl.
Qed.

(** The fact checker of the coach on answers that yield nothing: the record
    it returns says that the statement is false. *)
Lemma fact_checker_check_unparseable (stmt prompt : str) (s : Sys F) :
  fact_check_prompt stmt = Ok prompt ->
  (forall i, (i < 3)%nat -> yields (world s) i = None) ->
  fst (fact_checker_check stmt s) = Ok default_fact_check.
Proof.
  intros Hp Hnone. unfold fact_checker_check.
  unfold bind at 1. unfold enter, in_world, zoom, emit, modify.
  cbn [world coach].
  unfold bind at 1. rewrite Hp. cbn [lift].
  unfold bind at 1. unfold in_world, zoom. cbn [world coach].
  set (w1 := mkWorld _ _ _).
  destruct (retry_none prompt 3 (f_lit (3 # 10)) w1) as (evs & ->).
  - intros i Hi. exact (Hnone i Hi).
  - reflexivity.
Qed.

(** The fact check of the graph on an answer that does not parse: no red
    flag and no thought. *)
Lemma graph_fact_check_unparseable (msg request text : str) (w : World F) :
  Graph.fact_check_request msg = Ok request ->
  tape w (served w) = Replies text ->
  json_loads text = None ->
  fst (Graph.fact_check_flags msg w) = Ok ([], []).
Proof.
  intros Hr Ht Hj. unfold Graph.fact_check_flags, Graph.check.
  unfold bind, emit, modify, lift, call_llm. cbn [tape served trace].
  rewrite Hr, Ht, Hj. reflexivity.
Qed.

End Gates.

(* ===================================================================== *)
(** * The graph controller: routing, and what a run of the graph does *)
(* ===================================================================== *)

Section GraphRuns.

Context {py : PyLib} {F : Type} {fa : FloatArith F} {cfg : Graph.Config F}.

Lemma should_continue_cases (st : Graph.InterviewState) :
  Graph.should_continue st
  = if Graph.interview_finished st then Graph.END
    else if asks_to_stop st then Graph.Feedback
    else if Graph.MAX_TURNS <=? Graph.current_turn st then Graph.Feedback
    else Graph.Mentor.
Proof. reflexivity. Qed.

Lemma last_user_message_replied (text : str) (st : Graph.InterviewState) :
  last_user_message (replied text st) = last_user_message st.
Proof.
  unfold last_user_message, replied. cbn [Graph.messages].
  rewrite user_messages_app. cbn. now rewrite app_nil_r.
Qed.

Lemma asks_to_stop_replied (text : str) (st : Graph.InterviewState) :
  asks_to_stop (replied text st) = asks_to_stop st.
Proof. unfold asks_to_stop. now rewrite last_user_message_replied. Qed.

(** [mentor_node] when it returns on a state with a message of the
    candidate: every field of the state it returns. *)
Lemma mentor_node_inv st w st' w' msg :
  last_user_message st = Some msg ->
  Graph.mentor_node st w = (Ok st', w') ->
  exists analysis w1 fire flags fc_thoughts topic topic_detected level streak
         hist th skills gaps,
    Graph.analyze st msg w = (Ok analysis, w1)
    /\ Graph.should_fact_check analysis msg = Ok fire
    /\ (if fire then Graph.fact_check_flags msg else ret ([], [])) w1
       = (Ok (flags, fc_thoughts), w')
    /\ get analysis (u "topic_detected") = Ok topic
    /\ Graph.strip_or_empty topic = Ok topic_detected
    /\ (if str_eqb (entry_mode st) (u "adaptive")
        then Graph.adaptive analysis (entry_level st)
               (Graph.correct_streak st) (entry_history st)
        else Ok (entry_level st, Graph.correct_streak st, entry_history st))
       = Ok (level, streak, hist)
    /\ Graph.mentor_thought analysis flags = Ok th
    /\ Graph.record_skills analysis (Graph.confirmed_skills st)
         (Graph.knowledge_gaps st) = Ok (skills, gaps)
    /\ st' = Graph.mkState (Graph.messages st) (Graph.candidate st)
               (Graph.turns st) (Graph.thoughts st ++ fc_thoughts ++ [th])
               (Graph.current_turn st)
               (if negb (str_len topic_detected =? 0)
                   && negb (str_mem topic_detected (Graph.topics_covered st))
                then Graph.topics_covered st ++ [topic_detected]
                else Graph.topics_covered st)
               skills gaps (Graph.red_flags st ++ flags) level streak
               (entry_mode st) hist (Graph.interview_finished st)
               (Graph.final_feedback st).
Proof.
  unfold last_user_message, Graph.mentor_node. intros ->. intros H.
  apply bind_ok in H as (analysis & w1 & Ha & H).
  apply bind_ok in H as (fire & w2 & Hf & H).
  apply lift_ok in Hf as [Hf ->].
  apply bind_ok in H as ([flags fc_thoughts] & w3 & Hc & H).
  apply bind_ok in H as (topic & w4 & Ht & H).
  apply lift_ok in Ht as [Ht ->].
  apply bind_ok in H as (topic_detected & w5 & Hs & H).
  apply lift_ok in Hs as [Hs ->].
  apply bind_ok in H as ([[level streak] hist] & w6 & Had & H).
  apply bind_ok in H as (th & w7 & Hth & H).
  apply lift_ok in Hth as [Hth ->].
  apply bind_ok in H as ([skills gaps] & w8 & Hr & H).
  apply lift_ok in Hr as [Hr ->].
  apply ret_ok in H as [<- ->].
  assert (Had' : (if str_eqb (entry_mode st) (u "adaptive")
                  then Graph.adaptive analysis (entry_level st)
                         (Graph.correct_streak st) (entry_history st)
                  else Ok (entry_level st, Graph.correct_streak st,
                           entry_history st))
                 = Ok (level, streak, hist) /\ w6 = w3).
  { unfold entry_mode, entry_level, entry_history.
    destruct (str_eqb _ (u "adaptive")).
    - apply lift_ok in Had as [Had ->]. split; [exact Had | reflexivity].
    - apply ret_ok in Had as [Had ->].
      split; [exact (f_equal Ok Had) | reflexivity]. }
  destruct Had' as [Had' ->].
  exists analysis, w1, fire, flags, fc_thoughts, topic, topic_detected, level,
    streak, hist, th, skills, gaps.
  repeat (split; [assumption|]). reflexivity.
Qed.

(** What [mentor_node] leaves as it is: the dialogue, the turn counter, the
    candidate, the turn log and the end of the session. *)
Lemma mentor_node_frame st w st' w' :
  Graph.mentor_node st w = (Ok st', w') ->
  Graph.messages st' = Graph.messages st
  /\ Graph.current_turn st' = Graph.current_turn st
  /\ Graph.interview_finished st' = Graph.interview_finished st
  /\ Graph.candidate st' = Graph.candidate st
  /\ Graph.turns st' = Graph.turns st
  /\ Graph.final_feedback st' = Graph.final_feedback st.
Proof.
  intros H. destruct (last_user_message st) as [msg|] eqn:Hm.
  - destruct (mentor_node_inv st w st' w' msg Hm H)
      as (? & ? & ? & ? & ? & ? & ? & ? & ? & ? & ? & ? & ? & _ & _ & _ & _ & _
          & _ & _ & _ & ->).
    repeat split.
  - unfold Graph.mentor_node in H. unfold last_user_message in Hm.
    rewrite Hm in H. apply ret_ok in H as [<- _]. repeat split.
Qed.

Lemma run_mentor (limit : nat) (st : Graph.InterviewState) (w : World F) :
  Graph.run (S limit) Graph.Mentor st w
  = match Graph.mentor_node st w with
    | (Ok st1, w1) => Graph.run limit (Graph.should_interview st1) st1 w1
    | (Raise e, w1) => (Raise e, w1)
    end.
Proof.
  cbn [Graph.run Graph.step]. unfold bind.
  destruct (Graph.mentor_node st w) as [[st1|e] w1]; reflexivity.
Qed.

Lemma goes_on_routes (st : Graph.InterviewState) :
  goes_on st ->
  Graph.should_continue st = Graph.Mentor
  /\ Graph.should_interview st = Graph.Interviewer.
Proof.
  intros (Hf & Hs & Ht). rewrite should_continue_cases.
  unfold Graph.should_interview. rewrite Hf, Hs.
  destruct (Z.leb_spec Graph.MAX_TURNS (Graph.current_turn st)); [lia|].
  split; reflexivity.
Qed.

Lemma goes_on_replied (text : str) (st : Graph.InterviewState) :
  goes_on st -> goes_on (replied text st).
Proof.
  intros (Hf & Hs & Ht). unfold goes_on.
  rewrite asks_to_stop_replied. repeat split; assumption.
Qed.

Lemma goes_on_mentor st w st' w' :
  Graph.mentor_node st w = (Ok st', w') -> goes_on st -> goes_on st'.
Proof.
  intros H (Hf & Hs & Ht).
  apply mentor_node_frame in H as (Hm & Hc & Hfin & _).
  unfold goes_on, asks_to_stop, last_user_message in *.
  rewrite Hm, Hc, Hfin. repeat split; assumption.
Qed.

(** On a session that goes on, the graph alternates between the interviewer
    and the mentor and never reaches its end. *)
Lemma run_cycles (limit : nat) :
  forall (st : Graph.InterviewState) (w : World F),
    goes_on st ->
    (exists e, fst (Graph.run limit Graph.Interviewer st w) = Raise e)
    /\ (exists e, fst (Graph.run limit Graph.Mentor st w) = Raise e).
Proof.
  induction limit as [|limit IH]; intros st w Hgo.
  - split; exists RecursionLimit; reflexivity.
  - split.
    + rewrite run_interviewer.
      destruct (Graph.interviewer_node st w) as [[st1|e] w1] eqn:E;
        [|exists e; reflexivity].
      apply interviewer_node_inv in E as (text & request & -> & _).
      apply (goes_on_replied text) in Hgo.
      rewrite (proj1 (goes_on_routes _ Hgo)).
      apply (IH _ w1 Hgo).
    + rewrite run_mentor.
      destruct (Graph.mentor_node st w) as [[st1|e] w1] eqn:E;
        [|exists e; reflexivity].
      apply (goes_on_mentor _ _ _ _ E) in Hgo.
      rewrite (proj2 (goes_on_routes _ Hgo)).
      apply (IH _ w1 Hgo).
Qed.

(** X1. A run of the graph on an ordinary answer never comes back to its
    caller. When the session is not finished, the last message of the
    candidate holds no stop command and the turn counter is below
    [MAX_TURNS], [should_continue] routes to the mentor and
    [should_interview] routes back to the interviewer, for ever: whatever
    the recursion limit of the runtime and whatever the oracle answers,
    [graph.invoke] ends in an exception (that of a node, or the recursion
    limit). *)
Theorem graph_run_never_returns_on_answer (st : Graph.InterviewState) :
  Graph.interview_finished st = false ->
  asks_to_stop st = false ->
  Graph.current_turn st < Graph.MAX_TURNS ->
  Graph.should_continue st = Graph.Mentor
  /\ Graph.should_interview st = Graph.Interviewer
  /\ forall (limit : nat) (w : World F),
       exists e, fst (Graph.invoke limit st w) = Raise e.
Proof.
  intros Hf Hs Ht.
  assert (Hgo : goes_on st) by (repeat split; assumption).
  split; [apply goes_on_routes, Hgo|].
  split; [apply goes_on_routes, Hgo|].
  intros limit w. exact (proj1 (run_cycles limit st w Hgo)).
Qed.

(** X2. A run of the graph on a session that is already finished does not
    stop at once: the entry point is the interviewer, so the run makes one
    request to the oracle before it ends. Under a recursion limit of at
    least 2 the run is the interviewer node: when it returns, the answer is
    appended to the messages and nothing else in the state has changed, and
    neither the mentor nor the feedback generator is entered. Under a
    recursion limit of 1 the interviewer node runs all the same, and the
    run then raises. *)
Theorem finished_session_gets_one_more_reply
    (st : Graph.InterviewState) (limit : nat) (w : World F) :
  Graph.interview_finished st = true ->
  Graph.invoke (S (S limit)) st w = Graph.interviewer_node st w
  /\ (forall st' w',
        Graph.invoke (S (S limit)) st w = (Ok st', w') ->
        exists text request,
          st' = replied text st
          /\ tape w (served w) = Replies text
          /\ w' = mkWorld (tape w) (S (served w))
                    (trace w ++ [Enter InterviewerRespond;
                                 LLMCall request Graph.LLM_TEMPERATURE]))
  /\ snd (Graph.invoke 1 st w) = snd (Graph.interviewer_node st w)
  /\ exists e, fst (Graph.invoke 1 st w) = Raise e.
Proof.
  intros Hf.
  assert (Hend : forall st1 w1,
            Graph.interviewer_node st w = (Ok st1, w1) ->
            Graph.should_continue st1 = Graph.END).
  { intros st1 w1 E.
    apply interviewer_node_inv in E as (text & request & -> & _).
    rewrite should_continue_cases. cbn [replied Graph.interview_finished].
    now rewrite Hf. }
  assert (Heq : Graph.invoke (S (S limit)) st w
                = Graph.interviewer_node st w).
  { unfold Graph.invoke. rewrite run_interviewer.
    destruct (Graph.interviewer_node st w) as [[st1|e] w1] eqn:E;
      [|reflexivity].
    now rewrite (Hend st1 w1 eq_refl). }
  split; [exact Heq|]. split.
  - intros st' w' H. rewrite Heq in H. now apply interviewer_node_inv in H.
  - unfold Graph.invoke. rewrite run_interviewer.
    destruct (Graph.interviewer_node st w) as [[st1|e] w1] eqn:E; cbn.
    + split; [reflexivity | eexists; reflexivity].
    + split; [reflexivity | eexists; reflexivity].
Qed.

(** A run of the graph on a state that the interviewer's answer leaves
    routed to the feedback: the interviewer node, then the feedback node,
    then the end. *)
Lemma invoke_feedback (limit : nat) (st : Graph.InterviewState) (w : World F) :
  (forall text, Graph.should_continue (replied text st) = Graph.Feedback) ->
  emits_only (entering_only [InterviewerRespond; FeedbackGenerate]) w
    (snd (Graph.invoke limit st w))
  /\ forall st' w',
       Graph.invoke limit st w = (Ok st', w') ->
       Graph.interview_finished st' = true
       /\ Graph.difficulty_level st' = Graph.difficulty_level st
       /\ Graph.correct_streak st' = Graph.correct_streak st
       /\ Graph.difficulty_history st' = Graph.difficulty_history st
       /\ Graph.red_flags st' = Graph.red_flags st
       /\ Graph.thoughts st' = Graph.thoughts st
       /\ exists question report,
            Graph.messages st'
            = Graph.messages st ++ [Graph.AIMessage question;
                                    Graph.AIMessage report].
Proof.
  intros Hroute. unfold Graph.invoke.
  destruct limit as [|limit].
  { cbn. split; [reflexivity | intros st' w' H; discriminate H]. }
  rewrite run_interviewer.
  pose proof (interviewer_node_trace st w) as T1.
  destruct (Graph.interviewer_node st w) as [[st1|e1] w1] eqn:E1;
    cbn [snd] in T1; [|split; [exact T1 | intros st' w' H; discriminate H]].
  apply interviewer_node_inv in E1 as (question & request & -> & _).
  rewrite Hroute.
  destruct limit as [|limit].
  { cbn. split; [exact T1 | intros st' w' H; discriminate H]. }
  pose proof (feedback_node_trace (replied question st) w1) as T2.
  destruct limit as [|limit].
  { destruct (run_feedback_last (replied question st) w1) as [Hw [e He]].
    rewrite Hw. split; [etransitivity; eassumption|].
    intros st' w' H. rewrite H in He. discriminate He. }
  rewrite run_feedback.
  destruct (Graph.feedback_node (replied question st) w1)
    as [[st2|e2] w2] eqn:E2; cbn [snd] in T2.
  - split; [etransitivity; eassumption|].
    intros st' w' [= <- <-].
    apply feedback_node_ok in E2 as (report & feedback & ->).
    cbn. repeat split. exists question, report. now rewrite <- app_assoc.
  - split; [etransitivity; eassumption | intros st' w' H; discriminate H].
Qed.

(** X3. The turn limit ends the session without an analysis of the last
    answer. When the session is not finished and the turn counter has
    reached [MAX_TURNS], [should_continue] routes to the feedback whatever
    the candidate said: a run of the graph enters the interviewer and the
    feedback generator only (never the mentor or the fact checker), and
    when it returns the session is finished, two messages of the
    interviewer (its answer and the report) have been appended, and the
    difficulty state, the red flags and the thoughts are as before. *)
Theorem turn_limit_goes_to_feedback (st : Graph.InterviewState) :
  Graph.interview_finished st = false ->
  Graph.MAX_TURNS <= Graph.current_turn st ->
  Graph.should_continue st = Graph.Feedback
  /\ forall (limit : nat) (w : World F),
       emits_only (entering_only [InterviewerRespond; FeedbackGenerate]) w
         (snd (Graph.invoke limit st w))
       /\ forall st' w',
            Graph.invoke limit st w = (Ok st', w') ->
            Graph.interview_finished st' = true
            /\ Graph.difficulty_level st' = Graph.difficulty_level st
            /\ Graph.correct_streak st' = Graph.correct_streak st
            /\ Graph.difficulty_history st' = Graph.difficulty_history st
            /\ Graph.red_flags st' = Graph.red_flags st
            /\ Graph.thoughts st' = Graph.thoughts st
            /\ exists question report,
                 Graph.messages st'
                 = Graph.messages st ++ [Graph.AIMessage question;
                                         Graph.AIMessage report].
Proof.
  intros Hf Ht.
  assert (Hroute : forall st0,
             Graph.interview_finished st0 = false ->
             Graph.MAX_TURNS <= Graph.current_turn st0 ->
             Graph.should_continue st0 = Graph.Feedback).
  { intros st0 Hf0 Ht0. rewrite should_continue_cases, Hf0.
    destruct (asks_to_stop st0); [reflexivity|].
    destruct (Z.leb_spec Graph.MAX_TURNS (Graph.current_turn st0));
      [reflexivity | lia]. }
  split; [exact (Hroute st Hf Ht)|].
  intros limit w. apply invoke_feedback.
  intros text. apply Hroute; assumption.
Qed.

End GraphRuns.

(* ===================================================================== *)
(** * The graph controller: what the mentor node records *)
(* ===================================================================== *)

Lemma str_mem_In (s : str) (l : list str) : str_mem s l = true <-> In s l.
Proof.
  unfold str_mem. rewrite existsb_exists. split.
  - intros (x & Hin & Heq). apply str_eqb_eq in Heq. now subst x.
  - intros Hin. exists s. split; [exact Hin | apply str_eqb_refl].
Qed.

Section GraphMentor.

Context {py : PyLib} {F : Type} {fa : FloatArith F} {cfg : Graph.Config F}.

Lemma mentor_thought_agents analysis flags th :
  Graph.mentor_thought analysis flags = Ok th ->
  from_agent th = u "Mentor_Agent" /\ to_agent th = u "Interviewer_Agent".
Proof.
  unfold Graph.mentor_thought.
  destruct (get_or analysis (u "recommendation") _); [|discriminate].
  destruct (get analysis (u "suggested_action")); [|discriminate].
  destruct (get_or analysis (u "analysis") _); [|discriminate].
  destruct (get_or analysis (u "confidence_level") _); [|discriminate].
  intros [= <-]. split; reflexivity.
Qed.

(** The fact check of [mentor_node] when it returns: the fact checker was
    asked once, and a flag and a thought are made exactly when the value
    under [is_true] is [False] itself. *)
Lemma fact_check_flags_inv msg (w : World F) flags fc_thoughts w' :
  Graph.fact_check_flags msg w = (Ok (flags, fc_thoughts), w') ->
  exists fact_result verdict,
    Graph.check msg w = (Ok fact_result, w')
    /\ get fact_result (u "is_true") = Ok verdict
    /\ ((is_False verdict = true
         /\ exists flag th,
              graph_flag fact_result = Ok flag
              /\ flags = [flag] /\ fc_thoughts = [th]
              /\ from_agent th = u "FactChecker_Agent"
              /\ to_agent th = u "Interviewer_Agent")
        \/ (is_False verdict = false /\ flags = [] /\ fc_thoughts = [])).
Proof.
  unfold Graph.fact_check_flags. intros H.
  apply bind_ok in H as (fact_result & w1 & Hc & H).
  apply bind_ok in H as (verdict & w2 & Hv & H).
  apply lift_ok in Hv as [Hv ->].
  exists fact_result, verdict.
  destruct (is_False verdict) eqn:Hfalse.
  - apply bind_ok in H as (explanation & w3 & He & H).
    apply lift_ok in He as [He ->].
    apply bind_ok in H as (correct_info & w4 & Hi & H).
    apply lift_ok in Hi as [Hi ->].
    apply ret_ok in H as [[= <- <-] <-].
    split; [exact Hc|]. split; [exact Hv|]. left. split; [reflexivity|].
    eexists. eexists. unfold graph_flag. rewrite He, Hi.
    repeat split; reflexivity.
  - apply ret_ok in H as [[= <- <-] <-].
    split; [exact Hc|]. split; [exact Hv|]. right. repeat split.
Qed.

(** X4. In the graph controller the interviewer is handed the thought of
    the mentor, never the alert of the fact checker. When [mentor_node]
    returns on a message of the candidate it has appended at most one
    thought of the fact checker and, after it, the thought of the mentor,
    addressed to the interviewer; so the interviewer node that runs next
    passes the content of the mentor's thought to [generate_question] as
    the recommendation. *)
Theorem interviewer_hears_the_mentor st (w : World F) st' w' msg :
  last_user_message st = Some msg ->
  Graph.mentor_node st w = (Ok st', w') ->
  exists th fc_thoughts,
    Graph.thoughts st' = Graph.thoughts st ++ fc_thoughts ++ [th]
    /\ from_agent th = u "Mentor_Agent"
    /\ to_agent th = u "Interviewer_Agent"
    /\ (List.length fc_thoughts <= 1)%nat
    /\ Forall (fun t => from_agent t = u "FactChecker_Agent") fc_thoughts
    /\ forall w1 : World F,
         Graph.interviewer_node st' w1
         = bind (Graph.generate_question st' (Some (content th)))
                (fun response => ret (replied response st')) w1.
Proof.
  intros Hm H.
  destruct (mentor_node_inv st w st' w' msg Hm H)
    as (analysis & w1 & fire & flags & fcs & topic & td & level & streak
        & hist & th & skills & gaps & _ & _ & Hc & _ & _ & _ & Hth & _ & ->).
  exists th, fcs. cbn [Graph.thoughts].
  apply mentor_thought_agents in Hth as [Hfrom Hto].
  split; [reflexivity|]. split; [exact Hfrom|]. split; [exact Hto|].
  assert (Hfc : (List.length fcs <= 1)%nat
                /\ Forall (fun t => from_agent t = u "FactChecker_Agent") fcs).
  { destruct fire.
    - apply fact_check_flags_inv in Hc
        as (fr & v & _ & _ & [(_ & flag & t & _ & _ & -> & Ht & _)
                             | (_ & _ & ->)]).
      + split; [cbn; lia | constructor; [exact Ht | constructor]].
      + split; [cbn; lia | constructor].
    - apply ret_ok in Hc as [[= _ <-] _]. split; [cbn; lia | constructor]. }
  split; [apply Hfc|]. split; [apply Hfc|].
  intros w0. unfold Graph.interviewer_node. cbn [Graph.thoughts].
  rewrite app_assoc, from_end_last, Hto, str_eqb_refl. reflexivity.
Qed.

(** X5. In the graph controller a red flag is appended exactly when the
    gate fires and the fact checker reports the statement false. When
    [mentor_node] returns on a message of the candidate: if the gate did not
    fire, the fact checker was not asked and the red flags are as before;
    if it fired, the fact checker was asked once, and one red flag (worded
    from its explanation and correct information) is appended when the
    value under [is_true] is [False] itself, and none when it is anything
    else ([True], [None], missing). *)
Theorem graph_flags_false_verdicts_only st (w : World F) st' w' msg :
  last_user_message st = Some msg ->
  Graph.mentor_node st w = (Ok st', w') ->
  exists analysis w1 fire,
    Graph.analyze st msg w = (Ok analysis, w1)
    /\ Graph.should_fact_check analysis msg = Ok fire
    /\ ((fire = false /\ w' = w1
         /\ Graph.red_flags st' = Graph.red_flags st)
        \/ (fire = true
            /\ exists fact_result verdict,
                 Graph.check msg w1 = (Ok fact_result, w')
                 /\ get fact_result (u "is_true") = Ok verdict
                 /\ ((is_False verdict = true
                      /\ exists flag,
                           graph_flag fact_result = Ok flag
                           /\ Graph.red_flags st'
                              = Graph.red_flags st ++ [flag])
                     \/ (is_False verdict = false
                         /\ Graph.red_flags st' = Graph.red_flags st)))).
Proof.
  intros Hm H.
  destruct (mentor_node_inv st w st' w' msg Hm H)
    as (analysis & w1 & fire & flags & fcs & topic & td & level & streak
        & hist & th & skills & gaps & Ha & Hf & Hc & _ & _ & _ & _ & _ & ->).
  exists analysis, w1, fire. split; [exact Ha|]. split; [exact Hf|].
  cbn [Graph.red_flags]. destruct fire.
  - right. split; [reflexivity|].
    apply fact_check_flags_inv in Hc
      as (fr & v & Hck & Hv & [(Hfalse & flag & t & Hflag & -> & _)
                              | (Hfalse & -> & _)]).
    + exists fr, v. split; [exact Hck|]. split; [exact Hv|]. left.
      split; [exact Hfalse|]. exists flag. split; [exact Hflag | reflexivity].
    + exists fr, v. split; [exact Hck|]. split; [exact Hv|]. right.
      split; [exact Hfalse | apply app_nil_r].
  - left. apply ret_ok in Hc as [[= <- _] <-].
    repeat split. apply app_nil_r.
Qed.

(** What a node that returns does to the topics: nothing, or one new topic
    at the end, which is not empty and was not yet among them. *)
Lemma step_topics n st (w : World F) n' st' w' :
  Graph.step n st w = (Ok (n', st'), w') ->
  Graph.topics_covered st' = Graph.topics_covered st
  \/ exists t,
       t <> [] /\ ~ In t (Graph.topics_covered st)
       /\ Graph.topics_covered st' = Graph.topics_covered st ++ [t].
Proof.
  destruct n; cbn [Graph.step]; intros H.
  - apply bind_ok in H as (st1 & w1 & Hn & H).
    apply ret_ok in H as [[= _ <-] _].
    apply interviewer_node_inv in Hn as (text & request & -> & _). now left.
  - apply bind_ok in H as (st1 & w1 & Hn & H).
    apply ret_ok in H as [[= _ <-] _].
    destruct (last_user_message st) as [msg|] eqn:Hm.
    + destruct (mentor_node_inv st w st1 w1 msg Hm Hn)
        as (analysis & w2 & fire & flags & fcs & topic & td & level & streak
            & hist & th & skills & gaps & _ & _ & _ & _ & _ & _ & _ & _ & ->).
      cbn [Graph.topics_covered].
      destruct (str_len td =? 0) eqn:Hlen; cbn [negb andb]; [now left|].
      destruct (str_mem td (Graph.topics_covered st)) eqn:Hmem;
        cbn [negb]; [now left|].
      right. exists td. split; [|split; [|reflexivity]].
      * intros ->. discriminate Hlen.
      * intros Hin. apply str_mem_In in Hin. congruence.
    + unfold Graph.mentor_node in Hn. unfold last_user_message in Hm.
      rewrite Hm in Hn. apply ret_ok in Hn as [<- _]. now left.
  - apply bind_ok in H as (st1 & w1 & Hn & H).
    apply ret_ok in H as [[= _ <-] _].
    apply feedback_node_ok in Hn as (report & feedback & ->). now left.
  - apply ret_ok in H as [[= _ <-] _]. now left.
Qed.

(** X6. The topics that the graph controller records are distinct and none
    is empty, in every state of a session: [mentor_node] appends the
    detected topic, trimmed, only when it is not empty and not yet in the
    list, and nothing else writes the list. *)
Theorem graph_topics_are_distinct (st : Graph.InterviewState) :
  graph_reachable st ->
  NoDup (Graph.topics_covered st)
  /\ Forall (fun t => t <> []) (Graph.topics_covered st).
Proof.
  induction 1 as [cn name position pos grade experience exp mode initial st H
                 | n n' st st' w w' _ IH Hstep
                 | st ms k ts _ IH].
  - unfold Graph.create_initial_state in H.
    destruct (or_str cn name) as [[|? ?]|]; try discriminate.
    destruct (or_str position pos) as [[|? ?]|]; try discriminate.
    destruct (or_str experience exp) as [?|]; try discriminate.
    destruct grade as [[|? ?]|]; try discriminate.
    injection H as <-. cbn. split; constructor.
  - destruct IH as [Hnd Hne].
    apply step_topics in Hstep as [-> | (t & Ht & Hnew & ->)];
      [split; assumption|].
    split.
    + apply NoDup_app; [exact Hnd | constructor; [intros [] | constructor] |].
      intros x Hx [<- | []]. exact (Hnew Hx).
    + apply Forall_app. split; [exact Hne | constructor; [exact Ht | constructor]].
  - exact IH.
Qed.

Lemma graph_reachable_history (st : Graph.InterviewState) :
  graph_reachable st -> Graph.difficulty_history st <> [].
Proof.
  induction 1 as [cn name position pos grade experience exp mode initial st H
                 | k k' st0 st1 w0 w1 _ IH Hstep
                 | st ms k ts _ IH].
  - apply initial_state_facts in H as (_ & _ & -> & _). discriminate.
  - apply step_difficulty in Hstep
      as [(_ & _ & ->) | (analysis & level & streak & hist & Had & _ & _ & ->)];
      [exact IH|].
    assert (He : entry_history st0 <> []).
    { unfold entry_history. destruct (Graph.difficulty_history st0);
        discriminate. }
    destruct (str_eqb (entry_mode st0) (u "adaptive")).
    + apply adaptive_facts in Had as (_ & _ & _ & ->).
      destruct (level =? entry_level st0); [exact He|].
      intros H. now apply app_eq_nil in H as [_ H].
    + now injection Had as _ _ <-.
  - exact IH.
Qed.

Lemma entry_history_id (st : Graph.InterviewState) :
  Graph.difficulty_history st <> [] ->
  entry_history st = Graph.difficulty_history st.
Proof. unfold entry_history. now destruct (Graph.difficulty_history st). Qed.

(** X7. In a mode other than [adaptive] the difficulty is frozen. For
    every state of a session whose mode, lower-cased, is not [adaptive],
    a node of the graph that returns leaves the level, the streak and the
    difficulty history as they are, whatever the mentor's analysis says. *)
Theorem fixed_mode_freezes_difficulty n st (w : World F) n' st' w' :
  graph_reachable st ->
  str_eqb (entry_mode st) (u "adaptive") = false ->
  Graph.step n st w = (Ok (n', st'), w') ->
  Graph.difficulty_level st' = Graph.difficulty_level st
  /\ Graph.correct_streak st' = Graph.correct_streak st
  /\ Graph.difficulty_history st' = Graph.difficulty_history st.
Proof.
  intros Hreach Hmode Hstep.
  apply step_difficulty in Hstep
    as [Hsame | (analysis & level & streak & hist & Had & -> & -> & ->)];
    [exact Hsame|].
  rewrite Hmode in Had. injection Had as <- <- <-.
  split; [|split]; [| reflexivity |].
  - apply entry_level_id, graph_reachable_level, Hreach.
  - apply entry_history_id, graph_reachable_history, Hreach.
Qed.

End GraphMentor.

(* ===================================================================== *)
(** * The graph controller: answers of the mentor that do not parse *)
(* ===================================================================== *)

Section Forward.

Context {S : Type}.

(** Running a bind forwards. *)
Lemma bind_run {A B} (c : M S A) (k : A -> M S B) (s s1 : S) (a : A) :
  c s = (Ok a, s1) -> bind c k s = k a s1.
Proof. intros H. unfold bind. now rewrite H. Qed.

Lemma bind_raise {A B} (c : M S A) (k : A -> M S B) (s s1 : S) (e : exn) :
  c s = (Raise e, s1) -> bind c k s = (Raise e, s1).
Proof. intros H. unfold bind. now rewrite H. Qed.

Lemma bind_lift {A B} (r : res A) (k : A -> M S B) (s : S) (a : A) :
  r = Ok a -> bind (lift r) k s = k a s.
Proof. intros ->. reflexivity. Qed.

End Forward.

Section GraphProse.

Context {py : PyLib} {F : Type} {fa : FloatArith F} {cfg : Graph.Config F}.

Lemma should_fact_check_failed (msg : str) :
  Graph.should_fact_check Graph.failed_analysis msg
  = Ok (contains (u "python 4") (lower msg)).
Proof.
  unfold Graph.should_fact_check.
  change (get Graph.failed_analysis (u "red_flags")) with (Ok (VList [])).
  change (get Graph.failed_analysis (u "confidence_level"))
    with (Ok (VStr (u "unknown"))).
  change (get Graph.failed_analysis (u "correctness_score")) with (Ok VNone).
  change (get Graph.failed_analysis (u "is_correct")) with (Ok VNone).
  change (get Graph.failed_analysis (u "is_hallucination")) with (Ok VNone).
  cbn [truthy iterate Graph.has_hallucination_hint existsb as_number is_False
       orb].
  now rewrite andb_false_r.
Qed.

Lemma adaptive_failed (level streak : Z) (hist : list Z) :
  lower (u "maintain") = u "maintain" ->
  Graph.adaptive Graph.failed_analysis level streak hist
  = Ok (level, 0, hist).
Proof.
  intros Hl. unfold Graph.adaptive.
  change (get Graph.failed_analysis (u "correctness_score")) with (Ok VNone).
  change (get Graph.failed_analysis (u "is_correct")) with (Ok VNone).
  change (get Graph.failed_analysis (u "difficulty_recommendation"))
    with (Ok VNone).
  cbn [Graph.lower_or_maintain truthy]. rewrite Hl.
  cbn. now rewrite Z.eqb_refl.
Qed.

Lemma analyze_prose (st : Graph.InterviewState) (msg request text : str)
    (w : World F) :
  Graph.mentor_request st msg = Ok request ->
  tape w (served w) = Replies text ->
  json_loads text = None ->
  Graph.analyze st msg w
  = (Ok Graph.failed_analysis,
     mkWorld (tape w) (S (served w))
       (trace w ++ [Enter MentorAnalyze; LLMCall request (f_lit (3 # 10))])).
Proof.
  intros Hr Ht Hj. unfold Graph.analyze, bind, emit, modify, lift, call_llm.
  cbn [tape served trace]. rewrite Hr, Ht, Hj.
  now rewrite <- app_assoc.
Qed.

(** X8. In the graph controller an answer of the mentor that is not JSON
    costs the turn its analysis and nothing else. When the text that the
    oracle returns to the mentor's request does not parse,
    [MentorAgent.analyze] puts its fallback record in place, and
    [mentor_node] returns after that one request: the fact checker is not
    asked (unless the message speaks of "python 4"), no red flag, topic,
    skill or gap is recorded, the level and the difficulty history are as
    before, and the streak is reset in the adaptive mode and kept
    otherwise. *)
Theorem graph_mentor_survives_prose (st : Graph.InterviewState)
    (msg request text : str) (w : World F) :
  graph_reachable st ->
  last_user_message st = Some msg ->
  Graph.mentor_request st msg = Ok request ->
  tape w (served w) = Replies text ->
  json_loads text = None ->
  contains (u "python 4") (lower msg) = false ->
  lower (u "maintain") = u "maintain" ->
  exists st',
    Graph.mentor_node st w
    = (Ok st',
       mkWorld (tape w) (S (served w))
         (trace w ++ [Enter MentorAnalyze; LLMCall request (f_lit (3 # 10))]))
    /\ Graph.difficulty_level st' = Graph.difficulty_level st
    /\ Graph.difficulty_history st' = Graph.difficulty_history st
    /\ Graph.correct_streak st'
       = (if str_eqb (entry_mode st) (u "adaptive") then 0
          else Graph.correct_streak st)
    /\ Graph.red_flags st' = Graph.red_flags st
    /\ Graph.topics_covered st' = Graph.topics_covered st
    /\ Graph.confirmed_skills st' = Graph.confirmed_skills st
    /\ Graph.knowledge_gaps st' = Graph.knowledge_gaps st
    /\ List.length (Graph.thoughts st') = S (List.length (Graph.thoughts st)).
Proof.
  intros Hreach Hm Hr Ht Hj Hphrase Hl.
  pose proof (entry_level_id st (graph_reachable_level st Hreach)) as Hlev.
  pose proof (entry_history_id st (graph_reachable_history st Hreach)) as Hhist.
  unfold last_user_message in Hm.
  unfold Graph.mentor_node. rewrite Hm.
  rewrite (bind_run _ _ _ _ _ (analyze_prose st msg request text w Hr Ht Hj)).
  rewrite (bind_lift _ _ _ _ (should_fact_check_failed msg)).
  rewrite Hphrase.
  unfold bind at 1. cbn [ret].
  change (get Graph.failed_analysis (u "topic_detected")) with (Ok VNone).
  unfold bind at 1. cbn [lift].
  unfold bind at 1. cbn [lift Graph.strip_or_empty truthy].
  fold (entry_mode st). fold (entry_level st). fold (entry_history st).
  rewrite Hlev, Hhist.
  destruct (str_eqb (entry_mode st) (u "adaptive")) eqn:Hmode.
  - rewrite (bind_lift _ _ _ _ (adaptive_failed _ _ _ Hl)).
    eexists. split; [reflexivity|]. cbn.
    repeat split; try apply app_nil_r.
    rewrite length_app. cbn. lia.
  - unfold bind at 1. cbn [ret].
    eexists. split; [reflexivity|]. cbn.
    repeat split; try apply app_nil_r.
    rewrite length_app. cbn. lia.
Qed.

End GraphProse.

(* ===================================================================== *)
(** * The initial state of the graph controller *)
(* ===================================================================== *)

Section InitialState.

Context {py : PyLib}.

(** X9. [create_initial_state] raises its [ValueError] exactly when the
    name or the position resolves to nothing or to the empty string, when
    the experience resolves to [None], or when the grade is missing or
    empty; each of name, position and experience is the first of its two
    spellings that is not empty, else the second as it is. So an empty
    experience is accepted when it comes (also) under [exp], and rejected
    when it comes under [experience] alone. When the state is made, the
    candidate holds the resolved values, the mode is stored as given, and
    everything else is empty, zero or false. *)
Theorem create_initial_state_errors
    (candidate_name name position pos grade experience exp : option str)
    (mode : str) (initial : option Z) :
  (Graph.create_initial_state candidate_name name position pos grade
     experience exp mode initial = None
   <-> (Graph.nonempty (or_str candidate_name name) = false
        \/ Graph.nonempty (or_str position pos) = false
        \/ or_str experience exp = None
        \/ Graph.nonempty grade = false))
  /\ (forall st,
        Graph.create_initial_state candidate_name name position pos grade
          experience exp mode initial = Some st ->
        or_str candidate_name name = Some (cand_name (Graph.candidate st))
        /\ or_str position pos = Some (cand_position (Graph.candidate st))
        /\ or_str experience exp = Some (cand_experience (Graph.candidate st))
        /\ grade = Some (cand_grade (Graph.candidate st))
        /\ Graph.difficulty_mode st = mode
        /\ Graph.messages st = [] /\ Graph.turns st = []
        /\ Graph.thoughts st = [] /\ Graph.current_turn st = 0
        /\ Graph.topics_covered st = [] /\ Graph.confirmed_skills st = []
        /\ Graph.knowledge_gaps st = []
        /\ Graph.final_feedback st = empty_record)
  /\ Graph.create_initial_state candidate_name name position pos grade
       (Some []) None mode initial = None
  /\ (Graph.nonempty (or_str candidate_name name) = true ->
      Graph.nonempty (or_str position pos) = true ->
      Graph.nonempty grade = true ->
      Graph.create_initial_state candidate_name name position pos grade
        None (Some []) mode initial <> None).
Proof.
  unfold Graph.create_initial_state, Graph.nonempty.
  split; [|split; [|split]].
  - destruct (or_str candidate_name name) as [[|? ?]|];
      destruct (or_str position pos) as [[|? ?]|];
      destruct (or_str experience exp) as [?|];
      destruct grade as [[|? ?]|];
      (split; [intros H; try discriminate H; tauto
              | intros [H | [H | [H | H]]]; try discriminate H; reflexivity]).
  - intros st.
    destruct (or_str candidate_name name) as [[|? ?]|]; try discriminate.
    destruct (or_str position pos) as [[|? ?]|]; try discriminate.
    destruct (or_str experience exp) as [?|]; try discriminate.
    destruct grade as [[|? ?]|]; try discriminate.
    intros [= <-]. cbn. repeat split.
  - cbn [or_str].
    destruct (or_str candidate_name name) as [[|? ?]|]; try reflexivity.
    destruct (or_str position pos) as [[|? ?]|]; reflexivity.
  - cbn [or_str].
    destruct (or_str candidate_name name) as [[|? ?]|]; try discriminate.
    destruct (or_str position pos) as [[|? ?]|]; try discriminate.
    destruct grade as [[|? ?]|]; discriminate.
Qed.

End InitialState.

(* ===================================================================== *)
(** * The coach: the levels it records *)
(* ===================================================================== *)

Lemma maximum_in_range (l : list Z) :
  l <> [] -> Forall in_range l -> in_range (maximum l).
Proof.
  destruct l as [|x l]; [congruence|]. intros _ H.
  apply Forall_cons_iff in H as [Hx Hl]. cbn [maximum].
  revert x Hx. induction l as [|y l IH]; intros x Hx; cbn; [exact Hx|].
  apply Forall_cons_iff in Hl as [Hy Hl]. apply IH; [exact Hl|].
  unfold in_range in *. lia.
Qed.

Ltac levels_upd :=
  unfold preserved, levels_ok; intros [? ?]; split_ifs; unfold_setters;
  (split;
   [ lia
   | first [ assumption
           | apply Forall_app; split;
             [ assumption | constructor; [unfold in_range; lia | constructor] ] ] ]).

Section Levels.

Context {py : PyLib} {F : Type} {fa : FloatArith F} {tx : Texts}
        {cfg : Graph.Config F}.

Lemma process_keeps_levels msg :
  keeps (@on_coach F (preserved levels_ok)) (process msg).
Proof.
  unfold process, _gen_feedback, escalate, adapt, _adjust_difficulty.
  keeps_coach levels_upd.
Qed.

Lemma start_sets_levels name position grade exp (s : Sys F) :
  Forall in_range (difficulty_history (coach s)) ->
  levels_ok (coach (snd (start name position grade exp s))).
Proof.
  intros Hh. unfold start. unfold bind at 1. cbn [update modify].
  unfold bind at 1. cbn [update modify].
  match goal with
  | |- levels_ok (coach (snd (?c ?s0))) =>
      assert (H0 : levels_ok (coach s0));
      [| assert (Hk : keeps (@on_coach F (preserved levels_ok)) c);
         [| exact (Hk s0 H0)] ]
  end.
  - unfold levels_ok, start_difficulty. cbn. split; [split_ifs; lia | exact Hh].
  - keeps_coach levels_upd.
Qed.

Lemma reachable_levels_ok (s : Sys F) : reachable s -> levels_ok (coach s).
Proof.
  induction 1 as [w | s name position grade exp _ IH | s msg _ IH].
  - unfold levels_ok. cbn. split; [lia | constructor].
  - apply start_sets_levels, IH.
  - exact (process_keeps_levels msg s IH).
Qed.

Lemma graph_reachable_levels (st : Graph.InterviewState) :
  graph_reachable st -> Forall in_range (Graph.difficulty_history st).
Proof.
  induction 1 as [cn name position pos grade experience exp mode initial st H
                 | n n' st st' w w' _ IH Hstep
                 | st ms k ts _ IH].
  - apply initial_state_facts in H as (Hr & _ & -> & _).
    constructor; [exact Hr | constructor].
  - assert (He : Forall in_range (entry_history st)).
    { unfold entry_history. destruct (Graph.difficulty_history st);
        [constructor; [apply entry_level_in_range | constructor] | exact IH]. }
    apply step_difficulty in Hstep
      as [(_ & _ & ->) | (analysis & level & streak & hist & Had & _ & _ & ->)];
      [exact IH|].
    destruct (str_eqb (entry_mode st) (u "adaptive")).
    + apply adaptive_facts in Had as (Hr & _ & _ & ->).
      destruct (level =? entry_level st); [exact He|].
      apply Forall_app. split; [exact He|].
      constructor; [apply Hr, entry_level_in_range | constructor].
    + now injection Had as _ _ <-.
  - exact IH.
Qed.

(** X10. Every level that a controller records in the difficulty history
    is between 1 and 10: in the coach in every state of a session, whether
    the calls of [process] returned or raised, and in the graph controller
    in every state of a session. So the maximum level that the feedback
    reports for a session of the coach that has started is a level in
    range. *)
Theorem recorded_levels_in_range :
  (forall s : Sys F,
     reachable s -> Forall in_range (difficulty_history (coach s)))
  /\ (forall st : Graph.InterviewState,
        graph_reachable st -> Forall in_range (Graph.difficulty_history st))
  /\ (forall s : Sys F,
        reachable s -> difficulty_history (coach s) <> [] ->
        in_range (maximum (difficulty_history (coach s)))).
Proof.
  split; [|split].
  - intros s H. apply reachable_levels_ok, H.
  - exact graph_reachable_levels.
  - intros s H Hne. apply maximum_in_range; [exact Hne|].
    apply reachable_levels_ok, H.
Qed.

End Levels.

(* ===================================================================== *)
(** * The coach: what a single call changes at most once *)
(* ===================================================================== *)

Section Once.

Context {S : Type} (R T : S -> S -> Prop).

Hypothesis silent : forall x y, R x y -> T x y.
Hypothesis before : forall x y z, R x y -> T y z -> T x z.
Hypothesis after : forall x y z, T x y -> R y z -> T x z.

(** A change [T] that happens once, among steps [R] that leave things as
    they are. *)
Lemma keeps_weaken {A} (c : M S A) : keeps R c -> keeps T c.
Proof. intros H s. apply silent, H. Qed.

Lemma keeps_bind_before {A B} (c : M S A) (k : A -> M S B) :
  keeps R c -> (forall a, keeps T (k a)) -> keeps T (bind c k).
Proof.
  intros Hc Hk s. unfold bind. specialize (Hc s).
  destruct (c s) as [[a|e] s1]; cbn in *.
  - eapply before; [exact Hc | apply Hk].
  - apply silent, Hc.
Qed.

Lemma keeps_bind_after {A B} (c : M S A) (k : A -> M S B) :
  keeps T c -> (forall a, keeps R (k a)) -> keeps T (bind c k).
Proof.
  intros Hc Hk s. unfold bind. specialize (Hc s).
  destruct (c s) as [[a|e] s1]; cbn in *.
  - eapply after; [exact Hc | apply Hk].
  - exact Hc.
Qed.

End Once.

Ltac same_upd :=
  unfold same_on, same_log, same_dialogue; split_ifs; unfold_setters;
  repeat split; reflexivity.

Section OneLevel.

Context {py : PyLib} {F : Type} {fa : FloatArith F} {tx : Texts}.

Local Notation "'still'" := (@on_coach F (same_on difficulty)).
Local Notation "'moved'" := (@on_coach F one_level).

Lemma still_moved (x y : Sys F) : still x y -> moved x y.
Proof.
  unfold on_coach, same_on, one_level. intros -> _.
  rewrite Z.sub_diag. cbn. lia.
Qed.

Lemma still_then_moved (x y z : Sys F) : still x y -> moved y z -> moved x z.
Proof. unfold on_coach, same_on, one_level. intros <-. auto. Qed.

Lemma moved_then_still (x y z : Sys F) : moved x y -> still y z -> moved x z.
Proof. unfold on_coach, same_on, one_level. intros H ->. exact H. Qed.

Ltac one_update :=
  apply keeps_update; intros ?; unfold one_level, in_range; unfold_setters; lia.

Lemma adjust_moves_one_level analysis :
  keeps moved (_adjust_difficulty analysis).
Proof.
  unfold _adjust_difficulty.
  do 7 (apply (keeps_bind_before still moved still_moved still_then_moved);
        [keeps_coach same_upd | intros ?]).
  apply (keeps_bind_after still moved moved_then_still);
    [|intros ?; keeps_coach same_upd].
  match goal with |- keeps _ (if ?b then _ else _) => destruct b end.
  - one_update.
  - apply (keeps_bind_before still moved still_moved still_then_moved);
      [keeps_coach same_upd | intros lower_it].
    destruct lower_it; cbn [when].
    + one_update.
    + apply (keeps_weaken still moved still_moved). keeps_coach same_upd.
Qed.

Lemma adapt_moves_one_level edge analysis :
  keeps moved (adapt edge analysis).
Proof.
  unfold adapt. destruct edge as [[| | |]|].
  - apply (keeps_bind_after still moved moved_then_still);
      [one_update | intros ?; keeps_coach same_upd].
  - apply (keeps_bind_after still moved moved_then_still);
      [one_update | intros ?; keeps_coach same_upd].
  - apply (keeps_weaken still moved still_moved). keeps_coach same_upd.
  - apply (keeps_weaken still moved still_moved). keeps_coach same_upd.
  - apply adjust_moves_one_level.
Qed.

Lemma escalate_keeps_level msg analysis :
  keeps still (escalate msg analysis).
Proof. unfold escalate. keeps_coach same_upd. Qed.

Lemma process_moves_one_level msg : keeps moved (process msg).
Proof.
  unfold process.
  do 2 (apply (keeps_bind_before still moved still_moved still_then_moved);
        [keeps_coach same_upd | intros ?]).
  match goal with |- keeps _ (if ?b then _ else _) => destruct b end.
  { apply (keeps_weaken still moved still_moved).
    unfold _gen_feedback. keeps_coach same_upd. }
  do 8 (apply (keeps_bind_before still moved still_moved still_then_moved);
        [keeps_coach same_upd | intros ?]).
  apply (keeps_bind_after still moved moved_then_still);
    [apply adapt_moves_one_level|].
  intros ?. unfold escalate. keeps_coach same_upd.
Qed.

(** X11. One call of [process] moves the level by at most one. For every
    state whose level is in range (every state of a session), whatever the
    message and the oracle's answers, and whether the call returns or
    raises, the level after the call differs from the level before it by at
    most one: the raise on a recommendation and the raise on a streak do not
    add up, and an exception never leaves the level further away. *)
Theorem process_moves_level_by_at_most_one (msg : str) (s : Sys F) :
  reachable s ->
  Z.abs (difficulty (coach (snd (process msg s))) - difficulty (coach s)) <= 1.
Proof.
  intros Hreach. apply (process_moves_one_level msg s).
  exact (reachable_level_ok s Hreach).
Qed.

End OneLevel.

(* ===================================================================== *)
(** * The coach: the turn log *)
(* ===================================================================== *)

#[export] Instance same_log_preorder : PreOrder same_log.
Proof.
  split.
  - intros c. split; reflexivity.
  - intros a b c [H1 H2] [H3 H4]. unfold same_log. now rewrite H3, H4.
Qed.

#[export] Instance same_dialogue_preorder : PreOrder same_dialogue.
Proof.
  split.
  - intros c. repeat split.
  - intros a b c (H1 & H2 & H3 & H4 & H5 & H6) (G1 & G2 & G3 & G4 & G5 & G6).
    unfold same_dialogue. now rewrite G1, G2, G3, G4, G5, G6.
Qed.

Lemma increasing_snoc (l : list Z) (x : Z) :
  increasing l -> Forall (fun y => y < x) l -> increasing (l ++ [x]).
Proof.
  induction l as [|y l IH]; cbn; intros H Hx.
  - split; [constructor | exact I].
  - destruct H as [Hy Hl]. apply Forall_cons_iff in Hx as [Hyx Hlx]. split.
    + apply Forall_app. split; [exact Hy | constructor; [exact Hyx | constructor]].
    + apply IH; assumption.
Qed.

Lemma from_end_3 {A} (l : list A) (a b : A) :
  from_end 3 (l ++ [a; b]) = from_end 1 l.
Proof. unfold from_end. rewrite rev_app_distr. reflexivity. Qed.

Section TurnLog.

Context {py : PyLib} {F : Type} {fa : FloatArith F} {tx : Texts}.

Local Notation "'quiet'" := (@on_coach F same_log).
Local Notation "'logged'" := (@on_coach F logs_at_most_one).

Lemma quiet_logged (x y : Sys F) : quiet x y -> logged x y.
Proof.
  unfold on_coach, same_log, logs_at_most_one. intros [H1 H2].
  split; [exact H1 | left; exact H2].
Qed.

Lemma quiet_then_logged (x y z : Sys F) : quiet x y -> logged y z -> logged x z.
Proof.
  unfold on_coach, same_log, logs_at_most_one. intros [H1 H2] [H3 H4].
  rewrite <- H1, <- H2. split; assumption.
Qed.

Lemma logged_then_quiet (x y z : Sys F) : logged x y -> quiet y z -> logged x z.
Proof.
  unfold on_coach, same_log, logs_at_most_one. intros [H1 H2] [H3 H4].
  rewrite H3, H4. split; assumption.
Qed.

Ltac before_the_entry :=
  repeat lazymatch goal with
         | |- keeps _ (bind (update _) (fun _ => ret _)) => fail
         | |- keeps _ (bind _ _) =>
             apply (keeps_bind_before quiet logged quiet_logged
                      quiet_then_logged);
             [keeps_coach same_upd | intros ?]
         end.

(** What one call of [process] does to the turn counter and the turn log,
    whether it returns or raises. *)
Lemma process_log (msg : str) (s : Sys F) :
  turn_num (coach (snd (process msg s))) = turn_num (coach s) + 1
  /\ (turns (coach (snd (process msg s))) = turns (coach s)
      \/ exists e,
           turns (coach (snd (process msg s))) = turns (coach s) ++ [e]
           /\ turn_id e = turn_num (coach s) + 1).
Proof.
  unfold process. unfold bind at 1. cbn [update modify].
  match goal with
  | |- context [snd (?c ?s0)] =>
      assert (Hk : keeps logged c); [| exact (Hk s0)]
  end.
  unfold adapt, _adjust_difficulty, escalate, _gen_feedback.
  apply (keeps_bind_before quiet logged quiet_logged quiet_then_logged);
    [keeps_coach same_upd | intros ?].
  match goal with |- keeps _ (if ?b then _ else _) => destruct b end.
  { apply (keeps_weaken quiet logged quiet_logged). keeps_coach same_upd. }
  before_the_entry.
  apply (keeps_bind_after quiet logged logged_then_quiet);
    [|intros ?; keeps_coach same_upd].
  apply keeps_update. intros c. unfold logs_at_most_one. unfold_setters.
  split; [reflexivity|]. right. eexists. split; reflexivity.
Qed.

Lemma start_keeps_log name position grade exp :
  keeps quiet (start name position grade exp).
Proof. unfold start. keeps_coach same_upd. Qed.

Lemma reachable_turn_ids_ok (s : Sys F) : reachable s -> turn_ids_ok (coach s).
Proof.
  induction 1 as [w | s name position grade exp _ IH | s msg _ IH].
  - unfold turn_ids_ok. cbn. repeat split; [constructor | lia].
  - destruct (start_keeps_log name position grade exp s) as [Hn Ht].
    unfold turn_ids_ok. rewrite Hn, Ht. exact IH.
  - destruct IH as (Hinc & Hb & Hlen).
    destruct (process_log msg s) as [Hn [Ht | (e & Ht & He)]];
      unfold turn_ids_ok; rewrite Hn, Ht.
    + split; [exact Hinc|]. split; [|lia].
      eapply Forall_impl; [|exact Hb]. cbn. intros t Hr. lia.
    + rewrite map_app, length_app. cbn [map List.length]. split; [|split].
      * apply increasing_snoc; [exact Hinc|].
        apply Forall_map. eapply Forall_impl; [|exact Hb].
        cbn. intros t Hr. lia.
      * apply Forall_app. split.
        -- eapply Forall_impl; [|exact Hb]. cbn. intros t Hr. lia.
        -- constructor; [|constructor].
           pose proof (Zle_0_nat (List.length (turns (coach s)))). lia.
      * lia.
Qed.

(** X12. The turn log of the coach is in order in every state of a
    session. Every call of [process] counts a turn, whether it returns,
    stops the session or raises; it logs at most one turn, numbered by the
    counter, and only at its very end. So the turn ids in the log increase
    strictly (no id occurs twice), each lies between 1 and the turn
    counter, and the log never has more entries than turns were counted;
    [start] touches neither the counter nor the log. *)
Theorem turn_log_is_in_order :
  (forall s : Sys F, reachable s -> turn_ids_ok (coach s))
  /\ (forall (msg : str) (s : Sys F),
        turn_num (coach (snd (process msg s))) = turn_num (coach s) + 1
        /\ (turns (coach (snd (process msg s))) = turns (coach s)
            \/ exists e,
                 turns (coach (snd (process msg s))) = turns (coach s) ++ [e]
                 /\ turn_id e = turn_num (coach s) + 1))
  /\ (forall (name position grade exp : str) (s : Sys F),
        same_log (coach s) (coach (snd (start name position grade exp s)))).
Proof.
  split; [exact reachable_turn_ids_ok|]. split; [exact process_log|].
  intros name position grade exp s.
  exact (start_keeps_log name position grade exp s).
Qed.

End TurnLog.

Section TurnRecord.

Context {py : PyLib} {F : Type} {fa : FloatArith F} {tx : Texts}.

Tactic Notation "run" hyp(H) "as" ident(a) ident(s) ident(E) :=
  apply bind_ok in H as (a & s & E & H).

Ltac framed E Hf :=
  lazymatch type of E with
  | ?c ?s = (_, ?s1) =>
      assert (Hf : same_dialogue (coach s) (coach s1))
        by (refine (keeps_run (on_coach same_dialogue) c s s1 _ _ E);
            unfold adapt, _adjust_difficulty, escalate;
            keeps_coach same_upd)
  end.

Ltac pure E := apply lift_ok in E as [E ->].

Ltac updated E := apply update_ok in E; subst.

(** X13. A call of [process] that returns on a message without a stop
    command records the turn as it was. The turn counter goes up by one;
    the dialogue gets the message of the candidate and then the answer that
    is returned; the turn log gets one entry, which carries the new value
    of the counter, the message, the content of the last message of the
    dialogue before the call as the visible message of the agent (the
    empty string when there was none), the level after the turn and the edge case that
    was detected; and the candidate, the end of the session and the final
    feedback are as before. *)
Theorem process_records_the_turn (msg : str) (s s' : Sys F) (resp : str) :
  any_in stop_commands (lower msg) = false ->
  process msg s = (Ok resp, s') ->
  turn_num (coach s') = turn_num (coach s) + 1
  /\ history (coach s')
     = history (coach s) ++ [mkMessage User msg; mkMessage Assistant resp]
  /\ (exists thoughts_str edge,
        turns (coach s')
        = turns (coach s)
          ++ [mkTurn (turn_num (coach s) + 1) (last_content (history (coach s)))
                msg thoughts_str (difficulty (coach s')) edge])
  /\ finished (coach s') = finished (coach s)
  /\ candidate (coach s') = candidate (coach s)
  /\ final_feedback (coach s') = final_feedback (coach s).
Proof.
  intros Hstop H. unfold process in H.
  run H as x1 s1 E1. updated E1.
  run H as x2 s2 E2. updated E2.
  rewrite Hstop in H. cbn [coach world] in H.
  set (c0 := set_history _ _) in H.
  run H as c3 s3 E3. apply self_ok in E3 as [-> ->]. cbn [coach] in H.
  run H as analysis s4 E4. framed E4 F4.
  run H as x5 s5 E5. framed E5 F5.
  run H as edge s6 E6. pure E6.
  run H as topic s7 E7. pure E7.
  run H as x8 s8 E8. framed E8 F8.
  run H as c9 s9 E9. framed E9 F9.
  run H as x10 sa E10.
  assert (F10 : same_dialogue (coach s9) (coach sa)).
  { destruct (from_end 2 (history c9)) as [m|].
    - run E10 as ic s10 E10a. pure E10a.
      run E10 as sc s11 E10b. pure E10b.
      framed E10 F10. exact F10.
    - framed E10 F10. exact F10. }
  run H as x11 sb E11. framed E11 F11.
  run H as tc s12 E12. pure E12.
  run H as x13 s13 E13. framed E13 F13.
  run H as fc s14 E14. framed E14 F14.
  run H as advice s15 E15. pure E15.
  run H as c16 s16 E16. framed E16 F16.
  run H as r17 s17 E17. framed E17 F17.
  run H as x18 s18 E18. updated E18.
  run H as c19 s19 E19. apply self_ok in E19 as [-> ->].
  run H as x20 s20 E20. updated E20.
  apply ret_ok in H as [<- ->].
  assert (Hall : same_dialogue c0 (coach s17)).
  { change c0 with (coach (mkSys (world s) c0)).
    repeat (etransitivity; [eassumption|]). reflexivity. }
  destruct Hall as (Hh & Ht & Hn & Hf & Hc & Hff).
  cbn [coach]. unfold_setters. cbn [coach].
  rewrite Hh, Ht, Hn, Hf, Hc, Hff. unfold c0. unfold_setters.
  split; [reflexivity|].
  split; [now rewrite <- app_assoc|].
  split; [|repeat split].
  eexists. eexists. f_equal. f_equal.
  rewrite <- app_assoc. cbn [app]. rewrite from_end_3. reflexivity.
Qed.

End TurnRecord.

(* ===================================================================== *)
(** * The coach: answers of the oracle that are valid JSON but no record *)
(* ===================================================================== *)

Lemma get_or_non_record (v : value) (k : str) (default : value) :
  (forall d, v <> VDict d) -> get_or v k default = Raise AttributeError.
Proof. intros H. destruct v; try reflexivity. now contradiction (H d). Qed.

Section CoachAgents.

Context {py : PyLib} {F : Type} {fa : FloatArith F} {tx : Texts}.

(** [MentorAgent.analyze] when the first answer yields a record, and when
    none of the three answers yields one. *)
Lemma mentor_analyze_first msg hist dif topics prompt (v : value) (s : Sys F) :
  mentor_prompt msg hist dif topics = Ok prompt ->
  yields (world s) 0 = Some v ->
  exists evs,
    mentor_analyze msg hist dif topics s
    = (Ok v,
       mkSys (mkWorld (tape (world s)) (S (served (world s)))
                (trace (world s) ++ Enter MentorAnalyze :: evs))
             (coach s)).
Proof.
  intros Hp Hv. unfold mentor_analyze.
  unfold bind at 1. unfold enter, in_world, zoom, emit, modify.
  cbn [world coach].
  unfold bind at 1. rewrite Hp. cbn [lift].
  unfold bind at 1. unfold in_world, zoom. cbn [world coach].
  set (w1 := mkWorld _ _ _).
  destruct (retry_first prompt 3 (f_lit (5 # 10)) w1 v) as (evs & ->);
    [lia | exact Hv |].
  exists evs. cbn [ret]. rewrite (yield_at_truthy _ _ _ Hv).
  unfold w1. cbn [tape served trace]. now rewrite <- app_assoc.
Qed.


Lemma detect_on_non_record (msg : str) (v : value) :
  (forall d, v <> VDict d) ->
  _detect_edge_case msg v = Ok (Some Silence)
  \/ _detect_edge_case msg v = Ok (Some DontKnow)
  \/ _detect_edge_case msg v = Raise AttributeError.
Proof.
  intros Hv. unfold _detect_edge_case. cbv zeta.
  destruct (_ || _); [now left|].
  destruct (any_in dont_know_phrases _); [right; now left|].
  unfold get. rewrite (get_or_non_record v _ _ Hv). right. now right.
Qed.

(** X14. A mentor answer that is valid JSON but not an object makes the
    turn fail half-way. When the first answer of the oracle to the mentor's
    request yields a value that is not a record (a JSON array, string or
    number that [extract_json] hands on as it is), [process] raises an
    [AttributeError] on the first field it reads from it; by then the turn
    has been counted and the message of the candidate appended to the
    dialogue, and nothing else in the coach has changed: no answer of the
    interviewer, no entry in the turn log. *)
Theorem process_raises_on_analysis_that_is_no_record
    (msg prompt : str) (v : value) (s : Sys F) :
  any_in stop_commands (lower msg) = false ->
  mentor_prompt msg (history (coach s) ++ [mkMessage User msg])
    (difficulty (coach s)) (topics_covered (coach s)) = Ok prompt ->
  yields (world s) 0 = Some v ->
  (forall d, v <> VDict d) ->
  fst (process msg s) = Raise AttributeError
  /\ coach (snd (process msg s))
     = set_history (history (coach s) ++ [mkMessage User msg])
         (set_turn_num (turn_num (coach s) + 1) (coach s))
  /\ served (world (snd (process msg s))) = S (served (world s)).
Proof.
  intros Hstop Hp Hv Hrec.
  set (c0 := set_history (history (coach s) ++ [mkMessage User msg])
               (set_turn_num (turn_num (coach s) + 1) (coach s))).
  assert (E : exists w',
             process msg s = (Raise AttributeError, mkSys w' c0)
             /\ served w' = S (served (world s))).
  { destruct (mentor_analyze_first msg (history c0) (difficulty c0)
                (topics_covered c0) prompt v (mkSys (world s) c0) Hp Hv)
      as (evs & Hm).
    unfold process.
    unfold bind at 1. cbn [update modify].
    unfold bind at 1. cbn [update modify coach world]. rewrite Hstop.
    unfold bind at 1. cbn [self coach]. fold c0.
    rewrite (bind_run _ _ _ _ _ Hm).
    unfold bind at 1. unfold enter, in_world, zoom, emit, modify.
    cbn [world coach].
    destruct (detect_on_non_record msg v Hrec) as [He | [He | He]];
      unfold bind at 1; rewrite He; cbn [lift];
      try (unfold bind at 1; unfold get;
           rewrite (get_or_non_record v _ _ Hrec); cbn [lift]);
      (eexists; split; reflexivity). }
  destruct E as (w' & -> & Hserved). repeat split. exact Hserved.
Qed.

End CoachAgents.

(* ===================================================================== *)
(** * The coach: the feedback record *)
(* ===================================================================== *)

Lemma assoc_dict_set (k : str) (v : value) (d : list (str * value)) :
  assoc k (dict_set k v d) = Some v.
Proof.
  induction d as [|[k' v'] d IH]; cbn.
  - now rewrite str_eqb_refl.
  - destruct (str_eqb k k') eqn:E; cbn; rewrite E; [reflexivity | exact IH].
Qed.

Section Feedback.

Context {py : PyLib} {F : Type} {fa : FloatArith F} {tx : Texts}.

(** X15. The feedback that [FeedbackGeneratorAgent.generate] returns
    always names resources. Whenever the call returns, its result is a
    record whose [roadmap] is a record whose [resources] are not empty: the
    oracle's own, those of the fallback record, or else the three default
    links that the agent writes into the record. *)
Theorem feedback_always_names_resources hist ths cand dh qs
    (s s' : Sys F) (r : value) :
  feedback_generate hist ths cand dh qs s = (Ok r, s') ->
  exists d roadmap resources,
    r = VDict d
    /\ assoc (u "roadmap") d = Some (VDict roadmap)
    /\ assoc (u "resources") roadmap = Some resources
    /\ truthy resources = true.
Proof.
  unfold feedback_generate. intros H.
  apply bind_ok in H as (x0 & s0 & _ & H).
  apply bind_ok in H as (prompt & s1 & _ & H).
  apply bind_ok in H as (result0 & s2 & _ & H). cbv zeta in H.
  set (result := if truthy result0 then result0 else default_feedback dh) in H.
  apply bind_ok in H as (rm & s3 & Hrm & H). apply lift_ok in Hrm as [Hrm ->].
  apply bind_ok in H as (rs & s4 & Hrs & H). apply lift_ok in Hrs as [Hrs ->].
  destruct result as [| | | | | |d]; try discriminate Hrm.
  cbn [get_or] in Hrm. injection Hrm as Hrm.
  destruct (truthy rs) eqn:Htr.
  - apply ret_ok in H as [<- _].
    destruct rm as [| | | | | |rd]; try discriminate Hrs.
    cbn [get get_or] in Hrs. injection Hrs as Hrs.
    destruct (assoc (u "resources") rd) as [x|] eqn:Hx;
      [|subst rs; discriminate Htr].
    subst x.
    destruct (assoc (u "roadmap") d) as [y|] eqn:Hy;
      [|injection Hrm as <-; discriminate Hx].
    subst y. exists d, rd, rs. repeat split; assumption.
  - apply lift_ok in H as [H _]. unfold set_resources in H.
    cbn [item] in H.
    destruct (assoc (u "roadmap") d) as [y|] eqn:Hy; [|discriminate H].
    destruct y as [| | | | | |rd]; try discriminate H.
    injection H as <-.
    eexists. eexists. eexists. split; [reflexivity|].
    split; [apply assoc_dict_set|]. split; [apply assoc_dict_set|].
    reflexivity.
Qed.

(** [FeedbackGeneratorAgent.generate] on a record without a [roadmap]. *)
Lemma feedback_generate_no_roadmap hist ths cand dh qs (prompt : str)
    (d : list (str * value)) (s : Sys F) :
  feedback_prompt hist ths cand dh qs = Ok prompt ->
  yields (world s) 0 = Some (VDict d) ->
  assoc (u "roadmap") d = None ->
  exists evs,
    feedback_generate hist ths cand dh qs s
    = (Raise KeyError,
       mkSys (mkWorld (tape (world s)) (S (served (world s)))
                (trace (world s) ++ evs))
             (coach s)).
Proof.
  intros Hp Hv Hno. unfold feedback_generate.
  unfold bind at 1. unfold enter, in_world, zoom, emit, modify.
  cbn [world coach].
  unfold bind at 1. rewrite Hp. cbn [lift].
  unfold bind at 1. unfold in_world, zoom. cbn [world coach].
  set (w1 := mkWorld _ _ _).
  destruct (retry_first prompt 3 (f_lit (5 # 10)) w1 (VDict d))
    as (evs & ->); [lia | exact Hv |].
  pose proof (yield_at_truthy _ _ _ Hv) as Htr. rewrite Htr.
  unfold bind at 1. cbn [get_or lift]. rewrite Hno.
  unfold bind at 1. cbn [get get_or assoc lift truthy].
  unfold set_resources. cbn [item]. rewrite Hno. cbn [lift].
  eexists. unfold w1. cbn [tape served trace].
  rewrite <- app_assoc. reflexivity.
Qed.

(** X16. A feedback record without a [roadmap] ends the session in an
    exception. When the message holds a stop command and the oracle's
    first answer to the feedback request yields a record that has no
    [roadmap] key, the agent's write of the default resources raises a
    [KeyError], which [process] passes on: the session is by then marked
    finished, but no final feedback is stored and no report is returned. *)
Theorem stop_without_roadmap_raises (msg prompt : str)
    (d : list (str * value)) (s : Sys F) :
  any_in stop_commands (lower msg) = true ->
  feedback_prompt (history (coach s) ++ [mkMessage User msg])
    (thoughts (coach s)) (candidate (coach s)) (difficulty_history (coach s))
    (questions_asked (coach s)) = Ok prompt ->
  yields (world s) 0 = Some (VDict d) ->
  assoc (u "roadmap") d = None ->
  fst (process msg s) = Raise KeyError
  /\ finished (coach (snd (process msg s))) = true
  /\ final_feedback (coach (snd (process msg s))) = final_feedback (coach s)
  /\ served (world (snd (process msg s))) = S (served (world s)).
Proof.
  intros Hstop Hp Hv Hno.
  assert (E : exists w',
             process msg s
             = (Raise KeyError,
                mkSys w'
                  (set_finished true
                     (set_history (history (coach s) ++ [mkMessage User msg])
                        (set_turn_num (turn_num (coach s) + 1) (coach s)))))
             /\ served w' = S (served (world s))).
  { unfold process.
    unfold bind at 1. cbn [update modify].
    unfold bind at 1. cbn [update modify coach world]. rewrite Hstop.
    unfold _gen_feedback.
    unfold bind at 1. cbn [update modify coach world].
    unfold bind at 1. cbn [self coach].
    set (s0 := mkSys (world s) _).
    destruct (feedback_generate_no_roadmap
                (history (coach s0)) (thoughts (coach s0))
                (candidate (coach s0)) (difficulty_history (coach s0))
                (questions_asked (coach s0)) prompt d s0 Hp Hv Hno)
      as (evs & Hg).
    rewrite (bind_raise _ _ _ _ _ Hg).
    eexists. split; reflexivity. }
  destruct E as (w' & -> & Hserved). repeat split. exact Hserved.
Qed.

End Feedback.

(* ===================================================================== *)
(** * The coach: a turn while the service is down *)
(* ===================================================================== *)

#[export] Instance same_record_preorder : PreOrder same_record.
Proof.
  split.
  - intros c. repeat split.
  - intros a b c (H1 & H2 & H3 & H4 & H5) (G1 & G2 & G3 & G4 & G5).
    unfold same_record. now rewrite G1, G2, G3, G4, G5.
Qed.

#[export] Instance same_service_preorder {F} : PreOrder (@same_service F).
Proof.
  split.
  - intros w. split; reflexivity.
  - intros a b c [H1 H2] [G1 G2]. unfold same_service. now rewrite G1, G2.
Qed.


Section Outage.

Context {py : PyLib} {F : Type} {fa : FloatArith F} {tx : Texts}.















End Outage.

(* ===================================================================== *)
(** * Structured-response recovery: an object inside other text *)
(* ===================================================================== *)

Lemma lstrip_before (pre t : str) (x : N) :
  isspace x = false ->
  exists pre', lstrip (pre ++ x :: t) = pre' ++ x :: t /\ incl pre' pre.
Proof.
  intros Hx. induction pre as [|c pre IH]; cbn.
  - rewrite Hx. exists []. split; [reflexivity | apply incl_refl].
  - destruct (isspace c).
    + destruct IH as (pre' & -> & Hi). exists pre'.
      split; [reflexivity | now apply incl_tl].
    + exists (c :: pre). split; [reflexivity | apply incl_refl].
Qed.

Lemma drop_prefix_before (p : str) (x : N) :
  ~ In x p ->
  forall (pre t rest : str),
    drop_prefix p (pre ++ x :: t) = Some rest ->
    exists pre1, pre = p ++ pre1 /\ rest = pre1 ++ x :: t.
Proof.
  intros Hx. induction p as [|c p IH]; intros pre t rest H.
  - injection H as <-. now exists pre.
  - destruct pre as [|d pre]; cbn in H.
    + destruct (N.eqb_spec c x) as [->|_]; [|discriminate H].
      contradiction Hx. now left.
    + destruct (N.eqb_spec c d) as [->|_]; [|discriminate H].
      apply IH in H as (pre1 & -> & ->).
      * now exists pre1.
      * intros Hin. apply Hx. now right.
Qed.

Lemma drop_until_before (x : N) (pre t : str) :
  ~ In x pre -> drop_until x (pre ++ x :: t) = x :: t.
Proof.
  induction pre as [|c pre IH]; cbn; intros H.
  - now rewrite N.eqb_refl.
  - destruct (N.eqb_spec c x) as [->|_].
    + contradiction H. now left.
    + apply IH. intros Hin. apply H. now right.
Qed.

Lemma rev_around (pre mid post : str) :
  rev (around pre mid post) = rev post ++ rbrace :: rev mid ++ lbrace :: rev pre.
Proof.
  unfold around. rewrite rev_app_distr. cbn [rev].
  rewrite rev_app_distr. cbn [rev]. now rewrite <- !app_assoc.
Qed.

Lemma rev_around_rev (pre mid q : str) :
  rev (q ++ rbrace :: rev mid ++ lbrace :: rev pre) = around pre mid (rev q).
Proof.
  unfold around. rewrite rev_app_distr. cbn [rev].
  rewrite rev_app_distr. cbn [rev].
  rewrite !rev_involutive, <- !app_assoc. reflexivity.
Qed.

Section Embedded.

Context {py : PyLib}.

Lemma lstrip_keeps_span : keeps_span lstrip.
Proof.
  intros pre mid post. unfold around.
  destruct (lstrip_before pre (mid ++ rbrace :: post) lbrace eq_refl)
    as (pre' & -> & Hi).
  exists pre', post. split; [reflexivity|]. split; [exact Hi | apply incl_refl].
Qed.

Lemma rstrip_after (pre mid post : str) :
  exists post',
    rev (lstrip (rev (around pre mid post))) = around pre mid post'
    /\ incl post' post.
Proof.
  rewrite rev_around.
  destruct (lstrip_before (rev post) (rev mid ++ lbrace :: rev pre) rbrace
              eq_refl) as (q & -> & Hi).
  exists (rev q). split; [apply rev_around_rev|].
  intros c Hc. apply In_rev in Hc. apply Hi in Hc. now apply In_rev in Hc.
Qed.

Lemma strip_keeps_span : keeps_span strip.
Proof.
  intros pre mid post. unfold strip, rstrip.
  destruct (lstrip_keeps_span pre mid post) as (pre' & post1 & -> & Hi & Hj).
  destruct (rstrip_after pre' mid post1) as (post' & -> & Hk).
  exists pre', post'. split; [reflexivity|]. split; [exact Hi|].
  intros c Hc. apply Hj, Hk, Hc.
Qed.

Lemma sub_leading_keeps_span (p : str) :
  ~ In lbrace p -> keeps_span (sub_leading p).
Proof.
  intros Hp pre mid post. unfold sub_leading.
  destruct (drop_prefix p (around pre mid post)) as [rest|] eqn:E.
  - unfold around in E.
    apply (drop_prefix_before p lbrace Hp) in E as (pre1 & -> & ->).
    destruct (lstrip_before pre1 (mid ++ rbrace :: post) lbrace eq_refl)
      as (pre' & -> & Hi).
    exists pre', post. split; [reflexivity|]. split; [|apply incl_refl].
    intros c Hc. apply in_or_app. right. apply Hi, Hc.
  - exists pre, post. split; [reflexivity|]. split; apply incl_refl.
Qed.

Lemma sub_trailing_fence_keeps_span : keeps_span sub_trailing_fence.
Proof.
  intros pre mid post. unfold sub_trailing_fence. cbv zeta.
  rewrite rev_around.
  destruct (drop_prefix (rev fence) _) as [before|] eqn:E.
  - apply (drop_prefix_before (rev fence) rbrace) in E as (q & Hq & ->);
      [|cbn; intros [H|[H|[H|[]]]]; discriminate H].
    destruct (lstrip_before q (rev mid ++ lbrace :: rev pre) rbrace eq_refl)
      as (q' & -> & Hi).
    exists pre, (rev q'). split; [apply rev_around_rev|].
    split; [apply incl_refl|].
    intros c Hc. apply In_rev in Hc. apply Hi in Hc.
    apply In_rev. rewrite Hq. apply in_or_app. now right.
  - destruct (drop_prefix (newline :: rev fence) _) as [before|] eqn:E2.
    + apply (drop_prefix_before (newline :: rev fence) rbrace)
        in E2 as (q & Hq & ->);
        [|cbn; intros [H|[H|[H|[H|[]]]]]; discriminate H].
      destruct (lstrip_before q (rev mid ++ lbrace :: rev pre) rbrace eq_refl)
        as (q' & -> & Hi).
      exists pre, (rev q' ++ [newline]). split; [|split; [apply incl_refl|]].
      * rewrite rev_around_rev. unfold around.
        repeat (rewrite <- app_assoc; cbn [app]). reflexivity.
      * intros c Hc. apply in_app_or in Hc as [Hc | [<- | []]].
        -- apply In_rev in Hc. apply Hi in Hc.
           apply In_rev. rewrite Hq. apply in_or_app. right. exact Hc.
        -- apply In_rev. rewrite Hq. now left.
    + exists pre, post. split; [reflexivity|]. split; apply incl_refl.
Qed.

Lemma search_braces_around (pre mid post : str) :
  ~ In lbrace pre -> ~ In rbrace post ->
  search_braces (around pre mid post) = Some (lbrace :: mid ++ [rbrace]).
Proof.
  intros Hpre Hpost. unfold search_braces, around.
  rewrite (drop_until_before lbrace pre _ Hpre).
  change (lbrace :: mid ++ rbrace :: post) with (around [] mid post).
  rewrite rev_around. cbn [rev app].
  rewrite drop_until_before by (intros H; apply In_rev in H; exact (Hpost H)).
  change (rbrace :: rev mid ++ [lbrace]) with ([] ++ rbrace :: rev mid ++ lbrace :: rev []).
  rewrite rev_around_rev. unfold around. cbn. reflexivity.
Qed.

(** X18. [extract_json] finds a JSON object inside other text. When the
    text is an object that [json.loads] parses, from an opening to a closing
    brace, with any text without an opening brace before it and any text
    without a closing brace after it (prose, white space, a Markdown fence
    with or without the [json] tag), the result is the parsed object: the
    three substitutions and the trimming remove nothing of the object, and
    the search for the braces cuts it out exactly. *)
Theorem extract_json_finds_the_object (pre mid post : str) (v : value) :
  ~ In lbrace pre ->
  ~ In rbrace post ->
  json_loads (lbrace :: mid ++ [rbrace]) = Some v ->
  extract_json (pre ++ lbrace :: mid ++ rbrace :: post) = v.
Proof.
  intros Hpre Hpost Hv. unfold extract_json. cbv zeta.
  change (pre ++ lbrace :: mid ++ rbrace :: post) with (around pre mid post).
  destruct (strip_keeps_span pre mid post) as (p1 & q1 & -> & Hp1 & Hq1).
  destruct (sub_leading_keeps_span fence_json
              ltac:(cbn; intuition discriminate) p1 mid q1)
    as (p2 & q2 & -> & Hp2 & Hq2).
  destruct (sub_leading_keeps_span fence
              ltac:(cbn; intuition discriminate) p2 mid q2)
    as (p3 & q3 & -> & Hp3 & Hq3).
  destruct (sub_trailing_fence_keeps_span p3 mid q3)
    as (p4 & q4 & -> & Hp4 & Hq4).
  rewrite search_braces_around, Hv; [reflexivity | |].
  - intros H. apply Hpre, Hp1, Hp2, Hp3, Hp4, H.
  - intros H. apply Hpost, Hq1, Hq2, Hq3, Hq4, H.
Qed.

End Embedded.

(* ===================================================================== *)
(** * Structured-response recovery: the pauses *)
(* ===================================================================== *)

Section Pauses.

Context {py : PyLib} {F : Type} {fa : FloatArith F}.

(** One attempt, with all the events it adds. *)
Lemma attempt_body_events prompt max_retries temperature (a : nat)
    (w : World F) :
  attempt_body prompt max_retries temperature (Z.of_nat a) w
  = (Ok (yield_at (tape w) (served w)),
     mkWorld (tape w) (S (served w))
       (trace w
        ++ LLMCall (attempt_prompt prompt a) (attempt_temperature temperature a)
           :: match yield_at (tape w) (served w) with
              | Some _ => []
              | None =>
                  if Z.of_nat a <? max_retries - 1
                  then [Sleep (pause_after (tape w (served w)))]
                  else []
              end)).
Proof.
  assert (Hlt : (0 <? Z.of_nat a) = match a with O => false | S _ => true end).
  { destruct a; [reflexivity|]. apply Z.ltb_lt. lia. }
  unfold attempt_body, try_except, bind, yield_at, attempt_prompt,
    attempt_temperature.
  rewrite Hlt.
  destruct a as [|a']; unfold call_llm;
    (destruct (tape w (served w)) as [|text]; cbn;
     [ destruct (_ <? max_retries - 1); cbn;
       rewrite <- ?app_assoc; reflexivity
     | destruct (truthy (extract_json text)); cbn;
       [ reflexivity
       | destruct (_ <? max_retries - 1); cbn;
         rewrite <- ?app_assoc; reflexivity ] ]).
Qed.

Lemma recovery_events_from_S (a k : nat) prompt (temperature : F)
    (w : World F) :
  recovery_events_from a prompt temperature w (S k)
  = LLMCall (attempt_prompt prompt a) (attempt_temperature temperature a)
    :: (if (1 <? S k)%nat
        then [Sleep (pause_after (tape w (served w)))] else [])
    ++ recovery_events_from (S a) prompt temperature
         (mkWorld (tape w) (S (served w)) (trace w)) k.
Proof.
  unfold recovery_events_from. cbn [seq flat_map].
  rewrite !Nat.add_0_r. cbn [Nat.add app]. f_equal. f_equal.
  rewrite <- seq_shift, flat_map_concat_map, map_map, <- flat_map_concat_map.
  apply flat_map_ext. intros j. cbn [tape served].
  replace (a + S j)%nat with (S (a + j))%nat by lia.
  replace (served w + S j)%nat with (S (served w + j))%nat by lia.
  reflexivity.
Qed.

Lemma recovery_events_from_trace (a k : nat) prompt (temperature : F)
    (tp : nat -> outcome) (sv : nat) (tr tr' : list (event F)) :
  recovery_events_from a prompt temperature (mkWorld tp sv tr) k
  = recovery_events_from a prompt temperature (mkWorld tp sv tr') k.
Proof. reflexivity. Qed.

(** The loop from attempt [a] on, for the [m] attempts that remain. *)
Lemma for_attempts_events prompt max_retries temperature (m : nat) :
  forall (a : nat) (w : World F),
  max_retries = Z.of_nat (a + m) ->
  exists (k : nat) (v : value),
    for_attempts prompt max_retries temperature (map Z.of_nat (seq a m)) w
    = (Ok v,
       mkWorld (tape w) (served w + k)
         (trace w ++ recovery_events_from a prompt temperature w k))
    /\ (k <= m)%nat /\ ((0 < m)%nat -> (0 < k)%nat).
Proof.
  induction m as [|m IH]; intros a w Hmax.
  - exists O, empty_record. cbn. rewrite Nat.add_0_r, app_nil_r.
    destruct w; cbn. repeat split; lia.
  - cbn [seq map for_attempts]. unfold bind at 1.
    rewrite attempt_body_events.
    destruct (yield_at (tape w) (served w)) as [v|] eqn:Hy.
    + exists 1%nat, v. rewrite Nat.add_1_r.
      split; [|split; lia].
      unfold recovery_events_from. cbn. now rewrite Nat.add_0_r.
    + set (w1 := mkWorld (tape w) (S (served w)) _).
      destruct (IH (S a) w1) as (k & v & -> & Hk & Hpos); [lia|].
      exists (S k), v. split; [|split; lia].
      rewrite recovery_events_from_S.
      unfold w1 at 1 2 3. cbn [tape served trace].
      unfold w1.
      rewrite (recovery_events_from_trace (S a) k prompt temperature
                 (tape w) (S (served w)) _ (trace w)).
      f_equal. f_equal; [lia|].
      rewrite <- app_assoc. f_equal. cbn [app]. f_equal.
      assert (Hc : (Z.of_nat a <? max_retries - 1) = (1 <? S k)%nat).
      { destruct (Z.ltb_spec (Z.of_nat a) (max_retries - 1));
          destruct (Nat.ltb_spec 1 (S k)); try reflexivity; lia. }
      rewrite Hc. reflexivity.
Qed.

Lemma pauses_app (a b : list (event F)) : pauses (a ++ b) = pauses a ++ pauses b.
Proof. unfold pauses. now rewrite flat_map_app. Qed.

Lemma pauses_of_events (prompt : str) (temperature : F) (w : World F)
    (k n : nat) :
  pauses (flat_map (fun j =>
                      LLMCall (attempt_prompt prompt (0 + j))
                              (attempt_temperature temperature (0 + j))
                      :: (if (j + 1 <? k)%nat
                          then [Sleep (pause_after (tape w (served w + j)))]
                          else []))
                   (seq 0 n))
  = map (fun j => pause_after (tape w (served w + j)))
        (seq 0 (Nat.min n (pred k))).
Proof.
  induction n as [|n IH]; [reflexivity|].
  rewrite seq_S, flat_map_app, pauses_app, IH. cbn [Nat.add flat_map app].
  destruct (Nat.ltb_spec (n + 1) k).
  - replace (Nat.min (S n) (pred k)) with (S n) by lia.
    replace (Nat.min n (pred k)) with n by lia.
    rewrite seq_S, map_app. reflexivity.
  - replace (Nat.min (S n) (pred k)) with (Nat.min n (pred k)) by lia.
    cbn. now rewrite app_nil_r.
Qed.

(** X19. The recovery layer pauses between attempts and never after the
    last one. A call that makes [k] requests adds exactly these events to
    the trace: each request, followed, unless it is the last one made, by
    one pause, of one second when the request failed and of half a second
    when its answer yielded no record. So a call pauses [k - 1] times, it
    returns at once after the record that it returns or after the last
    attempt allowed, and with no attempt allowed it does nothing. *)
Theorem recovery_pauses_between_attempts
    (prompt : str) (max_retries : Z) (temperature : F) (w : World F) :
  exists (k : nat) (v : value),
    call_llm_with_json_retry prompt max_retries temperature w
    = (Ok v,
       mkWorld (tape w) (served w + k)
         (trace w ++ recovery_events prompt temperature w k))
    /\ (k <= Z.to_nat max_retries)%nat
    /\ pauses (recovery_events prompt temperature w k)
       = map (fun j => pause_after (tape w (served w + j))) (seq 0 (pred k))
    /\ (max_retries <= 0 -> k = O).
Proof.
  unfold call_llm_with_json_retry, range.
  destruct (Z.le_gt_cases max_retries 0) as [Hle | Hgt].
  - replace (Z.to_nat max_retries) with O by lia. cbn.
    exists O, empty_record. cbn. rewrite Nat.add_0_r, app_nil_r.
    destruct w; cbn. repeat split; lia.
  - destruct (for_attempts_events prompt max_retries temperature
                (Z.to_nat max_retries) O w) as (k & v & Hrun & Hk & _);
      [lia|].
    exists k, v. split; [exact Hrun|]. split; [exact Hk|]. split; [|lia].
    unfold recovery_events, recovery_events_from.
    rewrite pauses_of_events. f_equal. f_equal. lia.
Qed.

End Pauses.

(* ===================================================================== *)
(** * The coach on the graph *)
(* ===================================================================== *)

Lemma last_n_snoc {A} (n : nat) (l : list A) (x : A) :
  Logger.last_n (S n) (l ++ [x]) = Logger.last_n n l ++ [x].
Proof.
  unfold Logger.last_n. rewrite length_app, skipn_app. cbn [List.length].
  replace (List.length l + 1 - S n)%nat with (List.length l - n)%nat by lia.
  replace (List.length l - n - List.length l)%nat with O by lia.
  reflexivity.
Qed.

Lemma last_n_short {A} (n : nat) (l : list A) :
  (List.length l <= n)%nat -> Logger.last_n n l = l.
Proof.
  intros H. unfold Logger.last_n.
  now replace (List.length l - n)%nat with O by lia.
Qed.

Lemma from_end_snoc {A} (l : list A) (x : A) : from_end 1 (l ++ [x]) = Some x.
Proof. unfold from_end. now rewrite rev_app_distr. Qed.

Section MainRuns.

Context {py : PyLib} {F : Type} {fa : FloatArith F} {cfg : Graph.Config F}.

Lemma graph_invoke_run (limit : nat) (st : Graph.InterviewState)
    (a : Main.App F) :
  Main.graph_invoke limit st a
  = (fst (Graph.invoke limit st (Main.app_world a)),
     Main.mkApp (snd (Graph.invoke limit st (Main.app_world a)))
       (Main.set_state
          (Some (Main.put_thoughts
                   (Graph.thoughts st
                    ++ Main.appended_in_place limit st (Main.app_world a))
                   st))
          (Main.app_coach a))).
Proof. reflexivity. Qed.

Lemma put_thoughts_same (st : Graph.InterviewState) :
  Main.put_thoughts (Graph.thoughts st ++ []) st = st.
Proof. destruct st. unfold Main.put_thoughts. cbn. now rewrite app_nil_r. Qed.

(** What [mentor_node] appends in place: nothing, or the one thought of the
    fact checker. *)
Lemma mentor_appends_inv (st : Graph.InterviewState) (w w' : World F)
    (appended : list thought) :
  Graph.mentor_appends st w = (Ok appended, w') ->
  (List.length appended <= 1)%nat
  /\ Forall (fun t => from_agent t = u "FactChecker_Agent") appended.
Proof.
  unfold Graph.mentor_appends.
  destruct (from_end 1 (Graph.user_messages (Graph.messages st))) as [msg|].
  - intros H.
    apply bind_ok in H as (analysis & w1 & _ & H).
    apply bind_ok in H as (fire & w2 & _ & H).
    apply bind_ok in H as ([flags fc] & w3 & Hc & H).
    apply ret_ok in H as [<- _]. cbn [snd].
    destruct fire.
    + apply fact_check_flags_inv in Hc
        as (fact_result & verdict & _ & _
            & [(_ & flag & th & _ & _ & -> & Hfrom & _) | (_ & _ & ->)]).
      * split; [cbn; lia | repeat constructor; exact Hfrom].
      * split; [cbn; lia | constructor].
    + apply ret_ok in Hc as [[= _ <-] _]. split; [cbn; lia | constructor].
  - intros H. apply ret_ok in H as [<- _]. split; [cbn; lia | constructor].
Qed.

(** It is what the node that returns has put before its own thought. *)
Lemma mentor_appends_returned (st st' : Graph.InterviewState)
    (w w' : World F) (msg : str) :
  last_user_message st = Some msg ->
  Graph.mentor_node st w = (Ok st', w') ->
  exists appended th,
    Graph.mentor_appends st w = (Ok appended, w')
    /\ Graph.thoughts st' = Graph.thoughts st ++ appended ++ [th].
Proof.
  intros Hm H.
  destruct (mentor_node_inv _ _ _ _ _ Hm H)
    as (analysis & w1 & fire & flags & fc & topic & td & level & streak
        & hist & th & skills & gaps & Ha & Hf & Hc & _ & _ & _ & _ & _ & ->).
  exists fc, th. split; [|reflexivity].
  unfold Graph.mentor_appends. unfold last_user_message in Hm. rewrite Hm.
  cbv beta iota.
  rewrite (bind_run _ _ _ _ _ Ha), (bind_lift _ _ _ _ Hf),
    (bind_run _ _ _ _ _ Hc).
  reflexivity.
Qed.

Lemma appended_in_place_inv (limit : nat) (st : Graph.InterviewState)
    (w : World F) :
  (List.length (Main.appended_in_place limit st w) <= 1)%nat
  /\ Forall (fun t => from_agent t = u "FactChecker_Agent")
       (Main.appended_in_place limit st w).
Proof.
  unfold Main.appended_in_place.
  destruct limit as [|[|limit]]; try (split; [cbn; lia | constructor]).
  destruct (Graph.interviewer_node st w) as [[st1|e] w1];
    [|split; [cbn; lia | constructor]].
  destruct (Graph.should_continue st1);
    try (split; [cbn; lia | constructor]).
  destruct (Graph.mentor_appends st1 w1) as [[appended|e] w2] eqn:E;
    cbn [fst]; [|split; [cbn; lia | constructor]].
  exact (mentor_appends_inv st1 w1 w2 appended E).
Qed.

(** A run on a state without a message of the candidate appends nothing in
    place. *)
Lemma appended_in_place_none (limit : nat) (st : Graph.InterviewState)
    (w : World F) :
  last_user_message st = None -> Main.appended_in_place limit st w = [].
Proof.
  intros Hm. unfold Main.appended_in_place.
  destruct limit as [|[|limit]]; try reflexivity.
  destruct (Graph.interviewer_node st w) as [[st1|e] w1] eqn:E;
    [|reflexivity].
  apply interviewer_node_inv in E as (text & request & -> & _).
  destruct (Graph.should_continue (replied text st)); try reflexivity.
  unfold Graph.mentor_appends.
  pose proof (last_user_message_replied text st) as Hr.
  unfold last_user_message in Hr, Hm. rewrite Hr, Hm. reflexivity.
Qed.

(** The state that is handed to the graph ends with the message of the
    candidate. *)
Lemma handed_last_user_message (msg : str) (turn : Z)
    (st : Graph.InterviewState) :
  last_user_message (handed msg turn st) = Some msg.
Proof.
  unfold last_user_message, handed. cbn [Graph.messages Main.put_messages].
  rewrite last_n_snoc, user_messages_app. cbn. apply from_end_snoc.
Qed.

Lemma handed_goes_on (msg : str) (turn : Z) (st : Graph.InterviewState) :
  Graph.interview_finished st = false ->
  any_in Graph.stop_commands (lower msg) = false ->
  turn < Graph.MAX_TURNS ->
  goes_on (handed msg turn st).
Proof.
  intros Hf Hs Ht. unfold goes_on, asks_to_stop.
  rewrite handed_last_user_message. repeat split; assumption.
Qed.

(** X20. The coach on the graph never greets the candidate. For every
    candidate, mode and level, [start_interview] raises: the [ValueError]
    of [create_initial_state] when the name, the position, the grade or the
    experience is empty, and otherwise, when [MAX_TURNS] is positive, the
    exception in which the run of the graph ends, because the initial state
    holds no message and no stop command and the graph cycles between the
    interviewer and the mentor. After that exception the coach holds the
    initial state and its logger the candidate; nothing is logged. *)
Theorem start_interview_never_returns (limit : nat)
    (name position grade experience mode : str) (initial : option Z) :
  0 < Graph.MAX_TURNS ->
  match Main.start_interview limit name position grade experience mode
          initial with
  | None => name = [] \/ position = [] \/ grade = [] \/ experience = []
  | Some run =>
      name <> [] /\ position <> [] /\ grade <> [] /\ experience <> []
      /\ forall a : Main.App F,
           exists e st,
             fst (run a) = Raise e
             /\ Graph.create_initial_state (Some name) None (Some position)
                  None (Some grade) (Some experience) None mode initial
                = Some st
             /\ Main.state (Main.app_coach (snd (run a))) = Some st
             /\ Main.current_turn (Main.app_coach (snd (run a)))
                = Main.current_turn (Main.app_coach a)
             /\ Logger.log_turns (Main.logger (Main.app_coach (snd (run a))))
                = Logger.log_turns (Main.logger (Main.app_coach a))
  end.
Proof.
  intros Hmax. unfold Main.start_interview.
  destruct (Graph.create_initial_state (Some name) None (Some position) None
              (Some grade) (Some experience) None mode initial)
    as [st|] eqn:E.
  - assert (Hgo : goes_on st).
    { unfold Graph.create_initial_state in E.
      destruct name, position, experience, grade; cbn in E;
        try discriminate E.
      injection E as <-. unfold goes_on. cbn. repeat split. exact Hmax. }
    unfold Graph.create_initial_state in E.
    destruct name, position, experience, grade; cbn in E; try discriminate E.
    repeat (split; [discriminate|]).
    intros a.
    set (c1 := Main.set_logger
                 (Logger.set_candidate_info
                    (mkCandidate (n :: name) (n0 :: position) (n2 :: grade)
                       (n1 :: experience))
                    (Main.logger (Main.app_coach a)))
                 (Main.set_state (Some st) (Main.app_coach a))).
    match goal with
    | |- context [fst (?c a)] =>
        assert (Hc : exists e w', c a = (Raise e, Main.mkApp w' c1))
    end.
    { destruct (proj1 (run_cycles limit st (Main.app_world a) Hgo))
        as [e He].
      exists e, (snd (Graph.invoke limit st (Main.app_world a))).
      unfold bind at 1. unfold Main.assign at 1. unfold modify at 1.
      unfold bind at 1. unfold Main.assign at 1. unfold modify at 1.
      unfold bind at 1. rewrite graph_invoke_run.
      cbn [Main.app_world Main.app_coach] in He |- *.
      rewrite appended_in_place_none, put_thoughts_same
        by (injection E as <-; reflexivity).
      unfold Graph.invoke in *.
      destruct (Graph.run limit Graph.Interviewer st (Main.app_world a))
        as [[r|e'] w'] eqn:R; cbn [fst] in He; [discriminate He|].
      injection He as ->. reflexivity. }
    destruct Hc as (e & w' & ->). exists e, st. cbn. repeat split.
  - unfold Graph.create_initial_state in E.
    destruct name, position, experience, grade; cbn in E;
      try discriminate E; auto.
Qed.

Lemma assign_run {B} (f : Main.InterviewCoach -> Main.InterviewCoach)
    (k : unit -> M (Main.App F) B) (a : Main.App F) :
  bind (Main.assign f) k a
  = k tt (Main.mkApp (Main.app_world a) (f (Main.app_coach a))).
Proof. reflexivity. Qed.

Lemma this_run {B} (k : Main.InterviewCoach -> M (Main.App F) B)
    (a : Main.App F) :
  bind Main.this k a = k (Main.app_coach a) a.
Proof. reflexivity. Qed.

(** [process_response] up to the run of the graph. *)
Lemma process_response_run (limit : nat) (msg : str) (a : Main.App F)
    (st : Graph.InterviewState) :
  Main.state (Main.app_coach a) = Some st ->
  let turn := Main.current_turn (Main.app_coach a) + 1 in
  let c1 := Main.set_state (Some (handed msg turn st))
              (Main.set_current_turn turn (Main.app_coach a)) in
  let r := Graph.invoke limit (handed msg turn st) (Main.app_world a) in
  Main.process_response limit msg a
  = match fst r with
    | Raise e =>
        (Raise e,
         Main.mkApp (snd r)
           (Main.set_state
              (Some (Main.put_thoughts
                       (Graph.thoughts st
                        ++ Main.appended_in_place limit (handed msg turn st)
                             (Main.app_world a))
                       (handed msg turn st)))
              c1))
    | Ok result =>
        let st' :=
          Main.put_turns
            (Graph.turns result
             ++ [Graph.mkTurn turn (last_agent_message st) msg
                   (Logger.join (u " ")
                      (map Logger.thought_text
                         (Logger.last_n 2 (Graph.thoughts result))))])
            (Main.put_messages (Logger.last_n 3 (Graph.messages result))
               result) in
        let l1 := Logger.log_turn turn (last_agent_message st) msg
                    (Logger.last_n 2 (Graph.thoughts result))
                    (Main.logger (Main.app_coach a)) in
        (Ok match from_end 1 (Main.ai_messages
                                (Logger.last_n 3 (Graph.messages result))) with
            | Some m => m
            | None => u "Продолжим интервью."
            end,
         Main.mkApp (snd r)
           (Main.set_logger
              (if Graph.interview_finished result
               then Logger.set_final_feedback (Graph.final_feedback result) l1
               else l1)
              (Main.set_state (Some st') c1)))
    end.
Proof.
  intros Hst turn c1 r. unfold Main.process_response.
  rewrite this_run, Hst, !assign_run. unfold bind at 1.
  rewrite graph_invoke_run. cbn [Main.app_world Main.app_coach].
  fold turn. change (Main.put_messages _ (Main.put_current_turn turn _))
    with (handed msg turn st).
  fold r. destruct (fst r) as [result|e]; [|reflexivity].
  rewrite !assign_run. cbn [Main.app_world Main.app_coach].
  assert (Hth : (if (2 <=? List.length (Graph.thoughts result))%nat
                 then Logger.last_n 2 (Graph.thoughts result)
                 else Graph.thoughts result)
                = Logger.last_n 2 (Graph.thoughts result)).
  { destruct (Nat.leb_spec 2 (List.length (Graph.thoughts result)));
      [reflexivity|]. symmetry. apply last_n_short. lia. }
  cbn [Graph.thoughts Main.put_messages Main.put_turns Graph.messages
       Graph.interview_finished Graph.final_feedback Graph.turns].
  rewrite Hth. unfold when.
  destruct (Graph.interview_finished result); reflexivity.
Qed.

(** X21. On an ordinary answer [process_response] never returns. When the
    coach holds a state that is not finished, the message holds no stop
    command and the turn that begins is below [MAX_TURNS], the call ends
    in the exception of the run of the graph. It has by then counted the
    turn and written the message of the candidate into its state (of
    which it keeps the last three messages); it has logged nothing, so the
    turn is in neither the log nor the turns of the state. The list of
    thoughts of the state is the one that the graph was given, so it holds
    what the first mentor node of the run appended to it in place: nothing,
    or the one thought of the fact checker. *)
Theorem process_response_never_returns_on_answer (limit : nat) (msg : str)
    (a : Main.App F) (st : Graph.InterviewState) :
  Main.state (Main.app_coach a) = Some st ->
  Graph.interview_finished st = false ->
  any_in Graph.stop_commands (lower msg) = false ->
  Main.current_turn (Main.app_coach a) + 1 < Graph.MAX_TURNS ->
  let turn := Main.current_turn (Main.app_coach a) + 1 in
  let appended :=
    Main.appended_in_place limit (handed msg turn st) (Main.app_world a) in
  (exists e w',
     Main.process_response limit msg a
     = (Raise e,
        Main.mkApp w'
          (Main.set_state
             (Some (Main.put_thoughts (Graph.thoughts st ++ appended)
                      (handed msg turn st)))
             (Main.set_current_turn turn (Main.app_coach a)))))
  /\ (List.length appended <= 1)%nat
  /\ Forall (fun t => from_agent t = u "FactChecker_Agent") appended.
Proof.
  intros Hst Hf Hs Ht turn appended.
  split; [|exact (appended_in_place_inv limit _ (Main.app_world a))].
  rewrite (process_response_run limit msg a st Hst). cbv zeta.
  destruct (proj1 (run_cycles limit _ (Main.app_world a)
                     (handed_goes_on msg _ st Hf Hs Ht))) as [e He].
  unfold Graph.invoke. rewrite He. eexists. eexists. reflexivity.
Qed.

(** A run of the graph that is routed to the feedback, when it returns:
    the state with the answer of the interviewer and the report appended,
    finished, with the feedback. *)
Lemma invoke_feedback_state (limit : nat) (st st' : Graph.InterviewState)
    (w w' : World F) :
  (forall text, Graph.should_continue (replied text st) = Graph.Feedback) ->
  Graph.invoke limit st w = (Ok st', w') ->
  exists question report feedback,
    st' = Graph.mkState
            (Graph.messages st ++ [Graph.AIMessage question;
                                   Graph.AIMessage report])
            (Graph.candidate st) (Graph.turns st) (Graph.thoughts st)
            (Graph.current_turn st) (Graph.topics_covered st)
            (Graph.confirmed_skills st) (Graph.knowledge_gaps st)
            (Graph.red_flags st) (Graph.difficulty_level st)
            (Graph.correct_streak st) (Graph.difficulty_mode st)
            (Graph.difficulty_history st) true feedback.
Proof.
  intros Hroute. unfold Graph.invoke.
  destruct limit as [|limit]; [intros H; discriminate H|].
  rewrite run_interviewer.
  destruct (Graph.interviewer_node st w) as [[st1|e1] w1] eqn:E1;
    [|intros H; discriminate H].
  apply interviewer_node_inv in E1 as (question & request & -> & _).
  rewrite Hroute.
  destruct limit as [|limit]; [intros H; discriminate H|].
  destruct limit as [|limit].
  { destruct (run_feedback_last (replied question st) w1) as [_ [e He]].
    intros H. rewrite H in He. discriminate He. }
  rewrite run_feedback.
  destruct (Graph.feedback_node (replied question st) w1)
    as [[st2|e2] w2] eqn:E2; [|intros H; discriminate H].
  intros [= <- <-].
  apply feedback_node_ok in E2 as (report & feedback & ->).
  exists question, report, feedback. cbn. now rewrite <- app_assoc.
Qed.

(** X22. A stop command makes [process_response] return the report, and
    logs the turn with thoughts of earlier turns. When the coach holds a
    state that is not finished, the message holds a stop command and the
    call returns, the answer is the report of the feedback node; the state
    is finished and keeps three messages (the message of the candidate,
    the answer of the interviewer, which is never shown, and the report);
    the turn is counted, appended to the turns of the state and logged,
    with the last message of the interviewer before the call and, as no
    mentor ran, with the last two thoughts that the state already held;
    and the logger gets the final feedback of the state. *)
Theorem stop_command_returns_the_report (limit : nat) (msg resp : str)
    (a a' : Main.App F) (st : Graph.InterviewState) :
  Main.state (Main.app_coach a) = Some st ->
  Graph.interview_finished st = false ->
  any_in Graph.stop_commands (lower msg) = true ->
  Main.process_response limit msg a = (Ok resp, a') ->
  let turn := Main.current_turn (Main.app_coach a) + 1 in
  exists question st',
    Main.state (Main.app_coach a') = Some st'
    /\ Graph.messages st'
       = [Graph.HumanMessage msg; Graph.AIMessage question;
          Graph.AIMessage resp]
    /\ Graph.interview_finished st' = true
    /\ Graph.current_turn st' = turn
    /\ Graph.thoughts st' = Graph.thoughts st
    /\ Graph.turns st'
       = Graph.turns st
         ++ [Graph.mkTurn turn (last_agent_message st) msg
               (Logger.join (u " ")
                  (map Logger.thought_text
                     (Logger.last_n 2 (Graph.thoughts st))))]
    /\ Main.current_turn (Main.app_coach a') = turn
    /\ Main.logger (Main.app_coach a')
       = Logger.set_final_feedback (Graph.final_feedback st')
           (Logger.log_turn turn (last_agent_message st) msg
              (Logger.last_n 2 (Graph.thoughts st))
              (Main.logger (Main.app_coach a))).
Proof.
  intros Hst Hf Hs Hrun turn.
  rewrite (process_response_run limit msg a st Hst) in Hrun. cbv zeta in Hrun.
  fold turn in Hrun.
  destruct (Graph.invoke limit (handed msg turn st) (Main.app_world a))
    as [[result|e] w'] eqn:E; cbn [fst snd] in Hrun; [|discriminate Hrun].
  apply invoke_feedback_state in E as (question & report & feedback & ->).
  - cbn [Graph.messages Graph.thoughts Graph.turns Graph.interview_finished
         Graph.final_feedback handed Main.put_messages Main.put_current_turn]
      in Hrun.
    rewrite last_n_snoc in Hrun.
    assert (H3 : forall l : list Graph.base_message,
              Logger.last_n 3 ((l ++ [Graph.HumanMessage msg])
                               ++ [Graph.AIMessage question;
                                   Graph.AIMessage report])
              = [Graph.HumanMessage msg; Graph.AIMessage question;
                 Graph.AIMessage report]).
    { intros l. unfold Logger.last_n. rewrite <- app_assoc. cbn [app].
      rewrite length_app. cbn [List.length].
      replace (List.length l + 3 - 3)%nat with (List.length l + 0)%nat by lia.
      rewrite skipn_app, Nat.add_0_r, skipn_all.
      now replace (List.length l - List.length l)%nat with O by lia. }
    rewrite !H3 in Hrun. cbn in Hrun. injection Hrun as <- <-.
    exists question. eexists. cbn. repeat split.
  - intros text. rewrite should_continue_cases.
    cbn [Graph.interview_finished replied handed Main.put_messages
         Main.put_current_turn].
    rewrite Hf, asks_to_stop_replied. unfold asks_to_stop.
    rewrite handed_last_user_message, Hs. reflexivity.
Qed.

End MainRuns.

(* ===================================================================== *)
(** * The log rebuilt from a state *)
(* ===================================================================== *)

Lemma lookup_turn_snoc (k k' : Z) (ts : list thought)
    (d : list (Z * list thought)) :
  Logger.lookup_turn k (d ++ [(k', ts)])
  = match Logger.lookup_turn k d with
    | Some x => Some x
    | None => if k =? k' then Some ts else None
    end.
Proof.
  induction d as [|[k0 t0] d IH]; cbn; [reflexivity|].
  destruct (k =? k0); [reflexivity | exact IH].
Qed.

Lemma append_at_snoc (k : Z) (t : thought) (ts : list thought)
    (d : list (Z * list thought)) :
  Logger.lookup_turn k d = None ->
  Logger.append_at k t (d ++ [(k, ts)]) = d ++ [(k, ts ++ [t])].
Proof.
  induction d as [|[k0 t0] d IH]; cbn; intros H.
  - now rewrite Z.eqb_refl.
  - destruct (k =? k0); [discriminate H|]. now rewrite IH.
Qed.

(** The first loop of [create_log_from_state] files the thought at position
    [k] under the key [k], alone. *)
Lemma group_thoughts_spec (ths : list thought) :
  List.length (Logger.group_thoughts ths) = List.length ths
  /\ forall k : Z,
       Logger.lookup_turn k (Logger.group_thoughts ths)
       = option_map (fun t => [t]) (thought_of_turn ths k).
Proof.
  induction ths as [|t ths IH] using rev_ind.
  - split; [reflexivity|]. intros k. unfold thought_of_turn. cbn.
    destruct (1 <=? k); [|reflexivity]. now destruct (Z.to_nat (k - 1)).
  - destruct IH as [Hlen Hlook].
    unfold Logger.group_thoughts in *. rewrite fold_left_app. cbn [fold_left].
    set (d := fold_left _ ths []) in *.
    assert (Hnone : Logger.lookup_turn (Z.of_nat (List.length d) + 1) d = None).
    { rewrite Hlook, Hlen. unfold thought_of_turn.
      destruct (1 <=? Z.of_nat (List.length ths) + 1); [|reflexivity].
      replace (Z.to_nat (Z.of_nat (List.length ths) + 1 - 1))
        with (List.length ths) by lia.
      assert (Hn : nth_error ths (List.length ths) = None)
        by (apply nth_error_None; lia).
      now rewrite Hn. }
    rewrite Hnone, append_at_snoc by exact Hnone. cbn [app].
    split; [rewrite !length_app, Hlen; reflexivity|].
    intros k. rewrite lookup_turn_snoc, Hlook, Hlen.
    unfold thought_of_turn. destruct (Z.leb_spec 1 k) as [H1|H1].
    + destruct (Nat.lt_trichotomy (Z.to_nat (k - 1)) (List.length ths))
        as [Hlt | [Heq | Hgt]].
      * rewrite nth_error_app1 by exact Hlt.
        destruct (nth_error ths (Z.to_nat (k - 1))) eqn:En; [reflexivity|].
        apply nth_error_None in En. lia.
      * assert (Hn : nth_error ths (Z.to_nat (k - 1)) = None)
          by (apply nth_error_None; lia).
        rewrite Hn. cbn [option_map].
        replace (k =? Z.of_nat (List.length ths) + 1) with true
          by (symmetry; apply Z.eqb_eq; lia).
        rewrite nth_error_app2 by lia.
        replace (Z.to_nat (k - 1) - List.length ths)%nat with O by lia.
        reflexivity.
      * assert (Hn : nth_error ths (Z.to_nat (k - 1)) = None)
          by (apply nth_error_None; lia).
        rewrite Hn. cbn [option_map].
        replace (k =? Z.of_nat (List.length ths) + 1) with false
          by (symmetry; apply Z.eqb_neq; lia).
        assert (Hn' : nth_error (ths ++ [t]) (Z.to_nat (k - 1)) = None)
          by (apply nth_error_None; rewrite length_app; cbn; lia).
        now rewrite Hn'.
    + cbn [option_map].
      replace (k =? Z.of_nat (List.length ths) + 1) with false
        by (symmetry; apply Z.eqb_neq; lia).
      reflexivity.
Qed.

(** X23. The log that [create_log_from_state] rebuilds from a state gives
    every turn at most one thought, and not its own: the first loop files
    the k-th thought of the whole session under the key k, so the entry of
    the turn with id k shows the k-th thought of the session (as
    [[from]: content]) when the session has that many thoughts, and the
    text stored in the turn otherwise. The ids and the two messages of the
    turns are copied as they are, in order. *)
Theorem rebuilt_log_files_thoughts_by_position
    (state : Graph.InterviewState) (team_name : str) :
  Logger.log_turns (Logger.create_log_from_state state team_name)
  = map (fun turn =>
           Graph.mkTurn (Graph.turn_id turn)
             (Graph.agent_visible_message turn) (Graph.user_message turn)
             (match thought_of_turn (Graph.thoughts state)
                      (Graph.turn_id turn) with
              | Some t => Logger.thought_text t
              | None => Graph.internal_thoughts turn
              end))
        (Graph.turns state).
Proof.
  unfold Logger.create_log_from_state. cbn [Logger.log_turns].
  apply map_ext. intros turn.
  rewrite (proj2 (group_thoughts_spec (Graph.thoughts state))).
  destruct (thought_of_turn (Graph.thoughts state) (Graph.turn_id turn))
    as [t|]; reflexivity.
Qed.

(* ===================================================================== *)
(** * The coach: what a session accumulates *)
(* ===================================================================== *)

#[export] Instance accumulates_preorder : PreOrder accumulates.
Proof.
  split.
  - intros c. unfold accumulates.
    repeat split; first [reflexivity | lia | intros H; exact H].
  - intros a b c (H1 & H2 & H3 & H4 & H5 & H6 & H7 & H8 & H9)
      (G1 & G2 & G3 & G4 & G5 & G6 & G7 & G8 & G9).
    unfold accumulates.
    repeat split; first [etransitivity; eassumption | lia | auto].
Qed.

Ltac grow_upd :=
  unfold accumulates; split_ifs; unfold_setters;
  repeat split;
  first [ reflexivity | eexists; reflexivity | lia | intros H; exact H
        | intros _; reflexivity ].

Section Accumulation.

Context {py : PyLib} {F : Type} {fa : FloatArith F} {tx : Texts}.

Lemma process_accumulates msg :
  keeps (@on_coach F accumulates) (process msg).
Proof.
  unfold process, _gen_feedback, escalate, adapt, _adjust_difficulty.
  keeps_coach grow_upd.
Qed.

Lemma start_accumulates name position grade exp :
  keeps (@on_coach F accumulates) (start name position grade exp).
Proof. unfold start. keeps_coach grow_upd. Qed.

(** X24. A coach only accumulates. Whatever calls of [start] and of
    [process] lead from one state to a later one, returning or raising,
    nothing that the coach records is removed or rewritten: the dialogue,
    the turn log, the thoughts, the red flags, the difficulty history, the
    topics and the questions of the later state are those of the earlier
    one with entries appended, the turn counter is not lower, and a session
    that was finished is still finished. In particular [start] does not
    begin afresh on a coach that has been used. *)
Theorem coach_only_accumulates (s s' : Sys F) :
  follows s s' -> accumulates (coach s) (coach s').
Proof.
  induction 1 as [|s' name position grade exp _ IH | s' msg _ IH].
  - reflexivity.
  - etransitivity; [exact IH|].
    apply (start_accumulates name position grade exp s').
  - etransitivity; [exact IH|]. apply (process_accumulates msg s').
Qed.

End Accumulation.
(* ===================================================================== *)
(** * Worked runs *)
(* ===================================================================== *)

Module Runs.

Import Demo Sessions.

(** The texts of the oracle are the JSON texts they are meant to be. *)
Example good_answer_text :
  dumps good_answer
  = u "{" ++ [quote] ++ u "is_correct" ++ [quote] ++ u ": true, " ++
    [quote] ++ u "correctness_score" ++ [quote] ++ u ": 90, " ++
    [quote] ++ u "difficulty_recommendation" ++ [quote] ++ u ": " ++
    [quote] ++ u "maintain" ++ [quote] ++ u "}".
Proof. reflexivity. Qed.

Example extract_good_answer :
  extract_json (u "```json" ++ [newline] ++ dumps good_answer ++ [newline]
                ++ u "```")
  = good_answer.
Proof. vm_compute. reflexivity. Qed.

Example trailing_fence_before_newline :
  sub_trailing_fence (u "abc " ++ [newline] ++ u "```" ++ [newline])
  = u "abc" ++ [newline]
  /\ sub_trailing_fence (u "abc ``` ```") = u "abc ```".
Proof. split; reflexivity. Qed.

Example braces_span :
  search_braces (u "x } { a } b { c") = Some (u "{ a }")
  /\ search_braces (u "} {") = None.
Proof. split; reflexivity. Qed.

Example extract_prose :
  extract_json (u "I am not able to answer in JSON.") = empty_record.
Proof. vm_compute. reflexivity. Qed.


(** Scenario 1 of the specification: grade Junior gives level 3 and the
    history [3]. *)
Example junior_starts_at_3 :
  difficulty (coach started) = 3 /\ difficulty_history (coach started) = [3].
Proof. vm_compute. split; reflexivity. Qed.

(** Scenario 2: a correct answer with score 95 and the recommendation
    [increase] takes the level from 3 to 4 and leaves the streak at 0. *)
Example excellent_answer_raises :
  difficulty (coach after_excellent_answer) = 4
  /\ correct_streak (coach after_excellent_answer) = 0
  /\ difficulty_history (coach after_excellent_answer) = [3; 4].
Proof. vm_compute. repeat split; reflexivity. Qed.

(** Scenario 3: the second of two correct answers with score 90 and the
    recommendation [maintain] raises the level by the streak rule. *)
Example second_good_answer_raises :
  difficulty (coach after_two_good_answers) = 4
  /\ correct_streak (coach after_two_good_answers) = 0.
Proof. vm_compute. repeat split; reflexivity. Qed.

(** C2, the graph controller. The candidate's answer is graded incorrect
    with a score of 20 and the mentor recommends [increase]: [mentor_node]
    raises the level from 3 to 4 and logs it. The adapter of the coach on
    the same analysis lowers the level instead. *)
Theorem graph_raises_level_on_incorrect_answer :
  verdict_correct wrong_but_increase = false
  /\ recommends wrong_but_increase (u "increase") = true
  /\ Graph.difficulty_level graph_answered = 3
  /\ (exists st' w',
        Graph.mentor_node graph_answered (fresh_world oracle_4) = (Ok st', w')
        /\ Graph.difficulty_level st' = 4
        /\ Graph.difficulty_history st' = [3; 4])
  /\ (exists s',
        _adjust_difficulty wrong_but_increase started = (Ok tt, s')
        /\ difficulty (coach s') = 2).
Proof.
  split; [reflexivity|]. split; [reflexivity|]. split; [reflexivity|].
  split.
  - eexists. eexists. split; [vm_compute; reflexivity|].
    split; reflexivity.
  - eexists. split; [vm_compute; reflexivity|]. reflexivity.
Qed.

(** C3, the coach. The message speaks of Python 4.0 and the mentor's
    analysis does not set the hallucination flag: [process] returns without
    entering the fact checker and adds no red flag. The gate of the graph
    controller fires on the same analysis and message. *)
Theorem coach_skips_fact_check_of_python4 :
  contains (u "python 4") (lower python4_message) = true
  /\ yields (world started_2) 0 = Some plain_answer
  /\ fst (process python4_message started_2) = Ok (u "Понятно.")
  /\ entered (trace (world (snd (process python4_message started_2))))
     = [ InterviewerRespond; MentorAnalyze; DetectEdgeCase; AdjustDifficulty;
         InterviewerRespond ]
  /\ red_flags (coach (snd (process python4_message started_2))) = []
  /\ Graph.should_fact_check plain_answer python4_message = Ok true.
Proof. vm_compute. repeat split; reflexivity. Qed.

(** C4, the coach. After a turn with a good answer the streak is 1. The
    turn "не знаю" that follows is classified [dont_know]; the mentor
    grades it not correct, with a score of 50; [process] lowers the level
    on it and leaves the streak at 1, where the claim has 0, because it
    runs [_adjust_difficulty], which resets the streak, on the turns
    without an edge case only. On the same message and analysis
    [mentor_node] of the graph controller, with a streak of 1, resets the
    streak to 0. *)
Theorem coach_keeps_streak_on_dont_know :
  correct_streak (coach after_good_answer) = 1
  /\ yields (world after_good_answer) 0 = Some plain_answer
  /\ correct_with_high_score plain_answer = false
  /\ fst (process (u "не знаю") after_good_answer) = Ok (u "Ничего страшного.")
  /\ latest_edge_case (coach after_dont_know) = Some DontKnow
  /\ difficulty (coach after_good_answer) = 3
  /\ difficulty (coach after_dont_know) = 2
  /\ correct_streak (coach after_dont_know) = 1
  /\ correct_streak (coach after_dont_know) <> 0
  /\ Graph.correct_streak graph_dont_know = 1
  /\ (exists st' w',
        Graph.mentor_node graph_dont_know
          (fresh_world [Replies (dumps plain_answer)]) = (Ok st', w')
        /\ Graph.correct_streak st' = 0).
Proof.
  split; [vm_compute; reflexivity|]. split; [vm_compute; reflexivity|].
  split; [vm_compute; reflexivity|]. split; [vm_compute; reflexivity|].
  split; [vm_compute; reflexivity|]. split; [vm_compute; reflexivity|].
  split; [vm_compute; reflexivity|]. split; [vm_compute; reflexivity|].
  split; [vm_compute; discriminate|]. split; [vm_compute; reflexivity|].
  eexists. eexists. split; [vm_compute; reflexivity|]. reflexivity.
Qed.

(** C6 as the specification states it fails: a message of two capitals I
    with a dot above has a trimmed length of 2, but [str.lower] makes four
    code points of it, which is what [_detect_edge_case] measures; the
    message is not classified [silence], and with the flag [is_dont_know]
    of the oracle it is reported as [dont_know]. *)
Lemma dotted_capitals_are_not_silence :
  str_len (strip dotted_capitals) = 2
  /\ str_len (strip dotted_capitals) < 3
  /\ str_len (strip (@lower py_dotted dotted_capitals)) = 4
  /\ @_detect_edge_case py_dotted dotted_capitals plain_answer = Ok None
  /\ @_detect_edge_case py_dotted dotted_capitals says_dont_know
     = Ok (Some DontKnow)
  /\ @_detect_edge_case py_dotted dotted_capitals says_dont_know
     <> Ok (Some Silence).
Proof.
  split; [reflexivity|]. split; [reflexivity|]. split; [reflexivity|].
  split; [vm_compute; reflexivity|]. split; [vm_compute; reflexivity|].
  vm_compute. discriminate.
Qed.

(** C9, the coach. The mentor sets the hallucination flag and the fact
    checker answers its three attempts with prose, from which no JSON can be
    extracted: [process] appends a red flag all the same, because
    [FactCheckerAgent.check] puts a record with [is_true] false in place of
    the empty one. The fact check of the graph controller appends nothing on
    such an answer. *)
Theorem coach_flags_unverified_statement :
  yields (world started_3) 0 = Some flagged_answer
  /\ yields (world started_3) 1 = None
  /\ yields (world started_3) 2 = None
  /\ yields (world started_3) 3 = None
  /\ red_flags (coach started_3) = []
  /\ fst (process unverifiable_statement started_3) = Ok (u "Понятно.")
  /\ red_flags (coach (snd (process unverifiable_statement started_3)))
     = [u "ГАЛЛЮЦИНАЦИЯ: Не удалось проверить утверждение. Правильная информация: "]
  /\ fst (Graph.fact_check_flags unverifiable_statement (fresh_world [prose]))
     = Ok ([], []).
Proof. vm_compute. repeat split; reflexivity. Qed.

(** The fact check of the coach on a verdict: a statement reported true
    adds nothing, a statement reported false adds a red flag with the
    explanation and the correct information. *)
Example coach_fact_check_verdicts :
  red_flags (coach (snd (process unverifiable_statement checked_true))) = []
  /\ red_flags (coach (snd (process unverifiable_statement checked_false)))
     = [u "ГАЛЛЮЦИНАЦИЯ: Python 4.0 does not exist. Правильная информация: The current major version is 3"].
Proof. vm_compute. split; reflexivity. Qed.

(** C10, the coach. A turn with a good answer and the recommendation
    [maintain] leaves the level at 3, and [_adjust_difficulty] appends 3 to
    the history all the same. On the same analysis [mentor_node] of the
    graph controller, which appends on a change only, leaves the history at
    [3]. *)
Theorem coach_appends_unchanged_level :
  difficulty (coach started) = 3
  /\ difficulty_history (coach started) = [3]
  /\ yields (world started) 0 = Some good_answer
  /\ fst (process (u "Список - это изменяемая коллекция") started)
     = Ok (u "Хорошо. Что такое декоратор?")
  /\ difficulty (coach after_good_answer) = 3
  /\ difficulty_history (coach after_good_answer) = [3; 3]
  /\ (exists st' w',
        Graph.mentor_node graph_answered
          (fresh_world [Replies (dumps good_answer)]) = (Ok st', w')
        /\ Graph.difficulty_level st' = 3
        /\ Graph.difficulty_history st' = [3]).
Proof.
  split; [reflexivity|]. split; [reflexivity|].
  split; [vm_compute; reflexivity|]. split; [vm_compute; reflexivity|].
  split; [vm_compute; reflexivity|]. split; [vm_compute; reflexivity|].
  eexists. eexists. split; [vm_compute; reflexivity|]. split; reflexivity.
Qed.

End Runs.

(* ===================================================================== *)
(** * The theorems at the worked sessions *)
(* ===================================================================== *)

Import Demo.

(** The bounds at the session of the coach with the good answer and
    "не знаю", and at the initial states of the graph with a derived and
    with a supplied level. *)
Lemma difficulty_level_in_range_witness :
  1 <= difficulty (coach Sessions.after_dont_know) <= 10
  /\ 1 <= difficulty (coach Sessions.started) <= 10
  /\ 1 <= Graph.difficulty_level Sessions.graph_started <= 10
  /\ Graph.difficulty_level Sessions.graph_supplied
     = Z.max 1 (Z.min 10 42).
Proof.
  pose proof (@difficulty_level_in_range Demo.py Q _ Demo.texts Demo.config)
    as (H1 & H2 & H3 & H4).
  split; [|split; [|split]].
  - apply H1. unfold Sessions.after_dont_know, Sessions.after_good_answer,
      Sessions.started.
    apply reach_process, reach_process, reach_start, reach_new.
  - apply H2.
  - apply H3.
    apply (@greach_init Demo.py Q _ Demo.config
             (Some (u "Алекс")) None (Some (u "Backend Developer"))
             None (Some (u "Junior")) (Some (u "Пет-проекты на Django")) None
             (u "adaptive") None Sessions.graph_started).
    vm_compute. reflexivity.
  - apply (H4 (Some (u "Алекс")) None (Some (u "Backend Developer")) None
             (Some (u "Junior")) (Some (u "Пет-проекты на Django")) None
             (u "adaptive") 42 Sessions.graph_supplied).
    vm_compute. reflexivity.
Defined.

(** The override at the turn "не знаю" of that session. *)
Lemma edge_case_overrides_scoring_witness :
  difficulty (coach Sessions.after_dont_know)
  = Z.max 1 (difficulty (coach Sessions.after_good_answer) - 1)
  /\ (exists s' : Sys Q,
        adapt (Some Silence) Demo.good_answer Sessions.started = (Ok tt, s')
        /\ difficulty (coach s') = Z.max 1 (difficulty (coach Sessions.started) - 1))
  /\ adapt (Some Rude) Demo.good_answer Sessions.started
     = (Ok tt, Sessions.started).
Proof.
  pose proof (@edge_case_overrides_scoring Demo.py Q _ Demo.texts)
    as (H1 & H2 & H3).
  split; [|split].
  - destruct (H3 (u "не знаю") Sessions.after_good_answer
                Sessions.after_dont_know (u "Ничего страшного."))
      as [Hlow _];
      [vm_compute; reflexivity | vm_compute; reflexivity |].
    apply Hlow. left. vm_compute. reflexivity.
  - destruct (H1 Silence Demo.good_answer Sessions.started
                (or_intror eq_refl)) as (s' & Hrun & Hd & _).
    exists s'. split; assumption.
  - apply H2. left. reflexivity.
Defined.

(** The classifier on a lone full stop, on a two-letter message with an
    analysis that is not a record, and on messages with and without a
    non-answer phrase. *)
Lemma classifier_first_match_wins_witness :
  _detect_edge_case (u " . ") Demo.flagged_answer = Ok (Some Silence)
  /\ _detect_edge_case (u "ok") (VInt 7) = Ok (Some Silence)
  /\ rule_silence (strip (lower (u "Не знаю, пропустить"))) = false
  /\ rule_silence (strip (lower (u "..."))) = true.
Proof.
  pose proof (@classifier_first_match_wins Demo.py) as (_ & H2 & H3 & H4).
  split; [|split; [|split]].
  - apply H2. vm_compute. reflexivity.
  - apply H2. vm_compute. reflexivity.
  - apply (H3 (u "Не знаю, пропустить") Demo.plain_answer DontKnow).
    + vm_compute. reflexivity.
    + discriminate.
  - apply (H4 (u "...") Demo.plain_answer). vm_compute. reflexivity.
Defined.

(** The stop command as the first message of the candidate, in the coach
    and in the graph. *)
Lemma stop_command_goes_to_feedback_witness :
  finished (coach (snd (process Sessions.stop_message Sessions.started)))
  = true
  /\ same_difficulty_state (coach Sessions.started)
       (coach (snd (process Sessions.stop_message Sessions.started)))
  /\ Graph.should_continue Sessions.graph_stopping = Graph.Feedback
  /\ emits_only (entering_only [InterviewerRespond; FeedbackGenerate])
       (Demo.fresh_world [Demo.greeting; Demo.prose])
       (snd (Graph.invoke 25 Sessions.graph_stopping
               (Demo.fresh_world [Demo.greeting; Demo.prose])))
  /\ entered (trace (snd (Graph.invoke 25 Sessions.graph_stopping
                            (Demo.fresh_world [Demo.greeting; Demo.prose]))))
     = [InterviewerRespond; FeedbackGenerate]
  /\ Graph.invoke 25 Sessions.graph_stopping
       (Demo.fresh_world [Demo.greeting; Demo.prose])
     = Graph.feedback_node
         (replied (u "Расскажите о себе.") Sessions.graph_stopping)
         (snd (Graph.interviewer_node Sessions.graph_stopping
                 (Demo.fresh_world [Demo.greeting; Demo.prose]))).
Proof.
  pose proof (@stop_command_goes_to_feedback Demo.py Q _ Demo.texts Demo.config)
    as (H1 & H2 & _ & H4).
  destruct (H1 Sessions.stop_message Sessions.started)
    as (_ & _ & _ & Hsame & _ & Hfin); [vm_compute; reflexivity|].
  destruct (H2 Sessions.graph_stopping Sessions.stop_message)
    as (Hroute & Hrun);
    [vm_compute; reflexivity | vm_compute; reflexivity
     | vm_compute; reflexivity |].
  destruct (H4 Sessions.graph_stopping
              (replied (u "Расскажите о себе.") Sessions.graph_stopping)
              (Demo.fresh_world [Demo.greeting; Demo.prose])
              (snd (Graph.interviewer_node Sessions.graph_stopping
                      (Demo.fresh_world [Demo.greeting; Demo.prose])))
              Sessions.stop_message 22%nat)
    as (Hfeed & _ & _ & Hentered);
    [vm_compute; reflexivity | vm_compute; reflexivity
     | vm_compute; reflexivity | vm_compute; reflexivity |].
  split; [exact Hfin|]. split; [exact Hsame|]. split; [exact Hroute|].
  split;
    [exact (proj1 (Hrun 25%nat (Demo.fresh_world [Demo.greeting; Demo.prose])))|].
  split; [exact Hentered | exact Hfeed].
Defined.

(** The state of the graph at the first answer of the candidate is a state
    of a session. *)
Lemma graph_answered_reachable :
  @graph_reachable Demo.py Q _ Demo.config Sessions.graph_answered.
Proof.
  apply greach_dialogue.
  apply (@greach_init Demo.py Q _ Demo.config
           (Some (u "Алекс")) None (Some (u "Backend Developer"))
           None (Some (u "Junior")) (Some (u "Пет-проекты на Django")) None
           (u "adaptive") None Sessions.graph_started).
  vm_compute. reflexivity.
Qed.


(** The run of the graph on the first answer of the candidate, with an oracle
    that answers. *)
Lemma graph_run_never_returns_on_answer_witness :
  Graph.should_continue Sessions.graph_answered = Graph.Mentor
  /\ exists e,
       fst (Graph.invoke 25 Sessions.graph_answered
              (Demo.fresh_world [Demo.greeting;
                                 Replies (Demo.dumps Demo.good_answer)]))
       = Raise e.
Proof.
  destruct (@graph_run_never_returns_on_answer Demo.py Q _ Demo.config
              Sessions.graph_answered) as (Hroute & _ & Hrun);
    [vm_compute; reflexivity | vm_compute; reflexivity
     | vm_compute; reflexivity |].
  split; [exact Hroute|]. apply Hrun.
Defined.

(** A run of the graph on the session that the stop command has finished,
    under the recursion limits 25 and 1. *)
Lemma finished_session_gets_one_more_reply_witness :
  Graph.invoke 25 Sessions.graph_finished (Demo.fresh_world [Demo.greeting])
  = Graph.interviewer_node Sessions.graph_finished
      (Demo.fresh_world [Demo.greeting])
  /\ exists e,
       fst (Graph.invoke 1 Sessions.graph_finished
              (Demo.fresh_world [Demo.greeting])) = Raise e.
Proof.
  destruct (@finished_session_gets_one_more_reply Demo.py Q _ Demo.config
              Sessions.graph_finished 23 (Demo.fresh_world [Demo.greeting]))
    as (Heq & _ & _ & Hraise); [vm_compute; reflexivity|].
  split; [exact Heq | exact Hraise].
Defined.

(** A run of the graph on a state whose turn counter is 10. *)
Lemma turn_limit_goes_to_feedback_witness :
  Graph.should_continue Sessions.graph_at_limit = Graph.Feedback
  /\ emits_only (entering_only [InterviewerRespond; FeedbackGenerate])
       (Demo.fresh_world [Demo.greeting; Demo.prose])
       (snd (Graph.invoke 25 Sessions.graph_at_limit
               (Demo.fresh_world [Demo.greeting; Demo.prose]))).
Proof.
  destruct (@turn_limit_goes_to_feedback Demo.py Q _ Demo.config
              Sessions.graph_at_limit) as (Hroute & Hrun);
    [vm_compute; reflexivity | vm_compute; discriminate |].
  split; [exact Hroute|].
  exact (proj1 (Hrun 25%nat (Demo.fresh_world [Demo.greeting; Demo.prose]))).
Defined.

(** The thoughts after the turn in which the fact checker reports the
    statement false. *)
Lemma interviewer_hears_the_mentor_witness :
  exists th fc_thoughts,
    Graph.thoughts Sessions.graph_checked
    = Graph.thoughts Sessions.graph_answered ++ fc_thoughts ++ [th]
    /\ from_agent th = u "Mentor_Agent"
    /\ to_agent th = u "Interviewer_Agent"
    /\ (List.length fc_thoughts <= 1)%nat.
Proof.
  destruct (@interviewer_hears_the_mentor Demo.py Q _ Demo.config
              Sessions.graph_answered (Demo.fresh_world Sessions.oracle_5)
              Sessions.graph_checked
              (snd (Graph.mentor_node Sessions.graph_answered
                      (Demo.fresh_world Sessions.oracle_5)))
              (u "Список - это неизменяемая коллекция"))
    as (th & fc & H1 & H2 & H3 & H4 & _);
    [vm_compute; reflexivity | vm_compute; reflexivity |].
  exists th, fc. repeat split; assumption.
Defined.

(** The analysis and the gate of that turn. *)
Lemma graph_flags_false_verdicts_only_witness :
  exists analysis w1 fire,
    Graph.analyze Sessions.graph_answered
      (u "Список - это неизменяемая коллекция") (Demo.fresh_world Sessions.oracle_5)
    = (Ok analysis, w1)
    /\ Graph.should_fact_check analysis
         (u "Список - это неизменяемая коллекция") = Ok fire.
Proof.
  destruct (@graph_flags_false_verdicts_only Demo.py Q _ Demo.config
              Sessions.graph_answered (Demo.fresh_world Sessions.oracle_5)
              Sessions.graph_checked
              (snd (Graph.mentor_node Sessions.graph_answered
                      (Demo.fresh_world Sessions.oracle_5)))
              (u "Список - это неизменяемая коллекция"))
    as (analysis & w1 & fire & H1 & H2 & _);
    [vm_compute; reflexivity | vm_compute; reflexivity |].
  exists analysis, w1, fire. split; assumption.
Defined.

(** The topics after that turn. *)
Lemma graph_topics_are_distinct_witness :
  NoDup (Graph.topics_covered Sessions.graph_checked)
  /\ Forall (fun t => t <> []) (Graph.topics_covered Sessions.graph_checked).
Proof.
  apply (@graph_topics_are_distinct Demo.py Q _ Demo.config Sessions.graph_checked).
  apply (@greach_node Demo.py Q _ Demo.config Graph.Mentor Graph.Interviewer
           Sessions.graph_answered Sessions.graph_checked (Demo.fresh_world Sessions.oracle_5)
           (snd (Graph.mentor_node Sessions.graph_answered
                   (Demo.fresh_world Sessions.oracle_5)))).
  - exact graph_answered_reachable.
  - vm_compute. reflexivity.
Defined.

(** The mentor node in the mode [fixed], on an answer graded 95 with the
    recommendation [increase]. *)
Lemma fixed_mode_freezes_difficulty_witness :
  Graph.difficulty_level Sessions.graph_fixed_graded
  = Graph.difficulty_level Sessions.graph_fixed_answered
  /\ Graph.correct_streak Sessions.graph_fixed_graded
     = Graph.correct_streak Sessions.graph_fixed_answered
  /\ Graph.difficulty_history Sessions.graph_fixed_graded
     = Graph.difficulty_history Sessions.graph_fixed_answered.
Proof.
  apply (@fixed_mode_freezes_difficulty Demo.py Q _ Demo.config Graph.Mentor
           Sessions.graph_fixed_answered
           (Demo.fresh_world [Replies (Demo.dumps Demo.excellent_answer)])
           Graph.Interviewer Sessions.graph_fixed_graded
           (snd (Graph.mentor_node Sessions.graph_fixed_answered
                   (Demo.fresh_world
                      [Replies (Demo.dumps Demo.excellent_answer)])))).
  - apply greach_dialogue.
    apply (@greach_init Demo.py Q _ Demo.config
             (Some (u "Алекс")) None (Some (u "Backend Developer"))
             None (Some (u "Junior")) (Some (u "Пет-проекты на Django")) None
             (u "fixed") None Sessions.graph_fixed).
    vm_compute. reflexivity.
  - vm_compute. reflexivity.
  - vm_compute. reflexivity.
Defined.

(** The mentor node when the oracle answers its request with prose. *)
Lemma graph_mentor_survives_prose_witness :
  exists st',
    fst (Graph.mentor_node Sessions.graph_answered
           (Demo.fresh_world [Demo.prose])) = Ok st'
    /\ Graph.difficulty_level st'
       = Graph.difficulty_level Sessions.graph_answered
    /\ Graph.correct_streak st' = 0
    /\ Graph.red_flags st' = Graph.red_flags Sessions.graph_answered.
Proof.
  destruct (@graph_mentor_survives_prose Demo.py Q _ Demo.config
              Sessions.graph_answered
              (u "Список - это неизменяемая коллекция")
              (u "mentor: " ++ u "Список - это неизменяемая коллекция")
              (u "I am not able to answer in JSON.")
              (Demo.fresh_world [Demo.prose]))
    as (st' & Hrun & Hl & _ & Hs & Hf & _).
  - exact graph_answered_reachable.
  - vm_compute. reflexivity.
  - vm_compute. reflexivity.
  - vm_compute. reflexivity.
  - vm_compute. reflexivity.
  - vm_compute. reflexivity.
  - vm_compute. reflexivity.
  - exists st'. rewrite Hrun. repeat split; assumption.
Defined.

(** The turn of the coach that follows the good answer. *)
Lemma process_moves_level_by_at_most_one_witness :
  Z.abs (difficulty (coach Sessions.after_dont_know)
         - difficulty (coach Sessions.after_good_answer)) <= 1.
Proof.
  unfold Sessions.after_dont_know.
  apply (@process_moves_level_by_at_most_one Demo.py Q _ Demo.texts
           (u "не знаю") Sessions.after_good_answer).
  unfold Sessions.after_good_answer, Sessions.started.
  apply reach_process, reach_start, reach_new.
Defined.

(** The turn of the coach with the good answer. *)
Lemma process_records_the_turn_witness :
  turn_num (coach Sessions.after_good_answer)
  = turn_num (coach Sessions.started) + 1
  /\ history (coach Sessions.after_good_answer)
     = history (coach Sessions.started)
       ++ [mkMessage User (u "Список - это изменяемая коллекция");
           mkMessage Assistant (u "Хорошо. Что такое декоратор?")].
Proof.
  destruct (@process_records_the_turn Demo.py Q _ Demo.texts
              (u "Список - это изменяемая коллекция") Sessions.started
              Sessions.after_good_answer (u "Хорошо. Что такое декоратор?"))
    as (H1 & H2 & _);
    [vm_compute; reflexivity | vm_compute; reflexivity |].
  split; assumption.
Defined.

(** The turn of the coach when the oracle answers the mentor with the JSON
    number 7. *)
Lemma process_raises_on_analysis_that_is_no_record_witness :
  fst (@process Sessions.py_number Q _ Demo.texts
         (u "Список - это изменяемая коллекция") Sessions.started_number)
  = Raise AttributeError
  /\ served (world (snd (@process Sessions.py_number Q _ Demo.texts
                           (u "Список - это изменяемая коллекция")
                           Sessions.started_number)))
     = S (served (world Sessions.started_number)).
Proof.
  destruct (@process_raises_on_analysis_that_is_no_record Sessions.py_number Q _
              Demo.texts (u "Список - это изменяемая коллекция")
              (u "mentor: " ++ u "Список - это изменяемая коллекция")
              (VInt 7) Sessions.started_number) as (H1 & _ & H3);
    [vm_compute; reflexivity | vm_compute; reflexivity
     | vm_compute; reflexivity | discriminate |].
  split; assumption.
Defined.

(** The feedback when the oracle answers three times with prose. *)
Lemma feedback_always_names_resources_witness :
  exists d roadmap resources,
    fst (feedback_generate [] [] None [3] []
           (mkSys (Demo.fresh_world [Demo.prose; Demo.prose; Demo.prose])
                  new_coach)) = Ok (VDict d)
    /\ assoc (u "roadmap") d = Some (VDict roadmap)
    /\ assoc (u "resources") roadmap = Some resources
    /\ truthy resources = true.
Proof.
  destruct (@feedback_always_names_resources Demo.py Q _ Demo.texts
              [] [] None [3] []
              (mkSys (Demo.fresh_world [Demo.prose; Demo.prose; Demo.prose])
                     new_coach)
              (snd (feedback_generate [] [] None [3] []
                      (mkSys (Demo.fresh_world
                                [Demo.prose; Demo.prose; Demo.prose])
                             new_coach)))
              (default_feedback [3]))
    as (d & roadmap & resources & H1 & H2 & H3 & H4);
    [vm_compute; reflexivity |].
  exists d, roadmap, resources.
  split; [rewrite <- H1; vm_compute; reflexivity|].
  repeat split; assumption.
Defined.

(** The stop command when the oracle answers the feedback request with a
    record without a [roadmap]. *)
Lemma stop_without_roadmap_raises_witness :
  fst (process Sessions.stop_message Sessions.started_no_roadmap) = Raise KeyError
  /\ finished (coach (snd (process Sessions.stop_message Sessions.started_no_roadmap)))
     = true.
Proof.
  destruct (@stop_without_roadmap_raises Demo.py Q _ Demo.texts
              Sessions.stop_message (u "feedback")
              [ (u "is_correct", VBool true);
                (u "correctness_score", VInt 90);
                (u "difficulty_recommendation", VStr (u "maintain")) ]
              Sessions.started_no_roadmap) as (H1 & H2 & _);
    [vm_compute; reflexivity | vm_compute; reflexivity
     | vm_compute; reflexivity | vm_compute; reflexivity |].
  split; assumption.
Defined.


(** The record of the good answer inside prose and a Markdown fence. *)
Lemma extract_json_finds_the_object_witness :
  extract_json (Sessions.answer_before ++ lbrace :: Sessions.answer_inside
                  ++ rbrace :: Sessions.answer_after)
  = Demo.good_answer.
Proof.
  apply (@extract_json_finds_the_object Demo.py Sessions.answer_before Sessions.answer_inside
           Sessions.answer_after Demo.good_answer).
  - vm_compute. intuition discriminate.
  - vm_compute. intuition discriminate.
  - vm_compute. reflexivity.
Defined.

(** [start_interview] for the candidate of the worked sessions. *)
Lemma start_interview_never_returns_witness :
  match Main.start_interview 25 (u "Алекс") (u "Backend Developer")
          (u "Junior") (u "Пет-проекты на Django") (u "adaptive") None with
  | None => False
  | Some run => exists e, fst (run Sessions.app_new) = Raise e
  end.
Proof.
  pose proof (@start_interview_never_returns Demo.py Q _ Demo.config 25
                (u "Алекс") (u "Backend Developer") (u "Junior")
                (u "Пет-проекты на Django") (u "adaptive") None) as H.
  destruct (Main.start_interview 25 (u "Алекс") (u "Backend Developer")
              (u "Junior") (u "Пет-проекты на Django") (u "adaptive") None)
    as [run|].
  - destruct H as (_ & _ & _ & _ & Hrun); [vm_compute; reflexivity|].
    destruct (Hrun Sessions.app_new) as (e & st & He & _).
    exists e. exact He.
  - destruct H as [H | [H | [H | H]]];
      [vm_compute; reflexivity | discriminate H ..].
Defined.

(** An answer of the candidate to the coach on the graph that the mentor
    flags and the fact checker reports false: the call raises, and the
    state of the coach has got the thought of the fact checker. *)
Lemma process_response_never_returns_on_answer_witness :
  (exists e, fst (Main.process_response 25 Sessions.unverifiable_statement
                    Sessions.app_flagged) = Raise e)
  /\ (List.length
        (Main.appended_in_place 25
           (handed Sessions.unverifiable_statement 1 Sessions.graph_started)
           (Main.app_world Sessions.app_flagged)) <= 1)%nat
  /\ option_map (fun st => List.length (Graph.thoughts st))
       (Main.state (Main.app_coach
                      (snd (Main.process_response 25
                              Sessions.unverifiable_statement
                              Sessions.app_flagged))))
     = Some 1%nat.
Proof.
  destruct (@process_response_never_returns_on_answer Demo.py Q _ Demo.config
              25 Sessions.unverifiable_statement Sessions.app_flagged
              Sessions.graph_started) as ((e & w' & Hrun) & Hlen & _);
    [vm_compute; reflexivity | vm_compute; reflexivity
     | vm_compute; reflexivity | vm_compute; reflexivity |].
  split; [exists e; rewrite Hrun; reflexivity|].
  split; [exact Hlen | vm_compute; reflexivity].
Defined.

(** The stop command as the first message to the coach on the graph. *)
Lemma stop_command_returns_the_report_witness :
  exists question st',
    Main.state (Main.app_coach
                  (snd (Main.process_response 25 Sessions.stop_message
                          Sessions.app_started))) = Some st'
    /\ Graph.messages st'
       = [Graph.HumanMessage Sessions.stop_message;
          Graph.AIMessage question; Graph.AIMessage (u "report")]
    /\ Graph.interview_finished st' = true.
Proof.
  destruct (@stop_command_returns_the_report Demo.py Q _ Demo.config 25
              Sessions.stop_message (u "report") Sessions.app_started
              (snd (Main.process_response 25 Sessions.stop_message
                      Sessions.app_started))
              Sessions.graph_started)
    as (question & st' & H1 & H2 & H3 & _);
    [vm_compute; reflexivity | vm_compute; reflexivity
     | vm_compute; reflexivity | vm_compute; reflexivity |].
  exists question, st'. repeat split; assumption.
Defined.

(** The session with the good answer and the non-answer, from its start. *)
Lemma coach_only_accumulates_witness :
  accumulates (coach Sessions.started) (coach Sessions.after_dont_know).
Proof.
  apply (@coach_only_accumulates Demo.py Q _ Demo.texts Sessions.started
           Sessions.after_dont_know).
  unfold Sessions.after_dont_know, Sessions.after_good_answer.
  apply follows_process, follows_process, follows_here.
Defined.
